(** * devlib.utils.android: the adb command channel, connection manager and
      background-process discovery, embedded in Rocq.

    The development follows [src/devlib/utils/android.py].  Python text is
    modelled as [string] whose characters are the code points below 256;
    the shared class-level dictionaries of [AdbConnection] are finite maps;
    the host (the adb binary, the clock, [uuid4]) is a script of replies that
    the embedded functions consume through a small state-and-exception monad.
    Durations are integers counted in milliseconds. *)

From Stdlib Require Import ZArith List Ascii String Lia Bool.
From stdpp Require Import base gmap strings list.

Local Open Scope Z_scope.

(** ** Python string primitives *)

Module Py.

Definition LF : ascii := "010"%char.
Definition CR : ascii := "013"%char.
Definition DQ : ascii := "034"%char.
Definition SQ : ascii := "039"%char.
Definition BACKSLASH : ascii := "092"%char.

Definition chr (c : ascii) : string := String c EmptyString.

Definition is_empty (s : string) : bool :=
  match s with EmptyString => true | String _ _ => false end.

(** [sub in s] *)
Fixpoint contains (sub s : string) : bool :=
  String.prefix sub s ||
  match s with
  | EmptyString => false
  | String _ t => contains sub t
  end.

(** [s.replace(old, new)] for a non-empty [old]: occurrences are replaced from
    the left and do not overlap.  [skip] counts the characters of a matched
    occurrence that are still to be passed over. *)
Fixpoint replace_go (old new : string) (skip : nat) (s : string) : string :=
  match s with
  | EmptyString => EmptyString
  | String c t =>
      match skip with
      | S k => replace_go old new k t
      | O =>
          if String.prefix old s
          then new +:+ replace_go old new (String.length old - 1) t
          else String c (replace_go old new 0 t)
      end
  end.

Definition replace (old new s : string) : string := replace_go old new 0 s.

(** [sep.join(items)] *)
Fixpoint join (sep : string) (items : list string) : string :=
  match items with
  | [] => EmptyString
  | [x] => x
  | x :: rest => x +:+ sep +:+ join sep rest
  end.

(** The last occurrence of the character [sep] splits [s] in two. *)
Fixpoint rsplit_once (sep : ascii) (s : string) : option (string * string) :=
  match s with
  | EmptyString => None
  | String c t =>
      match rsplit_once sep t with
      | Some (a, b) => Some (String c a, b)
      | None => if Ascii.eqb c sep then Some (EmptyString, t) else None
      end
  end.

(** [s.rsplit(sep, maxsplit)] for a one-character separator. *)
Fixpoint rsplit (sep : ascii) (maxsplit : nat) (s : string) : list string :=
  match maxsplit with
  | O => [s]
  | S k =>
      match rsplit_once sep s with
      | None => [s]
      | Some (a, b) => rsplit sep k a ++ [b]
      end
  end.

(** [str.isspace] on one character (code points below 256). *)
Definition isspace (c : ascii) : bool :=
  let n := N_of_ascii c in
  ((9 <=? n) && (n <=? 13) || (28 <=? n) && (n <=? 32)
   || (n =? 133) || (n =? 160))%N.

Fixpoint lstrip (s : string) : string :=
  match s with
  | String c t => if isspace c then lstrip t else s
  | EmptyString => EmptyString
  end.

Fixpoint rstrip (s : string) : string :=
  match s with
  | EmptyString => EmptyString
  | String c t =>
      let t' := rstrip t in
      if isspace c && is_empty t' then EmptyString else String c t'
  end.

(** [s.strip()] *)
Definition strip (s : string) : string := rstrip (lstrip s).

(** [s.split()]: the maximal runs of non-whitespace characters. *)
Fixpoint split_go (cur : string) (s : string) : list string :=
  match s with
  | EmptyString => if is_empty cur then [] else [cur]
  | String c t =>
      if isspace c
      then (if is_empty cur then split_go EmptyString t
            else cur :: split_go EmptyString t)
      else split_go (cur +:+ chr c) t
  end.

Definition split (s : string) : list string := split_go EmptyString s.

(** Line boundaries of [str.splitlines] (code points below 256). *)
Definition is_linebreak (c : ascii) : bool :=
  let n := N_of_ascii c in
  ((10 <=? n) && (n <=? 13) || (28 <=? n) && (n <=? 30) || (n =? 133))%N.

(** [s.splitlines()]: a CR LF pair is one boundary and a final boundary opens
    no empty last line. *)
Fixpoint splitlines (s : string) : list string :=
  match s with
  | EmptyString => []
  | String c t =>
      if is_linebreak c then
        match t with
        | String c' t' =>
            if Ascii.eqb c CR && Ascii.eqb c' LF
            then EmptyString :: splitlines t'
            else EmptyString :: splitlines t
        | EmptyString => [EmptyString]
        end
      else
        match splitlines t with
        | [] => [chr c]
        | l :: ls => String c l :: ls
        end
  end.

(** [s.split(sep)] for a one-character separator, and its first field. *)
Fixpoint split_first (sep : ascii) (s : string) : string :=
  match s with
  | EmptyString => EmptyString
  | String c t =>
      if Ascii.eqb c sep then EmptyString else String c (split_first sep t)
  end.

(** Value of a decimal digit ['0'..'9']. *)
Definition decimal_value (c : ascii) : option Z :=
  let n := N_of_ascii c in
  if ((48 <=? n) && (n <=? 57))%N then Some (Z.of_N n - 48) else None.

(** [str.isdigit] on one character: the decimal digits and the superscript
    digits U+00B2, U+00B3 and U+00B9, which [int] refuses. *)
Definition isdigit_char (c : ascii) : bool :=
  let n := N_of_ascii c in
  ((48 <=? n) && (n <=? 57) || (n =? 178) || (n =? 179) || (n =? 185))%N.

Fixpoint all_chars (p : ascii -> bool) (s : string) : bool :=
  match s with
  | EmptyString => true
  | String c t => p c && all_chars p t
  end.

(** [s.isdigit()] *)
Definition isdigit (s : string) : bool :=
  negb (is_empty s) && all_chars isdigit_char s.

(** Digits of an integer literal: decimal digits, single underscores allowed
    between two digits only.  [prev] tells whether the previous character was
    a digit. *)
Fixpoint int_digits (acc : Z) (prev : bool) (s : string) : option Z :=
  match s with
  | EmptyString => if prev then Some acc else None
  | String c t =>
      match decimal_value c with
      | Some d => int_digits (10 * acc + d) true t
      | None =>
          if Ascii.eqb c "_"%char && prev then int_digits acc false t else None
      end
  end.

(** [int(s)]: [None] stands for [ValueError]. *)
Definition int (s : string) : option Z :=
  match strip s with
  | EmptyString => None
  | String c t =>
      if Ascii.eqb c "+"%char then int_digits 0 false t
      else if Ascii.eqb c "-"%char then Z.opp <$> int_digits 0 false t
      else int_digits 0 false (String c t)
  end.

(** [max(xs)] of integers: [None] stands for the [ValueError] on an empty
    sequence. *)
Definition max (xs : list Z) : option Z :=
  match xs with
  | [] => None
  | x :: rest => Some (fold_left Z.max rest x)
  end.

Definition digit_char (d : Z) : ascii := ascii_of_N (Z.to_N (48 + d)).

Fixpoint str_go (fuel : nat) (n : Z) (acc : string) : string :=
  match fuel with
  | O => acc
  | S f =>
      let acc' := String (digit_char (n mod 10)) acc in
      if n / 10 =? 0 then acc' else str_go f (n / 10) acc'
  end.

(** [str(n)] for an integer. *)
Definition str (n : Z) : string :=
  if n <? 0
  then String "-"%char (str_go (S (Z.to_nat (Z.log2 (- n)))) (- n) EmptyString)
  else str_go (S (Z.to_nat (Z.log2 n))) n EmptyString.

(** [shlex.quote] *)
Definition is_safe_char (c : ascii) : bool :=
  let n := N_of_ascii c in
  ((48 <=? n) && (n <=? 57) || (65 <=? n) && (n <=? 90)
   || (97 <=? n) && (n <=? 122) || (n =? 95)
   || (n =? 64) || (n =? 37) || (n =? 43) || (n =? 61) || (n =? 58)
   || (n =? 44) || (n =? 46) || (n =? 47) || (n =? 45))%N.

Definition quote (s : string) : string :=
  if is_empty s then chr SQ +:+ chr SQ
  else if all_chars is_safe_char s then s
  else chr SQ
       +:+ replace (chr SQ) (chr SQ +:+ chr DQ +:+ chr SQ +:+ chr DQ +:+ chr SQ) s
       +:+ chr SQ.

End Py.

(** ** Exceptions *)

(** A command as handed to the host: a shell line ([shell=True]) or an
    argument vector ([shell=False]). *)
Inductive cmd : Type :=
| Line (s : string)
| Argv (parts : list string).

(** The argument an exception is built from. *)
Inductive message : Type :=
| Text (s : string)
| StrCalledProcessError (returncode : Z) (c : cmd)  (* [str(e)], [e] a CalledProcessError *)
| OfStable (m : message).                           (* the caught TargetStableError itself *)

Inductive exn : Type :=
| CalledProcessError (returncode : Z) (c : cmd) (output stderr : string)
| TimeoutError (c : cmd)                     (* [devlib.exception.TimeoutError] *)
| TimeoutExpired (c : cmd)
| TargetStableError (m : message)
| TargetTransientError (m : message)
| TargetStableCalledProcessError (returncode : Z) (c : cmd) (output stderr : string)
| TargetTransientCalledProcessError (returncode : Z) (c : cmd) (output stderr : string)
| AdbRootError (m : message)
| HostError (m : string)
| ValueError
| IndexError
| TypeError.

(** Modelled from the spec: the class hierarchy of [devlib.exception], which
    is imported by the source and not part of it.  The process-exit error is
    "a stable error variant", a rejected root escalation is a stable remote
    error, and the hinted variants are transient. *)
Definition is_TargetStableError (e : exn) : bool :=
  match e with
  | TargetStableError _ | TargetStableCalledProcessError _ _ _ _
  | AdbRootError _ => true
  | _ => false
  end.

Definition is_TargetTransientError (e : exn) : bool :=
  match e with
  | TargetTransientError _ | TargetTransientCalledProcessError _ _ _ _ => true
  | _ => false
  end.

(** The process-exit errors: they carry the exit code and both streams. *)
Definition is_process_exit (e : exn) : bool :=
  match e with
  | CalledProcessError _ _ _ _ | TargetStableCalledProcessError _ _ _ _
  | TargetTransientCalledProcessError _ _ _ _ => true
  | _ => false
  end.

Inductive result (A : Type) : Type :=
| Ok (a : A)
| Err (e : exn).
Arguments Ok {A} a.
Arguments Err {A} e.

(** ** The host and the shared state *)

(** What the host answers to one command: the exit status with both captured
    streams, or no answer within the timeout; and how long it took. *)
Inductive Outcome : Type :=
| Exited (returncode : Z) (stdout stderr : string)
| Expired.

Record Reply : Type := mkReply { outcome : Outcome; took : N }.

Inductive Event : Type :=
| Ev_run (c : cmd) (timeout : option Z)
| Ev_popen (c : string)
| Ev_adb_disconnect (device : string)
| Ev_sleep (ms : Z).

Record World : Type := mkWorld {
  nr_active : gmap string Z;                   (* AdbConnection.active_connections[1] *)
  _connected_as_root : gmap string (option bool);  (* AdbConnection._connected_as_root *)
  env_adb : string;                            (* _ANDROID_ENV.get_env('adb') *)
  now : Z;                                     (* time.time() *)
  script : list Reply;                         (* the host's future answers *)
  uuids : list string;                         (* the future uuid4().hex values *)
  trace : list Event                           (* host actions, latest first *)
}.

Definition set_nr_active (f : gmap string Z -> gmap string Z) (w : World) : World :=
  mkWorld (f (nr_active w)) (_connected_as_root w) (env_adb w) (now w)
          (script w) (uuids w) (trace w).

Definition set_connected_as_root
    (f : gmap string (option bool) -> gmap string (option bool)) (w : World) : World :=
  mkWorld (nr_active w) (f (_connected_as_root w)) (env_adb w) (now w)
          (script w) (uuids w) (trace w).

Definition emit (ev : Event) (w : World) : World :=
  mkWorld (nr_active w) (_connected_as_root w) (env_adb w) (now w)
          (script w) (uuids w) (ev :: trace w).

Definition elapse (ms : Z) (w : World) : World :=
  mkWorld (nr_active w) (_connected_as_root w) (env_adb w) (now w + ms)
          (script w) (uuids w) (trace w).

Definition set_script (s : list Reply) (w : World) : World :=
  mkWorld (nr_active w) (_connected_as_root w) (env_adb w) (now w)
          s (uuids w) (trace w).

Definition set_uuids (u : list string) (w : World) : World :=
  mkWorld (nr_active w) (_connected_as_root w) (env_adb w) (now w)
          (script w) u (trace w).

(** ** The monad: shared state, exceptions, and a host that may fall silent

    A computation returns [None] when the script holds no further answer. *)
Definition M (A : Type) : Type := World -> option (result A) * World.

Definition ret {A} (a : A) : M A := fun w => (Some (Ok a), w).
Definition raise {A} (e : exn) : M A := fun w => (Some (Err e), w).

Definition bind {A B} (m : M A) (k : A -> M B) : M B :=
  fun w =>
    match m w with
    | (Some (Ok a), w') => k a w'
    | (Some (Err e), w') => (Some (Err e), w')
    | (None, w') => (None, w')
    end.

(** [try: ... except Exception as e:] with the exception handed back as a
    value; the handler re-raises what its clauses do not name. *)
Definition attempt {A} (m : M A) : M (result A) :=
  fun w =>
    match m w with
    | (Some r, w') => (Some (Ok r), w')
    | (None, w') => (None, w')
    end.

Definition lift {A} (r : result A) : M A := fun w => (Some r, w).

Definition get {A} (f : World -> A) : M A := fun w => (Some (Ok (f w)), w).
Definition modify (f : World -> World) : M unit := fun w => (Some (Ok tt), f w).

Notation "x <- c1 ; c2" := (bind c1 (fun x => c2))
  (at level 20, c1 at level 100, c2 at level 200, only parsing).
Notation "' pat <- c1 ; c2" := (bind c1 (fun x => match x with pat => c2 end))
  (at level 20, pat pattern, c1 at level 100, c2 at level 200, only parsing).

(** *** Host primitives *)

(** Takes the host's next answer; the clock advances by its duration. *)
Definition next_reply (ev : Event) : M Outcome :=
  fun w =>
    match script w with
    | [] => (None, w)
    | r :: rest =>
        (Some (Ok (outcome r)),
         emit ev (elapse (Z.of_N (took r)) (set_script rest w)))
    end.

(** Modelled from the spec: [devlib.utils.misc.check_output], the transport
    boundary ("run this shell command string, with optional timeout, returning
    captured text and a completion status").  A non-zero status raises
    [CalledProcessError] with both streams, an expired timeout raises
    [TimeoutError]. *)
Definition check_output (command : cmd) (timeout : option Z) : M (string * string) :=
  o <- next_reply (Ev_run command timeout);
  match o with
  | Exited rc out err =>
      if rc =? 0 then ret (out, err)
      else raise (CalledProcessError rc command out err)
  | Expired => raise (TimeoutError command)
  end.

(** [subprocess.check_output(command, stderr=subprocess.STDOUT, shell=True)] *)
Definition subprocess_check_output (command : string) : M string :=
  o <- next_reply (Ev_run (Line command) None);
  match o with
  | Exited rc out err =>
      if rc =? 0 then ret out
      else raise (CalledProcessError rc (Line command) out err)
  | Expired => raise (TimeoutExpired (Line command))
  end.

(** [time.time()] and [time.sleep(ms)] *)
Definition time : M Z := get now.
Definition sleep (ms : Z) : M unit := modify (fun w => emit (Ev_sleep ms) (elapse ms w)).

(** [uuid.uuid4().hex] *)
Definition uuid4_hex : M string :=
  fun w =>
    match uuids w with
    | [] => (None, w)
    | u :: rest => (Some (Ok u), set_uuids rest w)
    end.

(** [subprocess.Popen(full_command, ..., shell=True)]: the local handle. *)
Record Popen : Type := mkPopen { args : string }.

Definition subprocess_Popen (full_command : string) : M Popen :=
  _ <- modify (emit (Ev_popen full_command)) ; ret (mkPopen full_command).

(** ** Module-level functions of [devlib.utils.android] *)

Import Py.

Definition MAX_ATTEMPTS : Z := 5.

Definition until_newline : string -> string := split_first LF.

(** [AM_START_ERROR.findall(output)], the pattern being [Error: Activity.*]:
    every occurrence of the literal, each extended to the end of its line. *)
Fixpoint AM_START_ERROR_findall_go (skip : nat) (s : string) : list string :=
  match s with
  | EmptyString => []
  | String c t =>
      match skip with
      | S k => AM_START_ERROR_findall_go k t
      | O =>
          if String.prefix "Error: Activity" s
          then let m := until_newline s in
               m :: AM_START_ERROR_findall_go (String.length m - 1) t
          else AM_START_ERROR_findall_go 0 t
      end
  end.

Definition AM_START_ERROR_findall (s : string) : list string :=
  AM_START_ERROR_findall_go 0 s.

(** [str(x)] of an optional value, as an f-string prints it. *)
Definition str_option {A} (f : A -> string) (x : option A) : string :=
  match x with Some a => f a | None => "None" end.

Definition _get_adb_parts (adb : string) (command : list string)
    (device adb_server : option string) (adb_port : option Z) (quote_adb : bool)
  : list string * list (string * string) :=
  let _quote := if quote_adb then quote else (fun x => x) in
  let parts :=
    [adb]
    ++ match adb_server with Some s => ["-H"; _quote s] | None => [] end
    ++ match adb_port with Some p => ["-P"; _quote (str p)] | None => [] end
    ++ match device with Some d => ["-s"; _quote d] | None => [] end
    ++ command in
  (parts, [("LC_ALL", "C")]).

Definition get_adb_command (device : option string) (command : string)
    (adb_server : option string) (adb_port : option Z) : M string :=
  adb <- get env_adb;
  let '(parts, env) := _get_adb_parts adb [command] device adb_server adb_port true in
  let env := map (fun '(name, val) => quote (name +:+ "=" +:+ val)) env in
  ret (join " " (env ++ parts)).

Definition adb_command (device : option string) (command : string)
    (timeout : option Z) (adb_server : option string) (adb_port : option Z)
  : M string :=
  full_command <- get_adb_command device command adb_server adb_port;
  '(output, _) <- check_output (Line full_command) timeout;
  ret output.

Definition stuck {A} : M A := fun w => (None, w).

(** The [while True] loop of [adb_get_device].  Every round takes one answer
    from the host, so [S (length script)] rounds are never used up. *)
Fixpoint adb_get_device_loop (rounds : nat) (timeout : option Z)
    (adb_server : option string) (adb_port : option Z) (start : Z) : M string :=
  match rounds with
  | O => stuck
  | S k =>
      text <- adb_command None "devices" None adb_server adb_port;
      let output := splitlines text in
      let output_length := Z.of_nat (length output) in
      if output_length =? 3 then
        ret (split_first "009"%char (nth 1 output EmptyString))
      else if 3 <? output_length then
        raise (HostError (str (output_length - 2)
          +:+ " Android devices found; either explicitly specify "
          +:+ "the device you want, or make sure only one is connected."))
      else
        t <- time;
        match timeout with
        | None => raise TypeError     (* None < float *)
        | Some timeout =>
            if timeout <? t - start
            then raise (HostError "No device is connected and available")
            else _ <- sleep 1000; adb_get_device_loop k (Some timeout) adb_server adb_port start
        end
  end.

Definition adb_get_device (timeout : option Z) (adb_server : option string)
    (adb_port : option Z) : M string :=
  _ <- adb_command None "start-server" None adb_server adb_port;
  start <- time;
  rounds <- get (fun w => S (length (script w)));
  adb_get_device_loop rounds timeout adb_server adb_port start.

Record AdbDevice : Type := mkAdbDevice { name : string; status : string }.

Definition adb_list_devices (adb_server : option string) (adb_port : option Z)
  : M (list AdbDevice) :=
  output <- adb_command None "devices" None adb_server adb_port;
  ret (omap (fun line => match split line with
                         | [n; s] => Some (mkAdbDevice n s)
                         | _ => None
                         end) (splitlines output)).

(** [device in devices] for a string and a list of [AdbDevice]: the class
    defines [__cmp__] only, which Python 3 never calls, so an [AdbDevice]
    compares unequal to every string. *)
Definition str_in_devices (device : string) (devices : list AdbDevice) : bool :=
  existsb (fun _ => false) devices.

(** [subprocess.call(command, stdout=subprocess.DEVNULL, shell=True)] *)
Definition subprocess_call (command : string) : M Z :=
  o <- next_reply (Ev_run (Line command) None);
  match o with
  | Exited rc _ _ => ret rc
  | Expired => raise (TimeoutExpired (Line command))
  end.

(** The body of [adb_disconnect]. *)
Definition adb_disconnect_body (device : string) (adb_server : option string)
    (adb_port : option Z) : M unit :=
  if is_empty device then ret tt
  else if contains ":" device then
    devices <- adb_list_devices adb_server adb_port;
    if str_in_devices device devices then
      adb_cmd <- get_adb_command None "disconnect" adb_server adb_port;
      let command := adb_cmd +:+ " " +:+ device in
      retval <- subprocess_call command;
      if retval =? 0 then ret tt
      else raise (TargetTransientError
                    (Text (chr DQ +:+ command +:+ chr DQ +:+ " returned " +:+ str retval)))
    else ret tt
  else ret tt.

(** [adb_disconnect]: every call is recorded in the trace, whatever its body
    then does on the host. *)
Definition adb_disconnect (device : string) (adb_server : option string)
    (adb_port : option Z) : M unit :=
  _ <- modify (emit (Ev_adb_disconnect device));
  adb_disconnect_body device adb_server adb_port.

Definition _ping (device : string) (adb_server : option string)
    (adb_port : option Z) : M bool :=
  adb_cmd <- get_adb_command (Some device) "shell" adb_server adb_port;
  let command := adb_cmd +:+ " " +:+ quote "ls /data/local/tmp > /dev/null" in
  r <- attempt (subprocess_check_output command);
  match r with
  | Ok _ => ret true
  | Err (CalledProcessError _ _ _ _) => ret false
  | Err e => raise e
  end.

(** The [while tries <= attempts] loop of [adb_connect]; [rounds] is the
    number of rounds left, [attempts + 1] at the start. *)
Fixpoint adb_connect_loop (rounds : nat) (device : string) (timeout : option Z)
    (adb_server : option string) (adb_port : option Z) (output : option string)
  : M unit :=
  match rounds with
  | O =>
      let message :=
        "Could not connect to " +:+ (if is_empty device then "a device" else device)
        +:+ " at " +:+ str_option (fun s => s) adb_server
        +:+ ":" +:+ str_option str adb_port in
      raise (HostError
               match output with
               | Some o => if is_empty o then message else message +:+ "; got: " +:+ o
               | None => message
               end)
  | S k =>
      output <- (if negb (is_empty device) && contains "." device then
                  _ <- adb_disconnect device adb_server adb_port;
                  adb_cmd <- get_adb_command None "connect" adb_server adb_port;
                  let command := adb_cmd +:+ " " +:+ quote device in
                  '(o, _) <- check_output (Line command) timeout;
                  ret (Some o)
                else ret output);
      alive <- _ping device adb_server adb_port;
      if alive then ret tt
      else _ <- sleep 10000; adb_connect_loop k device timeout adb_server adb_port output
  end.

Definition adb_connect (device : string) (timeout : option Z) (attempts : Z)
    (adb_server : option string) (adb_port : option Z) : M unit :=
  adb_connect_loop (Z.to_nat (attempts + 1)) device timeout adb_server adb_port None.

(** The three steps of [adb_shell]: wrapping the command, splitting the raw
    capture, and checking the exit code. *)
Definition adb_shell_wrap (command : string) (as_root : bool) (su_cmd : string)
  : list string :=
  let command :=
    "(" +:+ command +:+ "); echo " +:+ chr DQ +:+ chr BACKSLASH +:+ "n$?" +:+ chr DQ in
  let command := if as_root then replace "{}" (quote command) su_cmd else command in
  ["shell"; command].

Definition normalize_newlines (raw_output : string) : string :=
  replace (chr CR) (chr LF) (replace (chr CR +:+ chr LF) (chr LF) raw_output).

(** Returns [(output, exit_code)]. *)
Definition adb_shell_split (raw_output : string) : result (string * string) :=
  if negb (is_empty raw_output) then
    match rsplit LF 2 (normalize_newlines raw_output) with
    | [output; exit_code; _] => Ok (output, exit_code)
    | _ =>
        match rsplit LF 1 (normalize_newlines raw_output) with
        | [exit_code; _] => Ok (EmptyString, exit_code)
        | _ => Err ValueError
        end
    end
  else Ok (EmptyString, "969696").

Definition start_activity_message (found : string) : message :=
  Text ("Could not start activity; got the following:" +:+ chr LF +:+ found).

Definition returned_early_message (raw_output error : string) : message :=
  Text ("adb has returned early; did not get an exit code. "
        +:+ "Was kill-server invoked?" +:+ chr LF +:+ "OUTPUT:" +:+ chr LF
        +:+ "-----" +:+ chr LF +:+ raw_output +:+ chr LF
        +:+ "-----" +:+ chr LF +:+ "STDERR:" +:+ chr LF +:+ "-----" +:+ chr LF
        +:+ error +:+ chr LF +:+ "-----").

Definition adb_shell_check (command : list string)
    (raw_output output exit_code error : string) : result unit :=
  let exit_code := strip exit_code in
  let re_search := AM_START_ERROR_findall output in
  if isdigit exit_code then
    match int exit_code with
    | None => Err ValueError
    | Some exit_code =>
        if negb (exit_code =? 0)
        then Err (CalledProcessError exit_code (Argv command) output error)
        else match re_search with
             | found :: _ => Err (TargetStableError (start_activity_message found))
             | [] => Ok tt
             end
    end
  else
    match re_search with
    | found :: _ => Err (TargetStableError (start_activity_message found))
    | [] => Err (TargetTransientError (returned_early_message raw_output error))
    end.

Definition adb_shell (device : option string) (command : string)
    (timeout : option Z) (check_exit_code as_root : bool)
    (adb_server : option string) (adb_port : option Z) (su_cmd : string)
  : M string :=
  let command := adb_shell_wrap command as_root su_cmd in
  adb <- get env_adb;
  let '(parts, env) := _get_adb_parts adb command device adb_server adb_port false in
  r <- attempt (check_output (Argv parts) timeout);
  match r with
  | Err (CalledProcessError rc c _ _) =>
      raise (TargetStableError (StrCalledProcessError rc c))
  | Err e => raise e
  | Ok (raw_output, error) =>
      '(output, exit_code) <- lift (adb_shell_split raw_output);
      _ <- (if check_exit_code
            then lift (adb_shell_check command raw_output output exit_code error)
            else ret tt);
      ret (join (chr LF) (filter (fun x => negb (is_empty x)) [output; error]))
  end.

(** ** class AdbConnection *)

(** The two class-level dictionaries are [defaultdict]s: reading a missing
    key stores the default under it.  The lock around them has no effect in
    this sequential model. *)
Definition nr_active_getitem (k : string) : M Z :=
  fun w =>
    match nr_active w !! k with
    | Some n => (Some (Ok n), w)
    | None => (Some (Ok 0), set_nr_active (insert k 0) w)
    end.

Definition nr_active_setitem (k : string) (v : Z) : M unit :=
  modify (set_nr_active (insert k v)).

Definition nr_active_delitem (k : string) : M unit :=
  modify (set_nr_active (delete k)).

Definition connected_as_root_getitem (k : string) : M (option bool) :=
  fun w =>
    match _connected_as_root w !! k with
    | Some v => (Some (Ok v), w)
    | None => (Some (Ok None), set_connected_as_root (insert k None) w)
    end.

Definition connected_as_root_setitem (k : string) (v : option bool) : M unit :=
  modify (set_connected_as_root (insert k v)).

Module AdbConnection.

Record t : Type := mk {
  device : string;
  timeout : Z;
  adb_server : option string;
  adb_port : option Z;
  adb_as_root : bool;
  _restore_to_adb_root : bool;
  ls_command : string;
  su_cmd : string
}.

Definition default_timeout : Z := 10000.

(** The [try] statement of [execute], with [as_root] already decided.  The
    two [except] clauses are matched on the classes themselves: [adb_shell]
    raises no instance of a subclass of either. *)
Definition execute_try (self : t) (command : string) (timeout : option Z)
    (check_exit_code as_root will_succeed : bool) : M string :=
  r <- attempt (adb_shell (Some (device self)) command timeout check_exit_code
                  as_root (adb_server self) (adb_port self) (su_cmd self));
  match r with
  | Ok out => ret out
  | Err (CalledProcessError returncode _ output stderr) =>
      raise ((if will_succeed then TargetTransientCalledProcessError
              else TargetStableCalledProcessError)
               returncode (Line command) output stderr)
  | Err (TargetStableError m) =>
      if will_succeed then raise (TargetTransientError (OfStable m))
      else raise (TargetStableError m)
  | Err e => raise e
  end.

(** The property [connected_as_root].  Its [self.execute('id')] leaves
    [as_root] at [False], so that call does not read the property again. *)
Definition connected_as_root (self : t) : M (option bool) :=
  cached <- connected_as_root_getitem (device self);
  _ <- match cached with
       | None =>
           result <- execute_try self "id" None true false false;
           connected_as_root_setitem (device self) (Some (contains "uid=0(" result))
       | Some _ => ret tt
       end;
  connected_as_root_getitem (device self).

Definition truthy (v : option bool) : bool :=
  match v with Some true => true | _ => false end.

Definition execute (self : t) (command : string) (timeout : option Z)
    (check_exit_code as_root will_succeed : bool) : M string :=
  as_root <- (if as_root
              then c <- connected_as_root self; ret (negb (truthy c))
              else ret false);
  execute_try self command timeout check_exit_code as_root will_succeed.

Definition is_rooted (out : string) : bool :=
  contains "adbd is already running as root" out.

Definition busy_message : message :=
  Text "Can only restart adb server if no other connection is active".

Definition _adb_root (self : t) (enable : bool) : M bool :=
  n <- nr_active_getitem (device self);
  let can_root := n <=? 1 in
  if negb can_root then raise (AdbRootError busy_message)
  else
    let cmd := if enable then "root" else "unroot" in
    r <- attempt (adb_command (Some (device self)) cmd (Some 30000)
                    (adb_server self) (adb_port self));
    was_rooted <-
      match r with
      | Err (CalledProcessError rc c output _) =>
          let was_rooted := is_rooted output in
          if negb was_rooted
          then raise (AdbRootError (StrCalledProcessError rc c))
          else ret was_rooted
      | Err e => raise e
      | Ok output =>
          let was_rooted := is_rooted output in
          if contains "cannot run as root in production builds" output
          then raise (AdbRootError (Text output))
          else ret was_rooted
      end;
    _ <- connected_as_root_setitem (device self) (Some enable);
    ret was_rooted.

Definition adb_root (self : t) (enable : bool) : M unit :=
  _ <- _adb_root self enable; ret tt.

Definition _setup_ls (self : t) : M string :=
  let command :=
    "shell '(ls -1); echo " +:+ chr DQ +:+ chr LF +:+ "$?" +:+ chr DQ +:+ "'" in
  r <- attempt (adb_command (Some (device self)) command (Some (timeout self))
                  (adb_server self) (adb_port self));
  match r with
  | Err (CalledProcessError _ _ output _) =>
      raise (HostError ("Failed to set up ls command on Android device. Output:"
                        +:+ chr LF +:+ output))
  | Err e => raise e
  | Ok output =>
      match last (splitlines output) with
      | None => raise IndexError
      | Some l =>
          match int (strip l) with
          | None => raise ValueError
          | Some retval => ret (if retval =? 0 then "ls -1" else "ls")
          end
      end
  end.

(** Returns the value [self.su_cmd] has afterwards.  The third class of the
    [except] clause is Python's built-in [TimeoutError]: the module does not
    import the class of that name that [check_output] raises, so an expired
    timeout is not caught here. *)
Definition _setup_su (self : t) : M string :=
  c <- connected_as_root self;
  if truthy c then ret (su_cmd self)
  else
    r <- attempt (execute self "ls" (Some (timeout self)) true true false);
    match r with
    | Ok _ => ret (su_cmd self)
    | Err e =>
        if is_TargetStableError e || is_TargetTransientError e
        then ret "echo {} | su"
        else raise e
    end.

(** The constructor; it returns the object it has set up.  The transfer
    options are handed to [ConnectionBase.__init__], which is not part of the
    source, and the debug log is left out.  [ls_command] and [su_cmd] start
    from the class attributes. *)
Definition __init__ (device : option string) (timeout : option Z)
    (adb_server : option string) (adb_port : option Z) (adb_as_root : bool)
    (connection_attempts : Z) : M t :=
  let self_timeout := match timeout with Some x => x | None => default_timeout end in
  device <- match device with
            | None => adb_get_device timeout adb_server adb_port
            | Some d => ret d
            end;
  let self := mk device self_timeout adb_server adb_port adb_as_root false "ls" "su -c {}" in
  n <- nr_active_getitem device;
  _ <- nr_active_setitem device (n + 1);
  restore <- (if adb_as_root then
                r <- attempt (_adb_root self true);
                match r with
                | Ok was_rooted => ret was_rooted
                | Err (AdbRootError _) => ret false
                | Err e => raise e
                end
              else ret false);
  let self := mk device self_timeout adb_server adb_port adb_as_root restore "ls" "su -c {}" in
  _ <- adb_connect device None connection_attempts adb_server adb_port;
  ls <- _setup_ls self;
  let self := mk device self_timeout adb_server adb_port adb_as_root restore ls "su -c {}" in
  su <- _setup_su self;
  ret (mk device self_timeout adb_server adb_port adb_as_root restore ls su).

Definition _close (self : t) : M unit :=
  n <- nr_active_getitem (device self);
  _ <- nr_active_setitem (device self) (n - 1);
  n <- nr_active_getitem (device self);
  let disconnect := n <=? 0 in
  _ <- (if disconnect then nr_active_delitem (device self) else ret tt);
  if disconnect then
    _ <- (if adb_as_root self then adb_root self (_restore_to_adb_root self) else ret tt);
    adb_disconnect (device self) (adb_server self) (adb_port self)
  else ret tt.

End AdbConnection.

(** ** adb_background_shell *)


Definition traverse_int (tokens : list string) : option (list Z) :=
  mapM int tokens.

(** One round of the discovery loop: the body of its [try]. *)
Definition find_pid_once (conn : AdbConnection.t) (find_pid : string)
    (as_root : bool) : M Z :=
  pids <- AdbConnection.execute conn find_pid None true as_root false;
  match traverse_int (split pids) with
  | None => raise ValueError
  | Some xs => match Py.max xs with
               | None => raise ValueError
               | Some pid => ret pid
               end
  end.

(** The [for _ in range(5)] loop with its [else] clause. *)
Fixpoint find_pid_loop (rounds : nat) (conn : AdbConnection.t)
    (find_pid orig_command : string) (as_root : bool) : M Z :=
  match rounds with
  | O =>
      raise (TargetTransientError
               (Text ("Could not detect PID of background command: " +:+ orig_command)))
  | S k =>
      r <- attempt (find_pid_once conn find_pid as_root);
      match r with
      | Ok pid => ret pid
      | Err e =>
          if is_TargetStableError e then raise e
          else _ <- sleep 10;
               find_pid_loop k conn find_pid orig_command as_root
      end
  end.


(** * Vocabulary of the statements *)

Definition CRLF : string := String CR (String LF "").

Definition no_char (x : ascii) (s : string) : bool :=
  all_chars (fun c => negb (Ascii.eqb c x)) s.

Fixpoint ends_with (x : ascii) (s : string) : bool :=
  match s with
  | EmptyString => false
  | String c EmptyString => Ascii.eqb c x
  | String _ t => ends_with x t
  end.

(** Decimal texts: the non-empty strings of the digits ['0'..'9']. *)
Definition dec_char (c : ascii) : bool :=
  match decimal_value c with Some _ => true | None => false end.

Definition decimal (s : string) : bool := negb (is_empty s) && all_chars dec_char s.

(** The device's side of the exit-code protocol, which is not code of the
    source: what it prints for the wrapped command is the command's own output
    [body], then the line break and the exit code written by [echo], then the
    line break that ends [echo]'s output.  [eol1] and [eol2] are the two line
    breaks as the transport delivers them. *)
Definition capture (body : string) (code : Z) (eol1 eol2 : string) : string :=
  body +:+ eol1 +:+ str code +:+ eol2.

Definition is_eol (e : string) : Prop := e = chr LF \/ e = CRLF \/ e = chr CR.

(** [adb_shell] recovers [output] and the numeric [code] from [raw]. *)
Definition recovers (raw output : string) (code : Z) : Prop :=
  exists exit_code,
    adb_shell_split raw = Ok (output, exit_code)
    /\ isdigit (strip exit_code) = true /\ int (strip exit_code) = Some code.

(** The world after the host has given its answer [r] to the action [ev]. *)
Definition after_reply (ev : Event) (r : Reply) (rest : list Reply) (w : World) : World :=
  emit ev (elapse (Z.of_N (took r)) (set_script rest w)).

(** The argument vector [adb_shell] hands to [check_output]. *)
Definition shell_parts (w : World) (device : option string) (command : string)
    (as_root : bool) (adb_server : option string) (adb_port : option Z)
    (su_cmd : string) : list string :=
  fst (_get_adb_parts (env_adb w) (adb_shell_wrap command as_root su_cmd)
         device adb_server adb_port false).

(** The number of active connections recorded for a device. *)
Definition count (w : World) (d : string) : Z := default 0 (nr_active w !! d).

(** The root status of the connection's device is cached, or root is not
    asked for: [execute] then goes straight to [adb_shell]. *)
Definition root_resolved (w : World) (self : AdbConnection.t) (as_root : bool) : Prop :=
  as_root = false \/ exists b, _connected_as_root w !! AdbConnection.device self = Some (Some b).

(** [as_root] as [execute] passes it on once the cache has been consulted. *)
Definition effective_as_root (w : World) (self : AdbConnection.t) (as_root : bool) : bool :=
  as_root && negb (AdbConnection.truthy
                     (default None (_connected_as_root w !! AdbConnection.device self))).

(** What [adb_shell] makes of the host's answer. *)
Definition adb_shell_result (command parts : list string) (check_exit_code : bool)
    (o : Outcome) : result string :=
  match o with
  | Expired => Err (TimeoutError (Argv parts))
  | Exited rc raw_output error =>
      if rc =? 0 then
        match adb_shell_split raw_output with
        | Err e => Err e
        | Ok (output, exit_code) =>
            match (if check_exit_code
                   then adb_shell_check command raw_output output exit_code error
                   else Ok tt) with
            | Err e => Err e
            | Ok _ => Ok (join (chr LF) (filter (fun x => negb (is_empty x)) [output; error]))
            end
        end
      else Err (TargetStableError (StrCalledProcessError rc (Argv parts)))
  end.

(** What [execute] turns a failure of [adb_shell] into. *)
Definition reclassify (will_succeed : bool) (command : string) (e : exn) : exn :=
  match e with
  | CalledProcessError rc _ output stderr =>
      (if will_succeed then TargetTransientCalledProcessError
       else TargetStableCalledProcessError) rc (Line command) output stderr
  | TargetStableError m =>
      if will_succeed then TargetTransientError (OfStable m) else TargetStableError m
  | e => e
  end.

(** The only exceptions that leave [adb_shell]. *)
Definition adb_shell_exn (e : exn) : Prop :=
  match e with
  | TargetStableError _ | TargetTransientError _ | CalledProcessError _ _ _ _
  | TimeoutError _ | ValueError => True
  | _ => False
  end.

(** The shell line [get_adb_command] builds. *)
Definition adb_line (w : World) (device : option string) (command : string)
    (adb_server : option string) (adb_port : option Z) : string :=
  let '(parts, env) := _get_adb_parts (env_adb w) [command] device adb_server adb_port true in
  join " " (map (fun '(name, val) => quote (name +:+ "=" +:+ val)) env ++ parts).

(** What [adb_command] makes of the host's answer to the line [full]. *)
Definition adb_command_result (full : string) (o : Outcome) : result string :=
  match o with
  | Exited rc out err =>
      if rc =? 0 then Ok out else Err (CalledProcessError rc (Line full) out err)
  | Expired => Err (TimeoutError (Line full))
  end.

(** Reading [nr_active[k]] stores the default under a missing key. *)
Definition touch (k : string) (w : World) : World :=
  match nr_active w !! k with
  | Some _ => w
  | None => set_nr_active (insert k 0) w
  end.

(** The number of [adb_disconnect] calls for a device in a trace. *)
Definition is_disconnect_of (d : string) (ev : Event) : bool :=
  match ev with
  | Ev_adb_disconnect d' => bool_decide (d' = d)
  | _ => false
  end.

Definition disconnects (d : string) (tr : list Event) : nat :=
  length (filter (fun ev => is_disconnect_of d ev = true) tr).

(** The toggle once the busy check has passed. *)
Definition toggle_result (enable : bool) (full : string) (o : Outcome)
  : result bool :=
  match o with
  | Exited rc output err =>
      if rc =? 0 then
        if contains "cannot run as root in production builds" output
        then Err (AdbRootError (Text output))
        else Ok (AdbConnection.is_rooted output)
      else
        if AdbConnection.is_rooted output then Ok true
        else Err (AdbRootError (StrCalledProcessError rc (Line full)))
  | Expired => Err (TimeoutError (Line full))
  end.

(** [m] never breaks [P]. *)
Definition preserves {A} (P : World -> Prop) (m : M A) : Prop :=
  forall w, P w -> P (snd (m w)).


(** ** Connection lifecycles *)


Inductive label : Type :=
| Constructed (c : AdbConnection.t)   (* a construction that returned [c] *)
| Failed (d : string) (e : exn)       (* one for [d] that raised after it had counted itself *)
| Undiscovered (e : exn)              (* one that raised before it had a device *)
| Closed (c : AdbConnection.t) (r : result unit).   (* a close, and how it ended *)











Definition counts_are (f : string -> Z) (w : World) : Prop :=
  forall d, count w d = f d.

Definition disconnects_are (d : string) (n : nat) (w : World) : Prop :=
  disconnects d (trace w) = n.

(** The root status of device [d] is cached. *)
Definition known (d : string) (w : World) : Prop :=
  exists b, _connected_as_root w !! d = Some (Some b).

(** ** Device discovery *)

(** The host answers the enumeration with [text], which lists [n] devices:
    a heading line, one line for each device and a final blank line. *)
Definition lists_devices (n : Z) (r : Reply) : Prop :=
  exists text err, outcome r = Exited 0 text err
                   /\ Z.of_nat (length (splitlines text)) = n + 2.

(** The host answers the enumeration with no device line. *)
Definition lists_no_device (r : Reply) : Prop :=
  exists text err, outcome r = Exited 0 text err
                   /\ Z.of_nat (length (splitlines text)) < 3.

Definition too_many_devices_message (n : Z) : string :=
  str n +:+ " Android devices found; either explicitly specify "
  +:+ "the device you want, or make sure only one is connected.".

Definition no_device_error : exn := HostError "No device is connected and available".

(** ** Background launches *)

(** What one round of the discovery loop makes of the host's answer. *)
Definition find_pid_result (conn : AdbConnection.t) (find_pid : string)
    (as_root : bool) (w : World) (o : Outcome) : result Z :=
  let as_root := effective_as_root w conn as_root in
  match adb_shell_result
          (adb_shell_wrap find_pid as_root (AdbConnection.su_cmd conn))
          (shell_parts w (Some (AdbConnection.device conn)) find_pid as_root
             (AdbConnection.adb_server conn) (AdbConnection.adb_port conn)
             (AdbConnection.su_cmd conn))
          true o with
  | Err e => Err (reclassify false find_pid e)
  | Ok pids =>
      match traverse_int (split pids) with
      | None => Err ValueError
      | Some xs => match Py.max xs with
                   | None => Err ValueError
                   | Some pid => Ok pid
                   end
      end
  end.

(** A round that fails and is tried again. *)
Definition misses (conn : AdbConnection.t) (find_pid : string) (as_root : bool)
    (w : World) (r : Reply) : Prop :=
  exists e, find_pid_result conn find_pid as_root w (outcome r) = Err e
            /\ is_TargetStableError e = false.

(** The pauses recorded in a trace, latest first. *)
Definition backoffs (tr : list Event) : list Z :=
  omap (fun ev => match ev with Ev_sleep ms => Some ms | _ => None end) tr.



(** ** Concrete inputs *)

Definition nl : string := chr LF.

(** A host answer with exit status 0, the given standard output and no
    duration. *)
Definition answers (out : string) : Reply := mkReply (Exited 0 out "") 0.

(** A host answer with a non-zero exit status. *)
Definition fails_with (rc : Z) (out : string) : Reply := mkReply (Exited rc out "") 0.

(** A fresh process: empty dictionaries, the clock at zero. *)
Definition fresh_world (replies : list Reply) : World :=
  mkWorld ∅ ∅ "adb" 0 replies ["c0ffee"] [].

(** A connection to a device addressed by its serial number. *)
Definition sample_conn : AdbConnection.t :=
  AdbConnection.mk "emulator-5554" 10000 None None false false "ls -1" "su -c {}".

(** A process in which two connections to the sample device are open. *)
Definition busy_world (replies : list Reply) : World :=
  mkWorld {["emulator-5554" := 2]} {["emulator-5554" := Some false]} "adb" 0
          replies ["c0ffee"] [].

(** A process in which one connection to the sample device is open. *)
Definition single_world (replies : list Reply) : World :=
  mkWorld {["emulator-5554" := 1]} {["emulator-5554" := Some false]} "adb" 0
          replies ["c0ffee"] [].

(** The enumeration of the attached devices, one line each. *)
Definition devices_listing (lines : list string) : string :=
  "List of devices attached" +:+ nl
  +:+ foldr (fun l acc => l +:+ nl +:+ acc) nl lines.

(** What the device prints for a command that succeeds with one line of
    output: the line, then the exit code written by the wrapper. *)
Definition shell_banner : string := "uid=2000(shell)" +:+ nl +:+ "0" +:+ nl.


(** * Further parts of the module *)

(** ** More of Python's strings and dictionaries *)

Module PyStr.

(** [s.split(sep)] for a one-character separator: every field, the empty
    ones included. *)
Fixpoint split_sep (sep : ascii) (s : string) : list string :=
  match s with
  | EmptyString => [EmptyString]
  | String c t =>
      if Ascii.eqb c sep then EmptyString :: split_sep sep t
      else match split_sep sep t with
           | x :: xs => String c x :: xs
           | [] => [chr c]
           end
  end.

(** [s.startswith(p)] *)
Definition startswith (p s : string) : bool := String.prefix p s.

(** [s.rstrip(chars)] for a single character. *)
Fixpoint rstrip_char (x : ascii) (s : string) : string :=
  match s with
  | EmptyString => EmptyString
  | String c t =>
      let t' := rstrip_char x t in
      if Ascii.eqb c x && is_empty t' then EmptyString else String c t'
  end.

(** The lower case of a character; only the letters ['A'..'Z'] of the code
    points below 256 have a lower case that a pattern of ASCII letters can
    match. *)
Definition lower_char (c : ascii) : ascii :=
  let n := N_of_ascii c in
  if ((65 <=? n) && (n <=? 90))%N then ascii_of_N (n + 32) else c.

Fixpoint lower (s : string) : string :=
  match s with
  | EmptyString => EmptyString
  | String c t => String (lower_char c) (lower t)
  end.

(** [sorted(xs)] for a list of strings: ascending in the order of [str],
    which is lexicographic by code point.  Equal strings cannot be told
    apart, so any sorting procedure yields the list that Python's does. *)
Fixpoint insort (x : string) (l : list string) : list string :=
  match l with
  | [] => [x]
  | y :: l' => if String.leb x y then x :: l else y :: insort x l'
  end.

Definition sorted (xs : list string) : list string := fold_right insort [] xs.

(** A [dict] with string keys: the keys stay in the order in which they
    were first set. *)
Definition dict (V : Type) : Type := list (string * V).

Fixpoint dict_setitem {V} (k : string) (v : V) (d : dict V) : dict V :=
  match d with
  | [] => [(k, v)]
  | (k', v') :: rest =>
      if String.eqb k' k then (k', v) :: rest else (k', v') :: dict_setitem k v rest
  end.

(** [dict(pairs)] *)
Definition dict_of_pairs {V} (pairs : list (string * V)) : dict V :=
  fold_left (fun d kv => dict_setitem (fst kv) (snd kv) d) pairs [].

(** [d.get(k)] *)
Fixpoint dict_get {V} (k : string) (d : dict V) : option V :=
  match d with
  | [] => None
  | (k', v) :: rest => if String.eqb k' k then Some v else dict_get k rest
  end.

End PyStr.

(** ** class AndroidProperties *)

Module AndroidProperties.

(** The pattern of [parse] is [\[(.*?)\]:\s+\[(.*?)\]].  Its second group,
    from just after the opening bracket: the shortest run of characters other
    than a line feed that a closing bracket follows. *)
Fixpoint group2 (s : string) : option (string * string) :=
  match s with
  | EmptyString => None
  | String c t =>
      if Ascii.eqb c "]" then Some (EmptyString, t)
      else if Ascii.eqb c LF then None
      else match group2 t with
           | Some (g, rest) => Some (String c g, rest)
           | None => None
           end
  end.

(** What has to follow the first group: [\]:\s+\[(.*?)\]].  The white space
    is taken as far as it goes; giving some of it back cannot help, since an
    opening bracket is no white space. *)
Definition after_group1 (s : string) : option (string * string) :=
  match s with
  | String c1 (String c2 (String c3 t)) =>
      if Ascii.eqb c1 "]" && Ascii.eqb c2 ":" && isspace c3 then
        match lstrip t with
        | String c4 u => if Ascii.eqb c4 "[" then group2 u else None
        | EmptyString => None
        end
      else None
  | _ => None
  end.

(** The first group, from just after the opening bracket: the shortest run
    of characters other than a line feed after which the rest of the pattern
    matches.  The result is both groups and the text after the match. *)
Fixpoint group1 (s : string) : option (string * string * string) :=
  match after_group1 s with
  | Some (g2, rest) => Some (EmptyString, g2, rest)
  | None =>
      match s with
      | EmptyString => None
      | String c t =>
          if Ascii.eqb c LF then None
          else match group1 t with
               | Some (g1, g2, rest) => Some (String c g1, g2, rest)
               | None => None
               end
      end
  end.

(** [re.findall(pattern, text)]: the matches from left to right, none
    overlapping another.  [skip] counts the characters of the last match
    that are still to be passed over. *)
Fixpoint findall_go (skip : nat) (s : string) : list (string * string) :=
  match s with
  | EmptyString => []
  | String c t =>
      match skip with
      | S k => findall_go k t
      | O =>
          if Ascii.eqb c "[" then
            match group1 t with
            | Some (g1, g2, rest) =>
                (g1, g2) :: findall_go (String.length t - String.length rest) t
            | None => findall_go 0 t
            end
          else findall_go 0 t
      end
  end.

Definition findall (text : string) : list (string * string) := findall_go 0 text.

Record t : Type := mk { _properties : PyStr.dict string }.

(** [parse] replaces the dictionary of the object; the new state of the
    object is returned. *)
Definition parse (text : string) : t := mk (PyStr.dict_of_pairs (findall text)).

Definition __init__ (text : string) : t := parse text.

Definition iteritems (self : t) : list (string * string) := _properties self.

Definition __iter__ (self : t) : list string := map fst (_properties self).

Definition __getattr__ (self : t) (name : string) : option string :=
  PyStr.dict_get name (_properties self).

Definition __getitem__ : t -> string -> option string := __getattr__.

End AndroidProperties.

(** ** class ApkInfo *)

Module ApkInfo.

(** *** The patterns *)

(** A literal text at the start of [s]; the result is what follows it. *)
Fixpoint literal (lit s : string) : option string :=
  match lit with
  | EmptyString => Some s
  | String a lit' =>
      match s with
      | String c t => if Ascii.eqb a c then literal lit' t else None
      | EmptyString => None
      end
  end.

(** The characters up to the next single quote, and what follows that
    quote. *)
Fixpoint run_to_quote (s : string) : option (string * string) :=
  match s with
  | EmptyString => None
  | String c t =>
      if Ascii.eqb c SQ then Some (EmptyString, t)
      else match run_to_quote t with
           | Some (g, rest) => Some (String c g, rest)
           | None => None
           end
  end.

(** [([^']+)'] : the longest run of characters other than a quote, which
    must not be empty, and the quote that ends it. *)
Definition quoted (s : string) : option (string * string) :=
  match run_to_quote s with
  | Some (String c g, rest) => Some (String c g, rest)
  | _ => None
  end.

(** [name_regex] and [permission_regex], both [name='([^']+)'], matched at
    the start of [s]. *)
Definition name_regex_match (s : string) : option string :=
  match literal "name='" s with
  | Some r => match quoted r with
              | Some (n, _) => Some n
              | None => None
              end
  | None => None
  end.

(** [version_regex], matched at the start of [s]: the groups [name],
    [vcode] and [vname]. *)
Definition version_regex_match (s : string) : option (string * string * string) :=
  match literal "name='" s with
  | None => None
  | Some r1 =>
      match quoted r1 with
      | None => None
      | Some (n, r2) =>
          match literal " versionCode='" r2 with
          | None => None
          | Some r3 =>
              match quoted r3 with
              | None => None
              | Some (vcode, r4) =>
                  match literal " versionName='" r4 with
                  | None => None
                  | Some r5 =>
                      match quoted r5 with
                      | None => None
                      | Some (vname, _) => Some (n, vcode, vname)
                      end
                  end
              end
          end
      end
  end.

(** [regex.search(line)]: the match at the leftmost position that has
    one. *)
Fixpoint search {A} (m : string -> option A) (s : string) : option A :=
  match m s with
  | Some x => Some x
  | None =>
      match s with
      | EmptyString => None
      | String _ t => search m t
      end
  end.

(** *** The object *)

Record t : Type := mk {
  path : option string;
  package : option string;
  activity : option string;
  label : option string;
  version_name : option string;
  version_code : option string;
  native_code : option (list string);
  permissions : list string;
  _apk_path : option string;
  _activities : option (list string);
  _methods : option (list (string * string));
  _aapt : string;
  _aapt_version : Z
}.

(** The exceptions that the loop of [parse] can raise. *)
Inductive error : Type :=
| AttributeError      (* [match.group] on [None] *)
| IndexError.         (* [line.split(':')[1]] *)

(** [ABI_MAP] of [devlib.utils.misc] is passed in: the ABIs with the
    architectures each of them stands for, in the order of the dictionary. *)
Fixpoint map_abi (ABI_MAP : list (string * list string)) (apk_abi : string) : string :=
  match ABI_MAP with
  | [] => apk_abi
  | (abi, architectures) :: rest =>
      if existsb (String.eqb apk_abi) architectures then abi else map_abi rest apk_abi
  end.

(** The body of the loop of [parse], for one line. *)
Definition parse_line (ABI_MAP : list (string * list string)) (line : string)
    (self : t) : option error * t :=
  if PyStr.startswith "application-label:" line then
    match PyStr.split_sep ":" line with
    | _ :: field :: _ =>
        (None,
         mk (path self) (package self) (activity self)
            (Some (replace (chr SQ) "" (strip field)))
            (version_name self) (version_code self) (native_code self)
            (permissions self) (_apk_path self) (_activities self) (_methods self)
            (_aapt self) (_aapt_version self))
    | _ => (Some IndexError, self)
    end
  else if PyStr.startswith "package:" line then
    match search version_regex_match line with
    | Some (n, vcode, vname) =>
        (None,
         mk (path self) (Some n) (activity self) (label self)
            (Some vname) (Some vcode) (native_code self)
            (permissions self) (_apk_path self) (_activities self) (_methods self)
            (_aapt self) (_aapt_version self))
    | None => (None, self)
    end
  else if PyStr.startswith "launchable-activity:" line then
    match search name_regex_match line with
    | Some n =>
        (None,
         mk (path self) (package self) (Some n) (label self)
            (version_name self) (version_code self) (native_code self)
            (permissions self) (_apk_path self) (_activities self) (_methods self)
            (_aapt self) (_aapt_version self))
    | None => (Some AttributeError, self)
    end
  else if PyStr.startswith "native-code" line then
    match PyStr.split_sep ":" line with
    | _ :: field :: _ =>
        let apk_abis :=
          map strip (filter (fun entry => negb (is_empty (strip entry)))
                       (PyStr.split_sep SQ field)) in
        (None,
         mk (path self) (package self) (activity self) (label self)
            (version_name self) (version_code self)
            (Some (map (map_abi ABI_MAP) apk_abis))
            (permissions self) (_apk_path self) (_activities self) (_methods self)
            (_aapt self) (_aapt_version self))
    | _ => (Some IndexError, self)
    end
  else if PyStr.startswith "uses-permission:" line then
    match search name_regex_match line with
    | Some permission =>
        (None,
         mk (path self) (package self) (activity self) (label self)
            (version_name self) (version_code self) (native_code self)
            (permissions self ++ [permission])
            (_apk_path self) (_activities self) (_methods self)
            (_aapt self) (_aapt_version self))
    | None => (None, self)
    end
  else (None, self).

(** The [for] loop: an exception ends it and leaves the object as the
    lines before have made it. *)
Fixpoint parse_lines (ABI_MAP : list (string * list string)) (lines : list string)
    (self : t) : option error * t :=
  match lines with
  | [] => (None, self)
  | line :: rest =>
      match parse_line ABI_MAP line self with
      | (None, self') => parse_lines ABI_MAP rest self'
      | (Some e, self') => (Some e, self')
      end
  end.

(** [parse], from the point where [self._run] has returned [output], the
    text that [aapt dump badging] printed for [apk_path]. *)
Definition parse (ABI_MAP : list (string * list string)) (apk_path output : string)
    (self : t) : option error * t :=
  match parse_lines ABI_MAP (PyStr.split_sep LF output) self with
  | (Some e, self') => (Some e, self')
  | (None, self') =>
      (None,
       mk (path self') (package self') (activity self') (label self')
          (version_name self') (version_code self') (native_code self')
          (permissions self') (Some apk_path) None None
          (_aapt self') (_aapt_version self'))
  end.

(** [__init__], with the two values it reads from the environment and, when
    a path is given, the output of [aapt] for it. *)
Definition __init__ (ABI_MAP : list (string * list string)) (aapt : string)
    (aapt_version : Z) (path : option string) (output : string) : option error * t :=
  let self := mk path None None None None None None [] None None None aapt aapt_version in
  match path with
  | Some p => if is_empty p then (None, self) else parse ABI_MAP p output self
  | None => (None, self)
  end.

End ApkInfo.

(** ** grant_app_permissions *)

Module grant.

(** The characters of [s] up to the first one that [stop] accepts, and the
    rest. *)
Fixpoint span_until (stop : ascii -> bool) (s : string) : string * string :=
  match s with
  | EmptyString => (EmptyString, EmptyString)
  | String c t =>
      if stop c then (EmptyString, s)
      else let '(a, b) := span_until stop t in (String c a, b)
  end.

(** One round of the repeated group of the pattern, which is
    [android.permission.+] and then any white space: the literal with any
    character but a line feed in the place of its dot, the rest of the line,
    which must not be empty, and the white space after it.  The result is
    the text of the round and what follows it. *)
Definition round (s : string) : option (string * string) :=
  match ApkInfo.literal "android" s with
  | Some (String c r) =>
      if Ascii.eqb c LF then None
      else
        match ApkInfo.literal "permission" r with
        | Some r' =>
            let '(line, rest) := span_until (fun x => Ascii.eqb x LF) r' in
            if is_empty line then None
            else
              let '(ws, rest') := span_until (fun x => negb (isspace x)) rest in
              Some ("android" +:+ String c "permission" +:+ line +:+ ws, rest')
        | None => None
        end
  | _ => None
  end.

(** The rounds are repeated as long as one matches; every round takes at
    least one character, so the length of the text bounds their number. *)
Fixpoint rounds (fuel : nat) (s : string) : string :=
  match fuel with
  | O => EmptyString
  | S k =>
      match round s with
      | Some (text, rest) => text +:+ rounds k rest
      | None => EmptyString
      end
  end.

(** The pattern of [grant_app_permissions] matched at the start of [s]: the
    literal [requested permissions:], any white space, and one round or
    more, which together are the group [permissions]. *)
Definition permissions_match (s : string) : option string :=
  match ApkInfo.literal "requested permissions:" s with
  | Some r =>
      match round (lstrip r) with
      | Some (text, rest) => Some (text +:+ rounds (String.length rest) rest)
      | None => None
      end
  | None => None
  end.

(** The [for] loop: a grant that fails with a stable error is skipped. *)
Fixpoint grant_each (execute : string -> M string) (package : string)
    (permissions : list string) : M unit :=
  match permissions with
  | [] => ret tt
  | permission :: rest =>
      r <- attempt (execute ("pm grant " +:+ package +:+ " " +:+ permission));
      match r with
      | Ok _ => grant_each execute package rest
      | Err e =>
          if is_TargetStableError e then grant_each execute package rest
          else raise e
      end
  end.

(** [grant_app_permissions]; [execute] is [target.execute]. *)
Definition grant_app_permissions (execute : string -> M string) (package : string)
  : M unit :=
  dumpsys <- execute ("dumpsys package " +:+ package);
  match ApkInfo.search permissions_match dumpsys with
  | None => ret tt
  | Some permissions =>
      grant_each execute package (splitlines (replace " " "" permissions))
  end.

End grant.

(** ** fastboot *)

(** [fastboot_command].  [bin_] is [_ANDROID_ENV.get_env('fastboot')]; the
    command line is formatted from [bin], which is the built-in function of
    that name, not from [bin_]. *)
Definition fastboot_command (bin_ : option string) (command : string)
    (timeout : option Z) (device : option string) : M string :=
  let target :=
    match device with
    | Some d => if is_empty d then "" else "-s " +:+ quote d
    | None => ""
    end in
  let full_command := "<built-in function bin>" +:+ " " +:+ target +:+ " " +:+ command in
  '(output, _) <- check_output (Line full_command) timeout;
  ret output.

Definition fastboot_flash_partition (bin_ : option string)
    (partition path_to_image : string) : M unit :=
  let command := "flash " +:+ quote partition +:+ " " +:+ quote path_to_image in
  _ <- fastboot_command bin_ command None None;
  ret tt.

(** ** The environment *)

(** [os.path] on a POSIX host. *)
Module os_path.

Definition join2 (a b : string) : string :=
  if PyStr.startswith "/" b then b
  else if is_empty a || ends_with "/"%char a then a +:+ b
  else a +:+ "/" +:+ b.

(** [os.path.join(a, *p)] *)
Definition join (a : string) (p : list string) : string := fold_left join2 p a.

(** [os.path.dirname(p)] *)
Definition dirname (p : string) : string :=
  match rsplit_once "/"%char p with
  | None => EmptyString
  | Some (a, _) =>
      let head := a +:+ "/" in
      if all_chars (Ascii.eqb "/"%char) head then head
      else PyStr.rstrip_char "/"%char head
  end.

End os_path.

Module _AndroidEnvironment.

(** What the environment is discovered from: the variables of the process,
    [which] of [devlib.utils.misc], the file system, and what a binary
    writes to its error stream when it is run with [dump badging]. *)
Record Host : Type := mkHost {
  getenv : string -> option string;
  which : string -> option string;
  isdir : string -> bool;
  isfile : string -> bool;
  listdir : string -> list string;
  badging_stderr : string -> string
}.

(** The dictionary that [env] returns. *)
Record Env : Type := mkEnv {
  android_home : string;
  platform_tools : string;
  adb : string;
  fastboot : option string;
  build_tools : option string;
  aapt : string;
  aapt_version : Z
}.

Definition _discover_build_tools (h : Host) (android_home : string) : option string :=
  let build_tools := os_path.join android_home ["build-tools"] in
  if isdir h build_tools then Some build_tools else None.

(** [AAPT_BADGING_OUTPUT.search(stderr)], the pattern being
    [no dump ((file)|(apk)) specified] without regard to case. *)
Definition AAPT_BADGING_OUTPUT_search (stderr : string) : bool :=
  contains "no dump file specified" (PyStr.lower stderr)
  || contains "no dump apk specified" (PyStr.lower stderr).

Definition _check_supported_aapt2 (h : Host) (binary : string) : bool :=
  AAPT_BADGING_OUTPUT_search (badging_stderr h binary).

(** The two finders return the version of the tool and its path, or a pair
    of [None], which is [None] here. *)
Definition find_aapt2 (h : Host) (build_tools version : string)
  : option (Z * string) :=
  let path := os_path.join build_tools [version; "aapt2"] in
  if isfile h path && _check_supported_aapt2 h path then Some (2, path) else None.

Definition find_aapt (h : Host) (build_tools version : string)
  : option (Z * string) :=
  let path := os_path.join build_tools [version; "aapt"] in
  if isfile h path then Some (1, path) else None.

(** The loop over [found]: the first finding whose path is set. *)
Fixpoint first_found (found : list (string * option (Z * string)))
  : option (string * Z) :=
  match found with
  | [] => None
  | (_, Some (aapt_version, aapt_path)) :: rest =>
      if negb (is_empty aapt_path) then Some (aapt_path, aapt_version)
      else first_found rest
  | (_, None) :: rest => first_found rest
  end.

(** An optional text that is set and not empty. *)
Definition nonempty (s : option string) : option string :=
  match s with
  | Some x => if is_empty x then None else Some x
  | None => None
  end.

Definition aapt_not_found : exn :=
  HostError ("aapt/aapt2 not found. Please make sure it is avaliable in PATH "
             +:+ "or at least one Android platform is installed").

(** Returns [(aapt, aapt_version)]. *)
Definition _discover_aapt (h : Host) (build_tools : option string)
  : result (string * Z) :=
  let in_build_tools :=
    match nonempty build_tools with
    | Some bt =>
        let versions := listdir h bt in
        let found :=
          flat_map (fun version => [(version, find_aapt2 h bt version);
                                    (version, find_aapt h bt version)])
                   (rev (PyStr.sorted versions)) in
        first_found found
    | None => None
    end in
  match in_build_tools with
  | Some r => Ok r
  | None =>
      let aapt2_path := which h "aapt2" in
      let aapt_path := which h "aapt" in
      let from_aapt :=
        match nonempty aapt_path with
        | Some p1 => Ok (p1, 1)
        | None => Err aapt_not_found
        end in
      match nonempty aapt2_path with
      | Some p2 => if _check_supported_aapt2 h p2 then Ok (p2, 2) else from_aapt
      | None => from_aapt
      end
  end.

(** Returns [build_tools] with what [_discover_aapt] has found. *)
Definition _init_common (h : Host) (android_home : string)
  : result (option string * (string * Z)) :=
  let build_tools := _discover_build_tools h android_home in
  match _discover_aapt h build_tools with
  | Ok r => Ok (build_tools, r)
  | Err e => Err e
  end.

Definition _from_android_home (h : Host) (android_home : string) : result Env :=
  let platform_tools := os_path.join android_home ["platform-tools"] in
  match _init_common h android_home with
  | Ok (build_tools, (aapt, aapt_version)) =>
      Ok (mkEnv android_home platform_tools
            (os_path.join platform_tools ["adb"])
            (Some (os_path.join platform_tools ["fastboot"]))
            build_tools aapt aapt_version)
  | Err e => Err e
  end.

Definition adb_not_found : exn :=
  HostError ("ANDROID_HOME is not set and adb is not in PATH. "
             +:+ "Have you installed Android SDK?").

Definition _from_adb (h : Host) : result Env :=
  match nonempty (which h "adb") with
  | Some adb_path =>
      let platform_tools := os_path.dirname adb_path in
      let android_home := os_path.dirname platform_tools in
      match _init_common h android_home with
      | Ok (build_tools, (aapt, aapt_version)) =>
          Ok (mkEnv android_home platform_tools adb_path (which h "fastboot")
                build_tools aapt aapt_version)
      | Err e => Err e
      end
  | None => Err adb_not_found
  end.

(** The property [env], as it is computed the first time it is read. *)
Definition env (h : Host) : result Env :=
  match nonempty (getenv h "ANDROID_HOME") with
  | Some android_home => _from_android_home h android_home
  | None => _from_adb h
  end.

End _AndroidEnvironment.

(** * Vocabulary of the further properties *)

(** A word: a non-empty text without white space. *)
Definition is_word (s : string) : bool :=
  negb (is_empty s) && all_chars (fun c => negb (isspace c)) s.

(** The line that [adb devices] prints for a device: its serial number, a
    tab, its state. *)
Definition device_line (d : AdbDevice) : string :=
  name d +:+ chr "009"%char +:+ status d.

(** Two attached devices, one of them not ready. *)
Definition two_devices : list AdbDevice :=
  [mkAdbDevice "emulator-5554" "device"; mkAdbDevice "0a38c1f2" "offline"].

(** The host's answer to a ping: the probe exits with a non-zero status, or
    with status zero. *)
Definition ping_refused (r : Reply) : Prop :=
  exists rc out err, outcome r = Exited rc out err /\ rc <> 0.

Definition ping_answered (r : Reply) : Prop :=
  exists out err, outcome r = Exited 0 out err.

(** The shell line of a ping. *)
Definition ping_line (w : World) (device : string) (adb_server : option string)
    (adb_port : option Z) : string :=
  adb_line w (Some device) "shell" adb_server adb_port
  +:+ " " +:+ quote "ls /data/local/tmp > /dev/null".

(** The message of the error that ends [adb_connect], before the output of
    the last [adb connect] is appended to it. *)
Definition could_not_connect (device : string) (adb_server : option string)
    (adb_port : option Z) : string :=
  "Could not connect to " +:+ (if is_empty device then "a device" else device)
  +:+ " at " +:+ str_option (fun s => s) adb_server +:+ ":" +:+ str_option str adb_port.

(** The shell line of [adb connect] for a device addressed over the network. *)
Definition connect_line (w : World) (device : string) (adb_server : option string)
    (adb_port : option Z) : string :=
  adb_line w None "connect" adb_server adb_port +:+ " " +:+ quote device.

(** What the host is asked before [adb connect] in a round of the connection
    loop: the enumeration, and only for a device whose name holds a colon. *)
Definition enumeration_before_connect (device : string) (l : Reply) : list Reply :=
  if contains ":" device then [l] else [].

(** What [adb_shell] returns: the output and the error stream, those of them
    that are not empty, joined by a line break. *)
Definition joined (output error : string) : string :=
  join (chr LF) (filter (fun x => negb (is_empty x)) [output; error]).

(** The connection [c] as it is when it was asked to run adbd as root. *)
Definition asked_for_root (c : AdbConnection.t) : AdbConnection.t :=
  AdbConnection.mk (AdbConnection.device c) (AdbConnection.timeout c)
    (AdbConnection.adb_server c) (AdbConnection.adb_port c) true
    (AdbConnection._restore_to_adb_root c) (AdbConnection.ls_command c)
    (AdbConnection.su_cmd c).

(** A connection to the sample device that was opened with [adb_as_root]
    while adbd was not running as root. *)
Definition sample_root_conn : AdbConnection.t :=
  AdbConnection.mk "emulator-5554" 10000 None None true false "ls -1" "su -c {}".

(** ** Device properties *)

(** A line of [getprop]: the key and the value, each in brackets. *)
Definition getprop_line (kv : string * string) : string :=
  "[" +:+ fst kv +:+ "]: [" +:+ snd kv +:+ "]" +:+ nl.

Definition getprop_text (kvs : list (string * string)) : string :=
  foldr (fun kv acc => getprop_line kv +:+ acc) "" kvs.

(** A text without closing bracket and line feed. *)
Definition bracket_free (s : string) : bool := no_char "]" s && no_char LF s.

(** The keys of [ks] that are not in [seen], each where it occurs first. *)
Fixpoint first_occurrences (seen ks : list string) : list string :=
  match ks with
  | [] => []
  | k :: ks' =>
      if existsb (String.eqb k) seen then first_occurrences seen ks'
      else k :: first_occurrences (seen ++ [k]) ks'
  end.

(** ** Package information *)

(** A line of [aapt dump badging] that describes the package. *)
Definition package_line (n vcode vname tail : string) : string :=
  "package: name='" +:+ n +:+ "' versionCode='" +:+ vcode
  +:+ "' versionName='" +:+ vname +:+ "'" +:+ tail.

(** The line that gives the label of the application. *)
Definition label_line (l : string) : string := "application-label:'" +:+ l +:+ "'".

(** A text that can stand between single quotes and does not look like an
    attribute: it holds neither a single quote nor an equals sign. *)
Definition plain (s : string) : bool := no_char SQ s && no_char "="%char s.

(** An object that has parsed nothing yet. *)
Definition fresh_apk : ApkInfo.t :=
  ApkInfo.mk None None None None None None None [] None None None "aapt" 1.

(** ** The build tools *)

(** The tool that a version of the build tools offers: its [aapt2] when
    that is a file and passes the check, otherwise its [aapt] when that is a
    file. *)
Definition tool_in (h : _AndroidEnvironment.Host) (build_tools version : string)
  : option (string * Z) :=
  let aapt2 := os_path.join build_tools [version; "aapt2"] in
  let aapt := os_path.join build_tools [version; "aapt"] in
  if _AndroidEnvironment.isfile h aapt2 && _AndroidEnvironment._check_supported_aapt2 h aapt2
  then Some (aapt2, 2)
  else if _AndroidEnvironment.isfile h aapt then Some (aapt, 1)
  else None.

(** A list in ascending order. *)
Fixpoint ascending (l : list string) : Prop :=
  match l with
  | [] => True
  | x :: l' => Forall (fun y => String.leb x y = true) l' /\ ascending l'
  end.

(** A host with the SDK under [/sdk]: two versions of the build tools, each
    with [aapt] only, and nothing on the search path. *)
Definition sdk_host : _AndroidEnvironment.Host :=
  _AndroidEnvironment.mkHost
    (fun name => if String.eqb name "ANDROID_HOME" then Some "/sdk" else None)
    (fun _ => None)
    (fun p => String.eqb p "/sdk/build-tools")
    (fun p => String.eqb p "/sdk/build-tools/30.0.3/aapt"
              || String.eqb p "/sdk/build-tools/9.0.0/aapt")
    (fun p => if String.eqb p "/sdk/build-tools" then ["30.0.3"; "9.0.0"] else [])
    (fun _ => "").

(** The environment of [sdk_host]. *)
Definition sdk_env : _AndroidEnvironment.Env :=
  _AndroidEnvironment.mkEnv "/sdk" "/sdk/platform-tools" "/sdk/platform-tools/adb"
    (Some "/sdk/platform-tools/fastboot") (Some "/sdk/build-tools")
    "/sdk/build-tools/9.0.0/aapt" 1.

(** ** fastboot *)

(** The shell line that [fastboot_flash_partition] hands to the host. *)
Definition flash_line (partition path_to_image : string) : string :=
  "<built-in function bin>  flash " +:+ quote partition +:+ " " +:+ quote path_to_image.

(** ** Granting permissions *)

(** [target.execute] of a target that runs its commands through the sample
    connection. *)
Definition sample_execute (command : string) : M string :=
  AdbConnection.execute sample_conn command None true false false.

(** The part of [dumpsys package] that lists the requested permissions:
    the heading, the permissions on indented lines, and the heading of the
    next part. *)
Definition requested_block (indent : string) (permissions : list string)
    (next : string) : string :=
  "requested permissions:" +:+ nl
  +:+ foldr (fun p acc => indent +:+ p +:+ nl +:+ acc) next permissions.

Definition sample_dumpsys : string :=
  "Packages:" +:+ nl
  +:+ requested_block "      " ["android.permission.INTERNET"; "android.permission.CAMERA"]
        ("    install permissions:" +:+ nl).

(** What the host answers to the dump and to two grants: the first grant is
    refused by the device, the second one is cut short. *)
Definition grant_replies : list Reply :=
  [answers (capture sample_dumpsys 0 nl nl);
   answers (capture "Operation not allowed" 255 nl nl);
   answers ("x" +:+ nl +:+ "killed" +:+ nl)].

(** The name of an Android permission: the prefix [android.permission.]
    and a word. *)
Definition is_permission (p : string) : Prop :=
  exists name, p = "android.permission." +:+ name /\ is_word name = true.

(** A text made of spaces only. *)
Definition spaces (s : string) : bool := all_chars (Ascii.eqb " "%char) s.

(** A text that does not start with white space. *)
Definition starts_black (s : string) : bool :=
  match s with
  | String c _ => negb (isspace c)
  | EmptyString => true
  end.

(** * The primitives at concrete inputs *)

Example replace_crlf :
  Py.replace (String Py.CR (String Py.LF "")) (Py.chr Py.LF)
             ("a" +:+ String Py.CR (String Py.LF "b"))
  = "a" +:+ String Py.LF "b".
Proof. reflexivity. Qed.

Example rsplit_example :
  Py.rsplit ","%char 2 "a,b,c,d" = ["a,b"; "c"; "d"].
Proof. reflexivity. Qed.

Example rsplit_short_example : Py.rsplit ","%char 2 "a,b" = ["a"; "b"].
Proof. reflexivity. Qed.

Example splitlines_devices :
  Py.splitlines ("List" +:+ Py.chr Py.LF +:+ "X" +:+ Py.chr Py.LF +:+ Py.chr Py.LF)
  = ["List"; "X"; ""].
Proof. reflexivity. Qed.

Example split_pids : Py.split " 12  7 " = ["12"; "7"].
Proof. reflexivity. Qed.

Example int_examples :
  Py.int "007" = Some 7 /\ Py.int " -1_0 " = Some (-10) /\ Py.int "1__0" = None
  /\ Py.int "" = None /\ Py.int "12a" = None.
Proof. repeat split; reflexivity. Qed.

Example str_examples :
  Py.str 0 = "0" /\ Py.str 255 = "255" /\ Py.str (-12) = "-12" /\ Py.str 1000 = "1000".
Proof. repeat split; reflexivity. Qed.

Example quote_examples :
  Py.quote "LC_ALL=C" = "LC_ALL=C" /\ Py.quote "a b" = "'a b'" /\ Py.quote "" = "''".
Proof. repeat split; reflexivity. Qed.


Example adb_shell_wrap_as_root :
  adb_shell_wrap "ls" true "su -c {}"
  = ["shell"; "su -c '(ls); echo " +:+ chr DQ +:+ chr BACKSLASH +:+ "n$?" +:+ chr DQ +:+ "'"]
  /\ adb_shell_wrap "ls" true "echo {} | su"
     = ["shell"; "echo '(ls); echo " +:+ chr DQ +:+ chr BACKSLASH +:+ "n$?" +:+ chr DQ
                 +:+ "' | su"].
Proof. split; reflexivity. Qed.

(** * Facts about the string primitives *)

Lemma app_cons (c : ascii) (s t : string) : String c s +:+ t = String c (s +:+ t).
Proof. reflexivity. Qed.

Lemma app_nil_r' (s : string) : s +:+ "" = s.
Proof. induction s as [|c s IH]; [reflexivity | now rewrite app_cons, IH]. Qed.

Lemma app_assoc' (a b c : string) : (a +:+ b) +:+ c = a +:+ (b +:+ c).
Proof. induction a as [|x a IH]; [reflexivity | now rewrite !app_cons, IH]. Qed.

(** Two characters at a time. *)
Lemma string_pair_ind (P : string -> Prop) :
  P "" -> (forall c, P (String c "")) ->
  (forall c1 c2 s, P s -> P (String c2 s) -> P (String c1 (String c2 s))) ->
  forall s, P s.
Proof.
  intros H0 H1 H2 s.
  assert (H : P s /\ forall c, P (String c s)).
  { induction s as [|c s [IHa IHb]]; [split; auto|].
    split; [apply IHb|]. intros c'. apply H2; auto. }
  apply H.
Qed.

Lemma prefix_CRLF c1 c2 s :
  String.prefix CRLF (String c1 (String c2 s)) = Ascii.eqb c1 CR && Ascii.eqb c2 LF.
Proof.
  unfold CRLF. cbn [String.prefix].
  destruct (ascii_dec CR c1) as [<-|n1]; [|].
  - destruct (ascii_dec LF c2) as [<-|n2]; [now destruct s|].
    rewrite (proj2 (Ascii.eqb_neq c2 LF)); [reflexivity | congruence].
  - rewrite (proj2 (Ascii.eqb_neq c1 CR)); [reflexivity | congruence].
Qed.

Lemma prefix_CRLF_1 c : String.prefix CRLF (String c "") = false.
Proof. unfold CRLF. cbn [String.prefix]. now destruct (ascii_dec CR c). Qed.

Lemma prefix_chr x c s : String.prefix (chr x) (String c s) = Ascii.eqb c x.
Proof.
  unfold chr. cbn [String.prefix].
  destruct (ascii_dec x c) as [<-|n].
  - rewrite Ascii.eqb_refl. now destruct s.
  - rewrite (proj2 (Ascii.eqb_neq c x)); [reflexivity | congruence].
Qed.

Lemma replace_go_nil old new k : replace_go old new k "" = "".
Proof. reflexivity. Qed.

Lemma replace_go_skip old new k c t :
  replace_go old new (S k) (String c t) = replace_go old new k t.
Proof. reflexivity. Qed.

Lemma replace_go_here old new c t :
  replace_go old new 0 (String c t) =
  if String.prefix old (String c t)
  then new +:+ replace_go old new (String.length old - 1) t
  else String c (replace_go old new 0 t).
Proof. reflexivity. Qed.

(** Replacing CR LF by LF distributes over a cut that does not fall inside
    a CR LF pair. *)
Lemma replace_CRLF_app (b t : string) :
  ends_with CR b = false \/ String.prefix (chr LF) t = false ->
  replace CRLF (chr LF) (b +:+ t) = replace CRLF (chr LF) b +:+ replace CRLF (chr LF) t.
Proof.
  unfold replace.
  revert t. induction b as [|c|c1 c2 s IH1 IH2] using string_pair_ind; intros t H.
  - reflexivity.
  - destruct t as [|c' t].
    + now rewrite replace_go_nil, !app_nil_r'.
    + rewrite app_cons. change ("" +:+ String c' t) with (String c' t).
      rewrite (replace_go_here _ _ c (String c' t)), prefix_CRLF.
      rewrite (replace_go_here _ _ c ""), prefix_CRLF_1, replace_go_nil.
      destruct (Ascii.eqb c CR) eqn:E1; [|reflexivity].
      destruct H as [H|H]; [cbn in H; congruence|].
      rewrite prefix_chr in H. now rewrite H.
  - rewrite !app_cons.
    rewrite (replace_go_here _ _ c1 (String c2 (s +:+ t))), prefix_CRLF.
    rewrite (replace_go_here _ _ c1 (String c2 s)), prefix_CRLF.
    destruct (Ascii.eqb c1 CR && Ascii.eqb c2 LF) eqn:E.
    + change (String.length CRLF - 1)%nat with 1%nat.
      rewrite !replace_go_skip, app_assoc'.
      rewrite IH1; [reflexivity|].
      destruct H as [H|H]; [|now right]. left.
      destruct s; [reflexivity | exact H].
    + rewrite <- app_cons, (IH2 t); [reflexivity|].
      destruct H as [H|H]; [|now right]. left. exact H.
Qed.

(** Replacing one character by another is a character-wise map. *)
Lemma replace_chr_app (x y : ascii) (b t : string) :
  replace (chr x) (chr y) (b +:+ t) = replace (chr x) (chr y) b +:+ replace (chr x) (chr y) t.
Proof.
  unfold replace. induction b as [|c b IH]; [reflexivity|].
  rewrite app_cons, !replace_go_here, !prefix_chr.
  change (String.length (chr x) - 1)%nat with 0%nat.
  destruct (Ascii.eqb c x); rewrite IH; reflexivity.
Qed.

Lemma normalize_newlines_app (b t : string) :
  ends_with CR b = false \/ String.prefix (chr LF) t = false ->
  normalize_newlines (b +:+ t) = normalize_newlines b +:+ normalize_newlines t.
Proof.
  intros H. unfold normalize_newlines.
  change (chr CR +:+ chr LF) with CRLF.
  now rewrite replace_CRLF_app, replace_chr_app.
Qed.



(** Decimal texts. *)
Lemma dec_char_range c : dec_char c = true -> (48 <= N_of_ascii c <= 57)%N.
Proof.
  unfold dec_char, decimal_value. destruct (_ && _) eqn:E; [|discriminate].
  intros _. apply andb_prop in E. destruct E as [E1 E2].
  apply N.leb_le in E1. apply N.leb_le in E2. lia.
Qed.

Lemma dec_char_neq c x :
  (N_of_ascii x <? 48)%N || (57 <? N_of_ascii x)%N = true ->
  dec_char c = true -> Ascii.eqb c x = false.
Proof.
  intros Hx Hc. apply dec_char_range in Hc.
  apply Ascii.eqb_neq. intros ->.
  apply orb_prop in Hx. destruct Hx as [Hx|Hx]; apply N.ltb_lt in Hx; lia.
Qed.

Lemma dec_char_isspace c : dec_char c = true -> isspace c = false.
Proof.
  intros Hc. apply dec_char_range in Hc. unfold isspace.
  repeat match goal with
  | |- context [(?a <=? ?b)%N] => destruct (N.leb_spec a b)
  | |- context [(?a =? ?b)%N] => destruct (N.eqb_spec a b)
  end; try reflexivity; lia.
Qed.

Lemma dec_char_isdigit c : dec_char c = true -> isdigit_char c = true.
Proof.
  intros Hc. apply dec_char_range in Hc. unfold isdigit_char.
  destruct (N.leb_spec 48 (N_of_ascii c)); [|lia].
  destruct (N.leb_spec (N_of_ascii c) 57); [reflexivity|lia].
Qed.

Lemma all_chars_impl (p q : ascii -> bool) s :
  (forall c, p c = true -> q c = true) -> all_chars p s = true -> all_chars q s = true.
Proof.
  intros Hpq. induction s as [|c s IH]; [reflexivity|]. cbn [all_chars].
  intros H. apply andb_prop in H. destruct H as [H1 H2].
  now rewrite (Hpq _ H1), IH.
Qed.

Lemma all_chars_app p a b :
  all_chars p (a +:+ b) = all_chars p a && all_chars p b.
Proof.
  induction a as [|c a IH]; [reflexivity|].
  rewrite app_cons. cbn [all_chars]. now rewrite IH, andb_assoc.
Qed.

Lemma decimal_no_char x s :
  (N_of_ascii x <? 48)%N || (57 <? N_of_ascii x)%N = true ->
  all_chars dec_char s = true -> no_char x s = true.
Proof.
  intros Hx. apply all_chars_impl. intros c Hc. now rewrite (dec_char_neq c x).
Qed.

Lemma lstrip_nospace s :
  all_chars (fun c => negb (isspace c)) s = true -> lstrip s = s.
Proof.
  destruct s as [|c s]; [reflexivity|]. cbn [all_chars lstrip].
  intros H. apply andb_prop in H. destruct H as [H _].
  now destruct (isspace c).
Qed.

Lemma rstrip_nospace s :
  all_chars (fun c => negb (isspace c)) s = true -> rstrip s = s.
Proof.
  induction s as [|c s IH]; [reflexivity|]. cbn [all_chars rstrip].
  intros H. apply andb_prop in H. destruct H as [H1 H2].
  rewrite (IH H2). now destruct (isspace c).
Qed.

Lemma strip_decimal s : all_chars dec_char s = true -> strip s = s.
Proof.
  intros H. unfold strip.
  assert (Hs : all_chars (fun c => negb (isspace c)) s = true).
  { revert H. apply all_chars_impl. intros c Hc. now rewrite dec_char_isspace. }
  now rewrite (lstrip_nospace _ Hs), (rstrip_nospace _ Hs).
Qed.

Lemma isdigit_decimal s : decimal s = true -> isdigit s = true.
Proof.
  unfold decimal, isdigit. intros H. apply andb_prop in H. destruct H as [H1 H2].
  rewrite H1. cbn. revert H2. apply all_chars_impl, dec_char_isdigit.
Qed.

(** [str] of a natural number is a decimal text that [int] reads back. *)
Lemma digit_char_spec d :
  0 <= d <= 9 -> decimal_value (digit_char d) = Some d.
Proof.
  intros H.
  assert (d = 0 \/ d = 1 \/ d = 2 \/ d = 3 \/ d = 4 \/ d = 5 \/ d = 6 \/ d = 7
          \/ d = 8 \/ d = 9) as Hd by lia.
  repeat (destruct Hd as [->|Hd]; [reflexivity|]). now subst.
Qed.

Lemma digit_char_dec d : 0 <= d <= 9 -> dec_char (digit_char d) = true.
Proof. intros H. unfold dec_char. now rewrite digit_char_spec. Qed.

Lemma str_go_decimal fuel n acc :
  0 <= n -> all_chars dec_char acc = true ->
  all_chars dec_char (str_go fuel n acc) = true.
Proof.
  revert n acc. induction fuel as [|f IH]; intros n acc Hn Hacc; [exact Hacc|].
  cbn [str_go].
  assert (Hd : all_chars dec_char (String (digit_char (n mod 10)) acc) = true).
  { cbn [all_chars]. rewrite digit_char_dec, Hacc; [reflexivity|].
    pose proof (Z.mod_pos_bound n 10). lia. }
  destruct (n / 10 =? 0); [exact Hd|].
  apply IH; [apply Z.div_pos; lia | exact Hd].
Qed.

Lemma str_go_nonempty fuel n acc :
  is_empty (str_go (S fuel) n acc) = false.
Proof.
  revert n acc. induction fuel as [|f IH]; intros n acc.
  - cbn [str_go]. now destruct (n / 10 =? 0).
  - change (str_go (S (S f)) n acc) with
      (if n / 10 =? 0 then String (digit_char (n mod 10)) acc
       else str_go (S f) (n / 10) (String (digit_char (n mod 10)) acc)).
    destruct (n / 10 =? 0); [reflexivity | apply IH].
Qed.

Lemma int_digits_str_go f n rest p :
  0 <= n < 2 ^ Z.of_nat (S f) ->
  int_digits 0 p (str_go (S f) n rest) = int_digits n true rest.
Proof.
  revert n rest p. induction f as [|f IH]; intros n rest p Hn.
  - cbn [str_go]. change (2 ^ Z.of_nat 1) with 2 in Hn.
    assert (n / 10 = 0) as -> by (apply Z.div_small; lia).
    cbn [Z.eqb int_digits]. rewrite digit_char_spec by (rewrite Z.mod_small; lia).
    f_equal. rewrite Z.mod_small; lia.
  - change (str_go (S (S f)) n rest) with
      (if n / 10 =? 0 then String (digit_char (n mod 10)) rest
       else str_go (S f) (n / 10) (String (digit_char (n mod 10)) rest)).
    pose proof (Z.mod_pos_bound n 10 ltac:(lia)) as Hm.
    destruct (Z.eqb_spec (n / 10) 0) as [E|E].
    + cbn [int_digits]. rewrite digit_char_spec by lia.
      f_equal. pose proof (Z.div_mod n 10 ltac:(lia)). lia.
    + rewrite IH.
      * cbn [int_digits]. rewrite digit_char_spec by lia.
        f_equal. pose proof (Z.div_mod n 10 ltac:(lia)). lia.
      * split; [apply Z.div_pos; lia|].
        apply Z.div_lt_upper_bound; [lia|].
        rewrite Nat2Z.inj_succ, Z.pow_succ_r in Hn by lia. lia.
Qed.

Lemma str_nat_bound n : 0 <= n -> n < 2 ^ Z.of_nat (S (Z.to_nat (Z.log2 n))).
Proof.
  intros Hn. rewrite Nat2Z.inj_succ, Z2Nat.id by apply Z.log2_nonneg.
  destruct (Z.eq_dec n 0) as [->|]; [reflexivity|].
  apply Z.log2_spec. lia.
Qed.

Lemma str_decimal n : 0 <= n -> decimal (str n) = true.
Proof.
  intros Hn. unfold decimal, str.
  destruct (Z.ltb_spec n 0); [lia|].
  now rewrite str_go_nonempty, str_go_decimal.
Qed.

Lemma int_decimal s :
  decimal s = true -> int s = int_digits 0 false s.
Proof.
  unfold decimal. intros H. apply andb_prop in H. destruct H as [H1 H2].
  unfold int. rewrite (strip_decimal _ H2).
  destruct s as [|c s]; [discriminate|].
  cbn [all_chars] in H2. apply andb_prop in H2. destruct H2 as [Hc _].
  now rewrite (dec_char_neq c "+"%char eq_refl Hc), (dec_char_neq c "-"%char eq_refl Hc).
Qed.

Lemma int_str n : 0 <= n -> int (str n) = Some n.
Proof.
  intros Hn. rewrite int_decimal by now apply str_decimal.
  unfold str. destruct (Z.ltb_spec n 0); [lia|].
  rewrite int_digits_str_go by (split; [lia | now apply str_nat_bound]).
  reflexivity.
Qed.

(** Splitting at the last line break. *)
Lemma rsplit_once_none x s : no_char x s = true -> rsplit_once x s = None.
Proof.
  induction s as [|c s IH]; [reflexivity|]. unfold no_char in *. cbn [all_chars rsplit_once].
  intros H. apply andb_prop in H. destruct H as [H1 H2].
  rewrite (IH H2). now destruct (Ascii.eqb c x).
Qed.

Lemma rsplit_once_app x a b :
  no_char x b = true -> rsplit_once x (a +:+ String x b) = Some (a, b).
Proof.
  intros Hb. induction a as [|c a IH].
  - change ("" +:+ String x b) with (String x b). cbn [rsplit_once].
    now rewrite (rsplit_once_none _ _ Hb), Ascii.eqb_refl.
  - rewrite app_cons. cbn [rsplit_once]. now rewrite IH.
Qed.

Lemma rsplit_two x a b c :
  no_char x b = true -> no_char x c = true ->
  rsplit x 2 (a +:+ String x b +:+ String x c) = [a; b; c].
Proof.
  intros Hb Hc.
  replace (a +:+ String x b +:+ String x c) with ((a +:+ String x b) +:+ String x c)
    by apply app_assoc'.
  cbn [rsplit]. rewrite rsplit_once_app by exact Hc.
  now rewrite rsplit_once_app by exact Hb.
Qed.

Lemma normalize_no_CR s : no_char CR s = true -> normalize_newlines s = s.
Proof.
  unfold normalize_newlines, replace. change (chr CR +:+ chr LF) with CRLF.
  induction s as [|c s IH]; [reflexivity|].
  unfold no_char. cbn [all_chars]. intros H. apply andb_prop in H. destruct H as [H1 H2].
  apply negb_true_iff in H1.
  rewrite replace_go_here.
  assert (String.prefix CRLF (String c s) = false) as ->.
  { destruct s; [apply prefix_CRLF_1 | now rewrite prefix_CRLF, H1]. }
  rewrite replace_go_here, prefix_chr, H1. f_equal. now apply IH.
Qed.

(** * The exit-code wrapper *)

Lemma is_empty_app a b : is_empty (a +:+ b) = is_empty a && is_empty b.
Proof. now destruct a. Qed.

Lemma ends_with_decimal x s :
  (N_of_ascii x <? 48)%N || (57 <? N_of_ascii x)%N = true ->
  all_chars dec_char s = true -> ends_with x s = false.
Proof.
  intros Hx. induction s as [|c s IH]; [reflexivity|].
  cbn [all_chars]. intros H. apply andb_prop in H. destruct H as [H1 H2].
  destruct s as [|c' s]; [now apply dec_char_neq | now apply IH].
Qed.

Lemma normalize_eol e : is_eol e -> normalize_newlines e = chr LF.
Proof. intros [->|[->| ->]]; reflexivity. Qed.

Lemma normalize_capture body code eol1 eol2 :
  0 <= code -> is_eol eol1 -> is_eol eol2 ->
  ends_with CR body = false \/ eol1 <> chr LF ->
  normalize_newlines (capture body code eol1 eol2)
  = normalize_newlines body +:+ String LF (str code) +:+ String LF "".
Proof.
  intros Hc H1 H2 Hcut. unfold capture.
  pose proof (str_decimal code Hc) as Hd. unfold decimal in Hd.
  apply andb_prop in Hd. destruct Hd as [Hne Hd].
  rewrite normalize_newlines_app.
  2:{ destruct Hcut as [Hcut|Hcut]; [now left | right].
      destruct H1 as [->|[->| ->]]; [congruence | reflexivity | reflexivity]. }
  rewrite (normalize_newlines_app eol1).
  2:{ right. destruct (str code) as [|c s]; [discriminate|].
      rewrite app_cons, prefix_chr. cbn [all_chars] in Hd.
      apply andb_prop in Hd. destruct Hd as [Hd _]. now apply dec_char_neq. }
  rewrite (normalize_newlines_app (str code)).
  2:{ left. now apply ends_with_decimal. }
  rewrite (normalize_eol _ H1), (normalize_eol _ H2).
  rewrite (normalize_no_CR (str code))
    by (apply decimal_no_char; [reflexivity | exact Hd]).
  reflexivity.
Qed.

(** C1, as amended.  For every body of output and every exit code [code >= 0],
    the capture made of the body, a line break, the decimal exit code and one
    final line break -- each of the two line breaks delivered as LF, CR LF or
    CR, the first one not a bare LF right after a body that ends with CR --
    is split by [adb_shell] into the body with its CR LF and CR normalised to
    LF and an exit-code field that [strip], [isdigit] and [int] read back as
    [code].  A body without CR comes back unchanged. *)
Theorem wrapper_roundtrip (body : string) (code : Z) (eol1 eol2 : string) :
  0 <= code -> is_eol eol1 -> is_eol eol2 ->
  ends_with CR body = false \/ eol1 <> chr LF ->
  recovers (capture body code eol1 eol2) (normalize_newlines body) code
  /\ (no_char CR body = true -> normalize_newlines body = body).
Proof.
  intros Hc H1 H2 Hcut. split; [|apply normalize_no_CR].
  pose proof (str_decimal code Hc) as Hd.
  assert (Hd' := Hd). unfold decimal in Hd'.
  apply andb_prop in Hd'. destruct Hd' as [_ Hall].
  exists (str code). rewrite (strip_decimal _ Hall).
  split; [|split; [now apply isdigit_decimal | now apply int_str]].
  unfold adb_shell_split.
  assert (is_empty (capture body code eol1 eol2) = false) as ->.
  { unfold capture. rewrite !is_empty_app.
    destruct H1 as [->|[->| ->]]; unfold chr, CRLF; cbn [is_empty andb];
      apply andb_false_r. }
  cbn [negb]. rewrite normalize_capture by assumption.
  rewrite rsplit_two;
    [reflexivity | apply decimal_no_char; [reflexivity | exact Hall] | reflexivity].
Qed.

Lemma wrapper_roundtrip_witness :
  recovers (capture "hello" 3 CRLF (chr LF)) (normalize_newlines "hello") 3
  /\ (no_char CR "hello" = true -> normalize_newlines "hello" = "hello").
Proof.
  apply (wrapper_roundtrip "hello" 3 CRLF (chr LF)).
  - lia.
  - right; left; reflexivity.
  - left; reflexivity.
  - left; reflexivity.
Defined.

(** C1 fails as stated: a blank line after the exit-code line moves the exit
    code into the output and leaves an empty exit-code field; and a CR inside
    the output comes back as LF. *)
Lemma wrapper_roundtrip_fails :
  ~ recovers (capture "hello" 0 (chr LF) (chr LF) +:+ chr LF) "hello" 0
  /\ ~ recovers (capture (chr CR) 0 (chr LF) (chr LF)) (chr CR) 0.
Proof.
  split; intros [ec [H _]]; vm_compute in H; discriminate.
Qed.

(** * The command channel *)

Lemma bind_ok {A B} (m : M A) (k : A -> M B) w a w' :
  m w = (Some (Ok a), w') -> bind m k w = k a w'.
Proof. intros H. unfold bind. now rewrite H. Qed.

Lemma bind_err {A B} (m : M A) (k : A -> M B) w e w' :
  m w = (Some (Err e), w') -> bind m k w = (Some (Err e), w').
Proof. intros H. unfold bind. now rewrite H. Qed.

Lemma bind_stuck {A B} (m : M A) (k : A -> M B) w w' :
  m w = (None, w') -> bind m k w = (None, w').
Proof. intros H. unfold bind. now rewrite H. Qed.

Lemma check_output_step command timeout w r rest :
  script w = r :: rest ->
  check_output command timeout w =
  (Some match outcome r with
        | Exited rc out err =>
            if rc =? 0 then Ok (out, err)
            else Err (CalledProcessError rc command out err)
        | Expired => Err (TimeoutError command)
        end,
   after_reply (Ev_run command timeout) r rest w).
Proof.
  intros H. unfold check_output, bind, next_reply. rewrite H.
  destruct (outcome r) as [rc out err|]; [|reflexivity].
  now destruct (rc =? 0).
Qed.

Lemma check_output_stuck command timeout w :
  script w = [] -> check_output command timeout w = (None, w).
Proof. intros H. unfold check_output, bind, next_reply. now rewrite H. Qed.

Lemma adb_shell_step device command timeout check as_root server port su w r rest :
  script w = r :: rest ->
  let parts := shell_parts w device command as_root server port su in
  adb_shell device command timeout check as_root server port su w =
  (Some (adb_shell_result (adb_shell_wrap command as_root su) parts check (outcome r)),
   after_reply (Ev_run (Argv parts) timeout) r rest w).
Proof.
  intros H parts. unfold adb_shell, shell_parts in *.
  unfold bind at 1. unfold get at 1.
  destruct (_get_adb_parts _ _ _ _ _ _) as [p env] eqn:Ep. cbn [fst] in parts.
  subst parts. unfold bind at 1, attempt.
  rewrite (check_output_step _ _ _ _ _ H).
  unfold adb_shell_result.
  destruct (outcome r) as [rc raw err|]; [|reflexivity].
  destruct (rc =? 0); [|reflexivity].
  unfold bind, lift, ret.
  destruct (adb_shell_split raw) as [[output ec]|e]; [|reflexivity].
  destruct check; [|reflexivity].
  now destruct (adb_shell_check _ _ _ _ _) as [[]|e].
Qed.

Lemma adb_shell_stuck device command timeout check as_root server port su w :
  script w = [] ->
  adb_shell device command timeout check as_root server port su w = (None, w).
Proof.
  intros H. unfold adb_shell. unfold bind at 1. unfold get at 1.
  destruct (_get_adb_parts _ _ _ _ _ _) as [p env].
  unfold bind at 1, attempt. now rewrite (check_output_stuck _ _ _ H).
Qed.

Lemma adb_shell_check_raises command raw output exit_code error e :
  adb_shell_check command raw output exit_code error = Err e -> adb_shell_exn e.
Proof.
  unfold adb_shell_check.
  destruct (isdigit _).
  - destruct (int _) as [n|]; [|now intros [= <-]].
    destruct (negb _); [now intros [= <-]|].
    destruct (AM_START_ERROR_findall _); [discriminate | now intros [= <-]].
  - destruct (AM_START_ERROR_findall _); now intros [= <-].
Qed.

Lemma adb_shell_result_raises command parts check o e :
  adb_shell_result command parts check o = Err e -> adb_shell_exn e.
Proof.
  unfold adb_shell_result. destruct o as [rc raw err|]; [|now intros [= <-]].
  destruct (rc =? 0); [|now intros [= <-]].
  unfold adb_shell_split.
  destruct (negb (is_empty raw)).
  - destruct (rsplit LF 2 _) as [|a [|b [|c [|]]]];
      try (destruct (rsplit LF 1 _) as [|a' [|b' [|]]]; try now intros [= <-]).
    all: destruct check; try discriminate.
    all: destruct (adb_shell_check _ _ _ _ _) eqn:E; try discriminate.
    all: intros [= <-]; eapply adb_shell_check_raises; eassumption.
  - destruct check; [|discriminate].
    destruct (adb_shell_check _ _ _ _ _) eqn:E; [discriminate|].
    intros [= <-]. eapply adb_shell_check_raises; eassumption.
Qed.

Lemma adb_shell_raises device command timeout check as_root server port su w e w' :
  adb_shell device command timeout check as_root server port su w = (Some (Err e), w') ->
  adb_shell_exn e.
Proof.
  destruct (script w) as [|r rest] eqn:Hs.
  - now rewrite (adb_shell_stuck _ _ _ _ _ _ _ _ _ Hs).
  - rewrite (adb_shell_step _ _ _ _ _ _ _ _ _ _ _ Hs). intros [= H _].
    eapply adb_shell_result_raises; eassumption.
Qed.

Lemma execute_try_step self command timeout check as_root will_succeed w r w' :
  adb_shell (Some (AdbConnection.device self)) command timeout check as_root
    (AdbConnection.adb_server self) (AdbConnection.adb_port self)
    (AdbConnection.su_cmd self) w = (Some r, w') ->
  AdbConnection.execute_try self command timeout check as_root will_succeed w =
  (Some match r with
        | Ok out => Ok out
        | Err e => Err (reclassify will_succeed command e)
        end, w').
Proof.
  intros H. unfold AdbConnection.execute_try, bind, attempt. rewrite H.
  destruct r as [out|e]; [reflexivity|].
  destruct e; try reflexivity; now destruct will_succeed.
Qed.

Lemma connected_as_root_getitem_known k v w :
  _connected_as_root w !! k = Some v ->
  connected_as_root_getitem k w = (Some (Ok v), w).
Proof. intros H. unfold connected_as_root_getitem. now rewrite H. Qed.

Lemma connected_as_root_known self b w :
  _connected_as_root w !! AdbConnection.device self = Some (Some b) ->
  AdbConnection.connected_as_root self w = (Some (Ok (Some b)), w).
Proof.
  intros H. unfold AdbConnection.connected_as_root.
  rewrite (bind_ok _ _ _ _ _ (connected_as_root_getitem_known _ _ _ H)).
  unfold bind at 1, ret at 1.
  now apply connected_as_root_getitem_known.
Qed.

Lemma execute_resolved self command timeout check as_root will_succeed w :
  root_resolved w self as_root ->
  AdbConnection.execute self command timeout check as_root will_succeed w =
  AdbConnection.execute_try self command timeout check
    (effective_as_root w self as_root) will_succeed w.
Proof.
  intros [->|[b Hb]]; [reflexivity|].
  unfold AdbConnection.execute, effective_as_root. destruct as_root; [|reflexivity].
  rewrite (bind_ok _ _ w (negb (AdbConnection.truthy (Some b))) w).
  - now rewrite Hb.
  - now rewrite (bind_ok _ _ _ _ _ (connected_as_root_known _ _ _ Hb)).
Qed.

Section Execute.

Variables (self : AdbConnection.t) (command : string) (timeout : option Z).
Variables (as_root : bool) (w : World).
Hypothesis resolved : root_resolved w self as_root.

Lemma execute_answer check will_succeed r rest :
  script w = r :: rest ->
  fst (AdbConnection.execute self command timeout check as_root will_succeed w) =
  Some match adb_shell_result
               (adb_shell_wrap command (effective_as_root w self as_root)
                  (AdbConnection.su_cmd self))
               (shell_parts w (Some (AdbConnection.device self)) command
                  (effective_as_root w self as_root) (AdbConnection.adb_server self)
                  (AdbConnection.adb_port self) (AdbConnection.su_cmd self))
               check (outcome r) with
       | Ok out => Ok out
       | Err e => Err (reclassify will_succeed command e)
       end.
Proof.
  intros Hs. rewrite (execute_resolved _ _ _ _ _ _ _ resolved).
  erewrite execute_try_step by (apply adb_shell_step; exact Hs).
  reflexivity.
Qed.

(** C8.  Whatever failure [e] leaves [adb_shell], [execute] raises as well: the
    hint suppresses nothing.  With the hint set the error raised is never
    stable, and a stable or process-exit failure comes out transient.  A
    failure that is neither stable nor a process-exit error, a transient one
    in particular, is passed on unchanged whatever the hint. *)
Theorem hint_only_downgrades check will_succeed e w' :
  adb_shell (Some (AdbConnection.device self)) command timeout check
    (effective_as_root w self as_root) (AdbConnection.adb_server self)
    (AdbConnection.adb_port self) (AdbConnection.su_cmd self) w = (Some (Err e), w') ->
  exists e',
    AdbConnection.execute self command timeout check as_root will_succeed w
    = (Some (Err e'), w')
    /\ (will_succeed = true -> is_TargetStableError e' = false)
    /\ (will_succeed = true ->
        is_TargetStableError e = true \/ is_process_exit e = true ->
        is_TargetTransientError e' = true)
    /\ (is_TargetStableError e = false -> is_process_exit e = false -> e' = e)
    /\ (is_TargetTransientError e = true -> e' = e).
Proof.
  intros H. exists (reclassify will_succeed command e).
  split; [|pose proof (adb_shell_raises _ _ _ _ _ _ _ _ _ _ _ H) as He;
           destruct e; try contradiction; repeat split; intros;
           subst; try reflexivity; try discriminate;
           try (destruct will_succeed; reflexivity);
           match goal with H : _ \/ _ |- _ => destruct H; discriminate end].
  rewrite (execute_resolved _ _ _ _ _ _ _ resolved).
  now rewrite (execute_try_step _ _ _ _ _ _ _ _ _ H).
Qed.

(** C7.  Under [check_exit_code], with the hint at its default: when the
    exit-code field of the capture is numeric and not zero, [execute] raises
    the stable process-exit error that carries this code, the command and
    both captured streams; when it is zero and the output matches the
    activity-failed-to-start pattern, [execute] raises a stable error built
    from the first match. *)
Theorem checked_exit_code_raises r rest raw error output exit_code code :
  script w = r :: rest -> outcome r = Exited 0 raw error ->
  adb_shell_split raw = Ok (output, exit_code) ->
  isdigit (strip exit_code) = true -> int (strip exit_code) = Some code ->
  (code <> 0 ->
   exists e,
     fst (AdbConnection.execute self command timeout true as_root false w) = Some (Err e)
     /\ e = TargetStableCalledProcessError code (Line command) output error
     /\ is_TargetStableError e = true /\ is_process_exit e = true)
  /\ (code = 0 -> forall found more,
      AM_START_ERROR_findall output = found :: more ->
      exists e,
        fst (AdbConnection.execute self command timeout true as_root false w) = Some (Err e)
        /\ e = TargetStableError (start_activity_message found)
        /\ is_TargetStableError e = true).
Proof.
  intros Hs Ho Hsplit Hdig Hint.
  pose proof (execute_answer true false _ _ Hs) as E.
  rewrite Ho in E. unfold adb_shell_result in E. cbn [Z.eqb] in E.
  rewrite Hsplit in E. unfold adb_shell_check in E. rewrite Hdig, Hint in E.
  split.
  - intros Hc. eexists. split; [|split; [reflexivity | split; reflexivity]].
    rewrite E. destruct (Z.eqb_spec code 0); [contradiction | reflexivity].
  - intros -> found more Hf. eexists. split; [|split; reflexivity].
    rewrite E, Hf. reflexivity.
Qed.

(** C4, as amended.  An empty capture is given the exit code "969696", which
    is not zero but is numeric: under [check_exit_code] it raises the
    process-exit error carrying 969696, stable unless the hint is set.  A
    non-numeric exit code never raises a process-exit error: it raises the
    transient "returned early" error, unless the output matches the
    activity-failed-to-start pattern, in which case the start-activity error
    is raised (stable unless the hint is set). *)
Theorem exit_code_not_recovered will_succeed r rest raw error output exit_code :
  script w = r :: rest -> outcome r = Exited 0 raw error ->
  adb_shell_split raw = Ok (output, exit_code) ->
  (raw = "" ->
   exit_code = "969696" /\ int exit_code <> Some 0
   /\ fst (AdbConnection.execute self command timeout true as_root will_succeed w)
      = Some (Err ((if will_succeed then TargetTransientCalledProcessError
                    else TargetStableCalledProcessError)
                     969696 (Line command) "" error)))
  /\ (isdigit (strip exit_code) = false ->
      exists e,
        fst (AdbConnection.execute self command timeout true as_root will_succeed w)
        = Some (Err e)
        /\ is_process_exit e = false
        /\ match AM_START_ERROR_findall output with
           | found :: _ =>
               e = if will_succeed
                   then TargetTransientError (OfStable (start_activity_message found))
                   else TargetStableError (start_activity_message found)
           | [] => e = TargetTransientError (returned_early_message raw error)
           end).
Proof.
  intros Hs Ho Hsplit.
  pose proof (execute_answer true will_succeed _ _ Hs) as E.
  rewrite Ho in E. unfold adb_shell_result in E. cbn [Z.eqb] in E.
  rewrite Hsplit in E. split.
  - intros ->. injection Hsplit as <- <-.
    split; [reflexivity | split; [discriminate|]]. rewrite E. reflexivity.
  - intros Hdig. unfold adb_shell_check in E. rewrite Hdig in E.
    destruct (AM_START_ERROR_findall output) as [|found more].
    + eexists. split; [exact E | split; reflexivity].
    + eexists. split; [exact E | now destruct will_succeed].
Qed.

End Execute.

(** * The root toggle *)

Lemma get_adb_command_eq device command server port w :
  get_adb_command device command server port w
  = (Some (Ok (adb_line w device command server port)), w).
Proof.
  unfold get_adb_command, adb_line, bind, get.
  now destruct (_get_adb_parts _ _ _ _ _ _).
Qed.

Lemma adb_command_step device command timeout server port w r rest :
  script w = r :: rest ->
  let full := adb_line w device command server port in
  adb_command device command timeout server port w =
  (Some (adb_command_result full (outcome r)),
   after_reply (Ev_run (Line full) timeout) r rest w).
Proof.
  intros Hs full. unfold adb_command.
  rewrite (bind_ok _ _ _ _ _ (get_adb_command_eq _ _ _ _ _)). fold full.
  unfold bind. rewrite (check_output_step _ _ _ _ _ Hs).
  unfold adb_command_result.
  destruct (outcome r) as [rc out err|]; [|reflexivity].
  now destruct (rc =? 0).
Qed.

Lemma adb_command_stuck device command timeout server port w :
  script w = [] -> adb_command device command timeout server port w = (None, w).
Proof.
  intros Hs. unfold adb_command.
  rewrite (bind_ok _ _ _ _ _ (get_adb_command_eq _ _ _ _ _)).
  unfold bind. now rewrite (check_output_stuck _ _ _ Hs).
Qed.

Lemma nr_active_getitem_eq k w :
  nr_active_getitem k w = (Some (Ok (count w k)), touch k w).
Proof.
  unfold nr_active_getitem, count, touch. now destruct (nr_active w !! k).
Qed.

Lemma touch_id k w : count w k <> 0 -> touch k w = w.
Proof.
  unfold count, touch. destruct (nr_active w !! k); [reflexivity|].
  cbn. congruence.
Qed.

Lemma count_touch k w d : count (touch k w) d = count w d.
Proof.
  unfold touch, count. destruct (nr_active w !! k) eqn:E; [reflexivity|].
  cbn. destruct (decide (k = d)) as [->|Hne].
  - now rewrite lookup_insert_eq, E.
  - now rewrite lookup_insert_ne.
Qed.

Lemma touch_script k w : script (touch k w) = script w.
Proof. unfold touch. now destruct (nr_active w !! k). Qed.

Lemma touch_trace k w : trace (touch k w) = trace w.
Proof. unfold touch. now destruct (nr_active w !! k). Qed.

Lemma touch_cache k w : _connected_as_root (touch k w) = _connected_as_root w.
Proof. unfold touch. now destruct (nr_active w !! k). Qed.

(** C5.  With more than one active connection to the device the root toggle
    raises the busy error and leaves the whole world as it was: no host
    action is taken and the cached root status is unchanged.  So a toggle
    that returns was called with a count of at most one. *)
Theorem root_toggle_busy (self : AdbConnection.t) (enable : bool) (w : World) :
  (1 < count w (AdbConnection.device self) ->
   AdbConnection._adb_root self enable w
   = (Some (Err (AdbRootError AdbConnection.busy_message)), w))
  /\ (forall was_rooted w',
        AdbConnection._adb_root self enable w = (Some (Ok was_rooted), w') ->
        count w (AdbConnection.device self) <= 1).
Proof.
  assert (Hbusy : 1 < count w (AdbConnection.device self) ->
                  AdbConnection._adb_root self enable w
                  = (Some (Err (AdbRootError AdbConnection.busy_message)), w)).
  { intros H. unfold AdbConnection._adb_root.
    rewrite (bind_ok _ _ _ _ _ (nr_active_getitem_eq _ _)).
    rewrite touch_id by lia.
    destruct (Z.leb_spec (count w (AdbConnection.device self)) 1); [lia | reflexivity]. }
  split; [exact Hbusy|].
  intros v w' H.
  destruct (Z.le_gt_cases (count w (AdbConnection.device self)) 1) as [Hle|Hgt];
    [exact Hle|].
  rewrite Hbusy in H by lia. discriminate.
Qed.

Lemma _adb_root_step (self : AdbConnection.t) (enable : bool) (w : World) r rest :
  count w (AdbConnection.device self) <= 1 ->
  script w = r :: rest ->
  let d := AdbConnection.device self in
  let full := adb_line w (Some d) (if enable then "root" else "unroot")
                (AdbConnection.adb_server self) (AdbConnection.adb_port self) in
  let w1 := after_reply (Ev_run (Line full) (Some 30000)) r rest (touch d w) in
  AdbConnection._adb_root self enable w =
  match toggle_result enable full (outcome r) with
  | Ok was_rooted =>
      (Some (Ok was_rooted), set_connected_as_root (insert d (Some enable)) w1)
  | Err e => (Some (Err e), w1)
  end.
Proof.
  intros Hc Hs d full w1. unfold AdbConnection._adb_root.
  rewrite (bind_ok _ _ _ _ _ (nr_active_getitem_eq _ _)).
  destruct (Z.leb_spec (count w (AdbConnection.device self)) 1); [|lia].
  cbn [negb]. unfold bind at 1, attempt.
  rewrite (adb_command_step _ _ _ _ _ _ r rest) by now rewrite touch_script.
  replace (adb_line (touch (AdbConnection.device self) w)) with (adb_line w)
    by (unfold adb_line, touch; now destruct (nr_active w !! _)).
  fold d full w1. unfold adb_command_result, toggle_result.
  destruct (outcome r) as [rc out err|]; [|reflexivity].
  destruct (rc =? 0).
  - unfold bind. now destruct (contains _ out).
  - unfold bind. now destruct (AdbConnection.is_rooted out).
Qed.

(** C6, as amended.  For enable and disable alike, once the busy check has
    passed and the host has answered the toggle command: a non-zero exit is
    tolerated exactly when its text contains "adbd is already running as
    root" (the state asked for when enabling); any other non-zero exit raises
    [AdbRootError] and leaves the cache alone, and so does a zero exit whose
    text contains "cannot run as root in production builds"; every error
    raised is stable; and when the toggle returns, the cache of the device
    holds the state asked for, which every sibling connection then reads. *)
Theorem root_toggle_outcome (self : AdbConnection.t) (enable : bool) (w : World)
    (r : Reply) (rest : list Reply) (rc : Z) (output err : string) :
  count w (AdbConnection.device self) <= 1 ->
  script w = r :: rest -> outcome r = Exited rc output err ->
  let d := AdbConnection.device self in
  let res := AdbConnection._adb_root self enable w in
  (rc <> 0 ->
   (AdbConnection.is_rooted output = true -> fst res = Some (Ok true))
   /\ (AdbConnection.is_rooted output = false ->
       exists c, fst res = Some (Err (AdbRootError (StrCalledProcessError rc c)))
                 /\ _connected_as_root (snd res) = _connected_as_root w))
  /\ (rc = 0 ->
      contains "cannot run as root in production builds" output = true ->
      fst res = Some (Err (AdbRootError (Text output)))
      /\ _connected_as_root (snd res) = _connected_as_root w)
  /\ (forall e, fst res = Some (Err e) -> is_TargetStableError e = true)
  /\ (forall was_rooted, fst res = Some (Ok was_rooted) ->
      _connected_as_root (snd res) !! d = Some (Some enable)
      /\ forall sibling, AdbConnection.device sibling = d ->
           AdbConnection.connected_as_root sibling (snd res)
           = (Some (Ok (Some enable)), snd res)).
Proof.
  intros Hc Hs Ho d res. subst res.
  rewrite (_adb_root_step self enable w r rest Hc Hs). rewrite Ho.
  unfold toggle_result. fold d.
  destruct (Z.eqb_spec rc 0) as [->|Hrc].
  - destruct (contains "cannot run as root in production builds" output) eqn:Eprod;
      cbn [fst snd].
    + repeat split; try congruence.
      * unfold after_reply. cbn. apply touch_cache.
      * now intros e [= <-].
    + repeat split; try congruence.
      * cbn. apply lookup_insert_eq.
      * intros sib Hsib. apply connected_as_root_known. rewrite Hsib.
        cbn. apply lookup_insert_eq.
  - destruct (AdbConnection.is_rooted output) eqn:Er; cbn [fst snd].
    + repeat split; try congruence.
      * cbn. apply lookup_insert_eq.
      * intros sib Hsib. apply connected_as_root_known. rewrite Hsib.
        cbn. apply lookup_insert_eq.
    + repeat split; try congruence.
      * intros _. eexists. split; [reflexivity|].
        unfold after_reply. cbn. apply touch_cache.
      * now intros e [= <-].
Qed.

(** * What the operations leave alone *)

Section Frame.

Variable P : World -> Prop.

(** [P] is blind to the clock, to the script and to every host action
    other than a call of [adb_disconnect]. *)
Hypothesis P_emit :
  forall ev w, (forall d, ev <> Ev_adb_disconnect d) -> P w -> P (emit ev w).
Hypothesis P_elapse : forall ms w, P w -> P (elapse ms w).
Hypothesis P_script : forall s w, P w -> P (set_script s w).
Hypothesis P_uuids : forall u w, P w -> P (set_uuids u w).

Lemma preserves_ret {A} (a : A) : preserves P (ret a).
Proof. intros w H. exact H. Qed.

Lemma preserves_raise {A} e : preserves P (@raise A e).
Proof. intros w H. exact H. Qed.

Lemma preserves_lift {A} (r : result A) : preserves P (lift r).
Proof. intros w H. exact H. Qed.

Lemma preserves_get {A} (f : World -> A) : preserves P (get f).
Proof. intros w H. exact H. Qed.


Lemma preserves_bind {A B} (m : M A) (k : A -> M B) :
  preserves P m -> (forall a, preserves P (k a)) -> preserves P (bind m k).
Proof.
  intros Hm Hk w H. unfold bind. specialize (Hm w H).
  destruct (m w) as [[[a|e]|] w1]; cbn [snd] in *; [now apply Hk | exact Hm | exact Hm].
Qed.

Lemma preserves_attempt {A} (m : M A) : preserves P m -> preserves P (attempt m).
Proof.
  intros Hm w H. unfold attempt. specialize (Hm w H).
  now destruct (m w) as [[r|] w1].
Qed.

Lemma preserves_next_reply c t : preserves P (next_reply (Ev_run c t)).
Proof.
  intros w H. unfold next_reply. destruct (script w) as [|r rest]; [exact H|].
  cbn [snd]. apply P_emit; [discriminate|]. now apply P_elapse, P_script.
Qed.

Lemma preserves_sleep ms : preserves P (sleep ms).
Proof. intros w H. cbn. apply P_emit; [discriminate|]. now apply P_elapse. Qed.

Lemma preserves_uuid4_hex : preserves P uuid4_hex.
Proof.
  intros w H. unfold uuid4_hex. destruct (uuids w); [exact H|]. now apply P_uuids.
Qed.

Lemma preserves_subprocess_Popen c : preserves P (subprocess_Popen c).
Proof. intros w H. cbn. apply P_emit; [discriminate | exact H]. Qed.

Lemma preserves_check_output c t : preserves P (check_output c t).
Proof.
  apply preserves_bind; [apply preserves_next_reply|].
  intros [rc out err|]; [|apply preserves_raise].
  destruct (rc =? 0); [apply preserves_ret | apply preserves_raise].
Qed.

Lemma preserves_subprocess_check_output c : preserves P (subprocess_check_output c).
Proof.
  apply preserves_bind; [apply preserves_next_reply|].
  intros [rc out err|]; [|apply preserves_raise].
  destruct (rc =? 0); [apply preserves_ret | apply preserves_raise].
Qed.

Lemma preserves_subprocess_call c : preserves P (subprocess_call c).
Proof.
  apply preserves_bind; [apply preserves_next_reply|].
  intros [rc out err|]; [apply preserves_ret | apply preserves_raise].
Qed.

Lemma preserves_get_adb_command d c s p : preserves P (get_adb_command d c s p).
Proof.
  apply preserves_bind; [apply preserves_get|]. intros adb.
  destruct (_get_adb_parts _ _ _ _ _ _). apply preserves_ret.
Qed.

Lemma preserves_adb_command d c t s p : preserves P (adb_command d c t s p).
Proof.
  apply preserves_bind; [apply preserves_get_adb_command|]. intros full.
  apply preserves_bind; [apply preserves_check_output|]. intros [o e].
  apply preserves_ret.
Qed.



Lemma preserves_adb_list_devices s p : preserves P (adb_list_devices s p).
Proof.
  apply preserves_bind; [apply preserves_adb_command|]. intros out.
  apply preserves_ret.
Qed.

Lemma preserves_adb_disconnect_body d s p : preserves P (adb_disconnect_body d s p).
Proof.
  unfold adb_disconnect_body.
  destruct (is_empty d); [apply preserves_ret|].
  destruct (contains ":" d); [|apply preserves_ret].
  apply preserves_bind; [apply preserves_adb_list_devices|]. intros devices.
  destruct (str_in_devices d devices); [|apply preserves_ret].
  apply preserves_bind; [apply preserves_get_adb_command|]. intros adb_cmd.
  apply preserves_bind; [apply preserves_subprocess_call|]. intros rv.
  destruct (rv =? 0); [apply preserves_ret | apply preserves_raise].
Qed.

Lemma preserves__ping d s p : preserves P (_ping d s p).
Proof.
  apply preserves_bind; [apply preserves_get_adb_command|]. intros adb_cmd.
  apply preserves_bind; [apply preserves_attempt, preserves_subprocess_check_output|].
  intros [out|e]; [apply preserves_ret|].
  destruct e; try apply preserves_raise. apply preserves_ret.
Qed.

Lemma preserves_adb_shell d c t chk r s p su :
  preserves P (adb_shell d c t chk r s p su).
Proof.
  unfold adb_shell.
  apply preserves_bind; [apply preserves_get|]. intros adb.
  destruct (_get_adb_parts _ _ _ _ _ _) as [parts env].
  apply preserves_bind; [apply preserves_attempt, preserves_check_output|].
  intros [[raw err]|e].
  - apply preserves_bind; [apply preserves_lift|]. intros [output ec].
    apply preserves_bind; [|intros; apply preserves_ret].
    destruct chk; [apply preserves_lift | apply preserves_ret].
  - destruct e; apply preserves_raise.
Qed.

Lemma preserves_execute_try self c t chk r ws :
  preserves P (AdbConnection.execute_try self c t chk r ws).
Proof.
  apply preserves_bind; [apply preserves_attempt, preserves_adb_shell|].
  intros [out|e]; [apply preserves_ret|].
  destruct e; try apply preserves_raise; destruct ws; apply preserves_raise.
Qed.

(** Reading and writing the cached root status. *)
Hypothesis P_cache_read :
  forall k w, P w -> P (snd (connected_as_root_getitem k w)).
Hypothesis P_cache_write :
  forall k b w, P w -> P (set_connected_as_root (insert k (Some b)) w).

Lemma preserves_connected_as_root self :
  preserves P (AdbConnection.connected_as_root self).
Proof.
  apply preserves_bind; [intros w; apply P_cache_read|]. intros cached.
  apply preserves_bind; [|intros _ w; apply P_cache_read].
  destruct cached; [apply preserves_ret|].
  apply preserves_bind; [apply preserves_execute_try|]. intros res w.
  apply P_cache_write.
Qed.

Lemma preserves_execute self c t chk r ws :
  preserves P (AdbConnection.execute self c t chk r ws).
Proof.
  apply preserves_bind; [|intros; apply preserves_execute_try].
  destruct r; [|apply preserves_ret].
  apply preserves_bind; [apply preserves_connected_as_root|]. intros v.
  apply preserves_ret.
Qed.

Lemma preserves__setup_ls self : preserves P (AdbConnection._setup_ls self).
Proof.
  apply preserves_bind; [apply preserves_attempt, preserves_adb_command|].
  intros [out|e].
  - destruct (last _); [|apply preserves_raise].
    destruct (int _); [apply preserves_ret | apply preserves_raise].
  - destruct e; apply preserves_raise.
Qed.

Lemma preserves__setup_su self : preserves P (AdbConnection._setup_su self).
Proof.
  apply preserves_bind; [apply preserves_connected_as_root|]. intros c.
  destruct (AdbConnection.truthy c); [apply preserves_ret|].
  apply preserves_bind; [apply preserves_attempt, preserves_execute|].
  intros [out|e]; [apply preserves_ret|].
  destruct (_ || _); [apply preserves_ret | apply preserves_raise].
Qed.


(** Reading [nr_active]. *)
Hypothesis P_touch : forall k w, P w -> P (touch k w).

Lemma preserves_nr_active_getitem k : preserves P (nr_active_getitem k).
Proof. intros w H. rewrite nr_active_getitem_eq. now apply P_touch. Qed.

Lemma preserves__adb_root self enable : preserves P (AdbConnection._adb_root self enable).
Proof.
  apply preserves_bind; [apply preserves_nr_active_getitem|]. intros n.
  cbv zeta. destruct (negb (n <=? 1)); [apply preserves_raise|].
  apply preserves_bind; [apply preserves_attempt, preserves_adb_command|]. intros r.
  apply preserves_bind; [|intros b; apply preserves_bind;
                           [intros w; apply P_cache_write | intros; apply preserves_ret]].
  destruct r as [out|e].
  - destruct (contains _ out); [apply preserves_raise | apply preserves_ret].
  - destruct e; try apply preserves_raise.
    destruct (negb (AdbConnection.is_rooted output)); [apply preserves_raise | apply preserves_ret].
Qed.

Lemma preserves_adb_root self enable : preserves P (AdbConnection.adb_root self enable).
Proof.
  apply preserves_bind; [apply preserves__adb_root | intros; apply preserves_ret].
Qed.

(** Calls of [adb_disconnect]. *)
Hypothesis P_disconnect : forall d w, P w -> P (emit (Ev_adb_disconnect d) w).

Lemma preserves_adb_disconnect d s p : preserves P (adb_disconnect d s p).
Proof.
  apply preserves_bind; [intros w H; apply P_disconnect, H|]. intros _.
  apply preserves_adb_disconnect_body.
Qed.

Lemma preserves_adb_connect_loop n d t s p o :
  preserves P (adb_connect_loop n d t s p o).
Proof.
  revert o. induction n as [|n IH]; intros o; [apply preserves_raise|].
  cbn [adb_connect_loop].
  apply preserves_bind.
  - destruct (negb (is_empty d) && contains "." d); [|apply preserves_ret].
    apply preserves_bind; [apply preserves_adb_disconnect|]. intros _.
    apply preserves_bind; [apply preserves_get_adb_command|]. intros adb_cmd.
    apply preserves_bind; [apply preserves_check_output|]. intros [out e].
    apply preserves_ret.
  - intros o'. apply preserves_bind; [apply preserves__ping|]. intros alive.
    destruct alive; [apply preserves_ret|].
    apply preserves_bind; [apply preserves_sleep|]. intros _. apply IH.
Qed.

Lemma preserves_adb_connect d t a s p : preserves P (adb_connect d t a s p).
Proof. apply preserves_adb_connect_loop. Qed.

End Frame.

(** * Reference counting *)

Lemma bind_inv_ok {A B} (m : M A) (k : A -> M B) w b w' :
  bind m k w = (Some (Ok b), w') ->
  exists a w1, m w = (Some (Ok a), w1) /\ k a w1 = (Some (Ok b), w').
Proof.
  unfold bind. destruct (m w) as [[[a|e]|] w1]; try discriminate.
  intros H. now exists a, w1.
Qed.

Lemma preserves_ok {A} P (m : M A) w r w' :
  preserves P m -> m w = (r, w') -> P w -> P w'.
Proof. intros Hm E H. specialize (Hm w H). now rewrite E in Hm. Qed.

Ltac frame_side :=
  try solve [ intros; assumption
            | intros; unfold counts_are in *; intros; rewrite count_touch; auto
            | intros ? w0 ?; unfold connected_as_root_getitem;
              destruct (_connected_as_root w0 !! _); assumption ].

Section Counts.

Variable f : string -> Z.

Lemma counts__adb_root self enable :
  preserves (counts_are f) (AdbConnection._adb_root self enable).
Proof. apply preserves__adb_root; frame_side. Qed.

Lemma counts_adb_root self enable :
  preserves (counts_are f) (AdbConnection.adb_root self enable).
Proof. apply preserves_adb_root; frame_side. Qed.


Lemma counts_adb_connect d t a s p : preserves (counts_are f) (adb_connect d t a s p).
Proof. apply preserves_adb_connect; frame_side. Qed.

Lemma counts_adb_disconnect d s p : preserves (counts_are f) (adb_disconnect d s p).
Proof. apply preserves_adb_disconnect; frame_side. Qed.

Lemma counts__setup_ls self : preserves (counts_are f) (AdbConnection._setup_ls self).
Proof. apply preserves__setup_ls; frame_side. Qed.

Lemma counts__setup_su self : preserves (counts_are f) (AdbConnection._setup_su self).
Proof. apply preserves__setup_su; frame_side. Qed.

End Counts.

Lemma count_setitem k v w d :
  count (set_nr_active (insert k v) w) d = if decide (k = d) then v else count w d.
Proof.
  unfold count. cbn. destruct (decide (k = d)) as [->|Hne].
  - now rewrite lookup_insert_eq.
  - now rewrite lookup_insert_ne.
Qed.

Lemma count_delitem k w d :
  count (set_nr_active (delete k) w) d = if decide (k = d) then 0 else count w d.
Proof.
  unfold count. cbn. destruct (decide (k = d)) as [->|Hne].
  - now rewrite lookup_delete_eq.
  - now rewrite lookup_delete_ne.
Qed.


(** The constructor adds one to the count of a device it was given before it
    talks to the host, and nothing it does afterwards changes a count. *)
Lemma init_counts_any d timeout sv pt as_root attempts w d' :
  count (snd (AdbConnection.__init__ (Some d) timeout sv pt as_root attempts w)) d'
  = count w d' + (if decide (d = d') then 1 else 0).
Proof.
  unfold AdbConnection.__init__.
  unfold bind at 1, ret at 1.
  rewrite (bind_ok _ _ _ _ _ (nr_active_getitem_eq _ _)).
  unfold bind at 1, nr_active_setitem at 1, modify at 1.
  set (w3 := set_nr_active (insert d (count w d + 1)) (touch d w)).
  set (g := fun x => count w x + (if decide (d = x) then 1 else 0)).
  assert (C3 : counts_are g w3).
  { intros x. unfold w3, g. rewrite count_setitem, count_touch.
    destruct (decide (d = x)) as [->|]; lia. }
  match goal with
  | |- count (snd (?m w3)) d' = _ => assert (Hm : preserves (counts_are g) m)
  end.
  { apply preserves_bind.
    - destruct as_root; [|apply preserves_ret].
      apply preserves_bind; [apply preserves_attempt, counts__adb_root|].
      intros [b|e]; [apply preserves_ret|].
      destruct e; try apply preserves_raise. apply preserves_ret.
    - intros restore. apply preserves_bind; [apply counts_adb_connect|].
      intros _. apply preserves_bind; [apply counts__setup_ls|].
      intros ls. apply preserves_bind; [apply counts__setup_su|].
      intros su. apply preserves_ret. }
  exact (Hm w3 C3 d').
Qed.




Lemma _close_eq (c : AdbConnection.t) (w : World) :
  let d := AdbConnection.device c in
  let n := count w d in
  let w2 := set_nr_active (insert d (n - 1)) (touch d w) in
  AdbConnection._close c w =
  if n - 1 <=? 0 then
    bind (if AdbConnection.adb_as_root c
          then AdbConnection.adb_root c (AdbConnection._restore_to_adb_root c)
          else ret tt)
         (fun _ => adb_disconnect d (AdbConnection.adb_server c) (AdbConnection.adb_port c))
         (set_nr_active (delete d) w2)
  else (Some (Ok tt), w2).
Proof.
  intros d n w2. unfold AdbConnection._close. fold d.
  rewrite (bind_ok _ _ _ _ _ (nr_active_getitem_eq _ _)). fold n.
  unfold bind at 1. unfold nr_active_setitem at 1, modify at 1. fold w2.
  rewrite (bind_ok _ _ _ _ _ (nr_active_getitem_eq _ _)).
  assert (Hn : count w2 d = n - 1).
  { unfold w2. rewrite count_setitem. now destruct (decide (d = d)). }
  assert (Ht : touch d w2 = w2).
  { unfold touch, w2. cbn. now rewrite lookup_insert_eq. }
  rewrite Hn, Ht. destruct (n - 1 <=? 0); reflexivity.
Qed.


Lemma disconnects_cons d ev tr :
  disconnects d (ev :: tr)
  = ((if is_disconnect_of d ev then 1 else 0) + disconnects d tr)%nat.
Proof.
  unfold disconnects. rewrite filter_cons.
  destruct (is_disconnect_of d ev); now destruct (decide _).
Qed.

Section Quiet.

Variables (d : string) (n : nat).

Ltac quiet_side :=
  try solve [ intros; assumption
            | intros ? w0 ?; unfold connected_as_root_getitem;
              destruct (_connected_as_root w0 !! _); assumption
            | intros; unfold disconnects_are in *; rewrite touch_trace; auto
            | intros ev w0 Hev H; unfold disconnects_are in *; cbn [trace emit];
              rewrite disconnects_cons;
              destruct ev as [? ?|?|dv|?]; try exact H; now specialize (Hev dv) ].


Lemma quiet_adb_disconnect_body dev s p :
  preserves (disconnects_are d n) (adb_disconnect_body dev s p).
Proof. apply preserves_adb_disconnect_body; quiet_side. Qed.




End Quiet.

(** A call of [adb_disconnect] shows once in the trace, however it ends. *)
Lemma adb_disconnect_traced dev s p w d :
  disconnects d (trace (snd (adb_disconnect dev s p w)))
  = ((if decide (dev = d) then 1 else 0) + disconnects d (trace w))%nat.
Proof.
  unfold adb_disconnect, bind at 1, modify at 1.
  apply (quiet_adb_disconnect_body d _ dev s p).
  unfold disconnects_are. cbn [trace emit]. rewrite disconnects_cons. cbn.
  destruct (decide (dev = d)); [now rewrite bool_decide_eq_true_2
                               | now rewrite bool_decide_eq_false_2].
Qed.

(** The calls of [adb_disconnect] *)

Lemma str_in_devices_false device devices : str_in_devices device devices = false.
Proof. unfold str_in_devices. induction devices as [|d l IH]; [reflexivity | exact IH]. Qed.

Lemma adb_disconnect_body_eq device sv pt w :
  adb_disconnect_body device sv pt w =
  if is_empty device then (Some (Ok tt), w)
  else if contains ":" device then
    match adb_list_devices sv pt w with
    | (Some (Ok _), w') => (Some (Ok tt), w')
    | (Some (Err e), w') => (Some (Err e), w')
    | (None, w') => (None, w')
    end
  else (Some (Ok tt), w).
Proof.
  unfold adb_disconnect_body. destruct (is_empty device); [reflexivity|].
  destruct (contains ":" device); [|reflexivity].
  unfold bind at 1. destruct (adb_list_devices sv pt w) as [[[devs|e]|] w']; try reflexivity.
  now rewrite str_in_devices_false.
Qed.



















(** * Device discovery *)

Lemma adb_get_device_loop_step k timeout sv pt start w r rest text err :
  script w = r :: rest -> outcome r = Exited 0 text err ->
  let w1 := after_reply (Ev_run (Line (adb_line w None "devices" sv pt)) None) r rest w in
  let output := splitlines text in
  let n := Z.of_nat (length output) in
  adb_get_device_loop (S k) timeout sv pt start w =
  if n =? 3 then (Some (Ok (split_first "009"%char (nth 1 output EmptyString))), w1)
  else if 3 <? n then (Some (Err (HostError (too_many_devices_message (n - 2)))), w1)
  else match timeout with
       | None => (Some (Err TypeError), w1)
       | Some t =>
           if t <? now w1 - start then (Some (Err no_device_error), w1)
           else adb_get_device_loop k (Some t) sv pt start
                  (emit (Ev_sleep 1000) (elapse 1000 w1))
       end.
Proof.
  intros Hs Ho w1 output n. cbn [adb_get_device_loop].
  pose proof (adb_command_step None "devices" None sv pt w r rest Hs) as E.
  cbv zeta in E. rewrite Ho in E. cbn [adb_command_result Z.eqb] in E.
  rewrite (bind_ok _ _ _ _ _ E). fold w1 output n.
  destruct (n =? 3); [reflexivity|].
  destruct (3 <? n); [reflexivity|].
  unfold bind at 1, time, get.
  destruct timeout as [t|]; [|reflexivity].
  destruct (t <? now w1 - start); reflexivity.
Qed.

Lemma adb_get_device_eq timeout sv pt w r0 rest out0 err0 :
  script w = r0 :: rest -> outcome r0 = Exited 0 out0 err0 ->
  let w0 := after_reply (Ev_run (Line (adb_line w None "start-server" sv pt)) None) r0 rest w in
  adb_get_device timeout sv pt w
  = adb_get_device_loop (S (length rest)) timeout sv pt (now w0) w0.
Proof.
  intros Hs Ho w0. unfold adb_get_device.
  pose proof (adb_command_step None "start-server" None sv pt w r0 rest Hs) as E.
  cbv zeta in E. rewrite Ho in E. cbn [adb_command_result Z.eqb] in E.
  rewrite (bind_ok _ _ _ _ _ E). fold w0. reflexivity.
Qed.

(** More than one device: an immediate error that names their number. *)
Lemma discovery_ambiguous timeout sv pt w r0 r1 rest out0 err0 n :
  script w = r0 :: r1 :: rest -> outcome r0 = Exited 0 out0 err0 ->
  lists_devices n r1 -> 1 < n ->
  fst (adb_get_device timeout sv pt w)
  = Some (Err (HostError (too_many_devices_message n))).
Proof.
  intros Hs Ho (text & err & Ho1 & Hn) H1.
  rewrite (adb_get_device_eq _ _ _ _ _ _ _ _ Hs Ho).
  erewrite adb_get_device_loop_step; [|reflexivity | exact Ho1].
  cbv zeta. rewrite Hn.
  destruct (Z.eqb_spec (n + 2) 3); [lia|].
  destruct (Z.ltb_spec 3 (n + 2)); [|lia].
  cbn [fst]. do 3 f_equal. f_equal. lia.
Qed.

(** The polling loop with a numeric timeout: as long as the timeout has not
    elapsed it sleeps and asks again, and it returns the first device that
    shows up. *)
Lemma discovery_polls k t sv pt start w (zeros : list Reply) r rest text err :
  script w = zeros ++ r :: rest ->
  Forall lists_no_device zeros ->
  outcome r = Exited 0 text err -> length (splitlines text) = 3%nat ->
  (length zeros <= k)%nat ->
  now w - start + Z.of_nat (length zeros) * 1000
  + Z.of_N (foldr (fun x acc => (took x + acc)%N) 0%N zeros) <= t ->
  fst (adb_get_device_loop (S k) (Some t) sv pt start w)
  = Some (Ok (split_first "009"%char (nth 1 (splitlines text) EmptyString))).
Proof.
  revert k w. induction zeros as [|z zeros IH]; intros k w Hs Hz Ho Hlen Hk Ht.
  - erewrite adb_get_device_loop_step; [|exact Hs | exact Ho].
    cbv zeta. now rewrite Hlen.
  - apply Forall_cons in Hz. destruct Hz as [(ztext & zerr & Hzo & Hzn) Hz].
    destruct k as [|k]; [cbn in Hk; lia|].
    change ((z :: zeros) ++ r :: rest) with (z :: (zeros ++ r :: rest)) in Hs.
    erewrite adb_get_device_loop_step; [|exact Hs | exact Hzo].
    cbv zeta.
    destruct (Z.eqb_spec (Z.of_nat (length (splitlines ztext))) 3); [lia|].
    destruct (Z.ltb_spec 3 (Z.of_nat (length (splitlines ztext)))); [lia|].
    cbn [foldr length] in Ht.
    match goal with |- context [?a <? ?b] => destruct (Z.ltb_spec a b) as [Hlt|Hge] end.
    + cbn in Hlt. lia.
    + apply IH; try assumption.
      * reflexivity.
      * cbn in Hk. lia.
      * cbn. lia.
Qed.

(** With a numeric timeout and a host that keeps listing no device, the loop
    ends with the no-device error. *)
Lemma discovery_times_out k t sv pt start w :
  script w <> [] -> Forall lists_no_device (script w) ->
  (length (script w) <= S k)%nat -> start <= now w ->
  t < (Z.of_nat (length (script w)) - 1) * 1000 + (now w - start) ->
  let res := adb_get_device_loop (S k) (Some t) sv pt start w in
  fst res = Some (Err no_device_error) /\ t < now (snd res) - start.
Proof.
  cbv zeta.
  remember (script w) as rs eqn:Hs. revert k w Hs.
  induction rs as [|r rs IH]; intros k w Hs Hne Hz Hk Hstart Ht; [congruence|].
  apply Forall_cons in Hz. destruct Hz as [(text & err & Ho & Hn) Hz].
  erewrite adb_get_device_loop_step; [|symmetry; exact Hs | exact Ho].
  cbv zeta.
  destruct (Z.eqb_spec (Z.of_nat (length (splitlines text))) 3); [lia|].
  destruct (Z.ltb_spec 3 (Z.of_nat (length (splitlines text)))); [lia|].
  set (w1 := after_reply _ r rs w).
  assert (Hnow : now w1 = now w + Z.of_N (took r)) by reflexivity.
  destruct (Z.ltb_spec t (now w1 - start)) as [Hlt|Hge]; [now split|].
  destruct rs as [|r' rs'].
  - cbn [length] in Ht. lia.
  - destruct k as [|k]; [cbn in Hk; lia|].
    apply IH; try assumption.
    + reflexivity.
    + discriminate.
    + cbn in Hk |- *. lia.
    + cbn [now emit elapse]. lia.
    + cbn [now emit elapse length] in *. lia.
Qed.

Lemma discovery_finds_device t sv pt w r0 out0 err0 (zeros : list Reply) r rest text err :
  script w = r0 :: zeros ++ r :: rest -> outcome r0 = Exited 0 out0 err0 ->
  Forall lists_no_device zeros ->
  outcome r = Exited 0 text err -> lists_devices 1 r ->
  Z.of_nat (length zeros) * 1000
  + Z.of_N (foldr (fun x acc => (took x + acc)%N) 0%N zeros) <= t ->
  fst (adb_get_device (Some t) sv pt w)
  = Some (Ok (split_first "009"%char (nth 1 (splitlines text) EmptyString))).
Proof.
  intros Hs Ho Hz Hr (text' & err' & Hr' & Hn) Ht.
  rewrite Hr in Hr'. injection Hr' as <- <-.
  rewrite (adb_get_device_eq _ _ _ _ _ _ _ _ Hs Ho).
  eapply discovery_polls; try eassumption.
  - reflexivity.
  - lia.
  - rewrite length_app. lia.
  - lia.
Qed.

Lemma discovery_gives_up t sv pt w r0 rs out0 err0 :
  script w = r0 :: rs -> outcome r0 = Exited 0 out0 err0 ->
  rs <> [] -> Forall lists_no_device rs ->
  t < (Z.of_nat (length rs) - 1) * 1000 ->
  let res := adb_get_device (Some t) sv pt w in
  fst res = Some (Err no_device_error)
  /\ t < now (snd res) - (now w + Z.of_N (took r0)).
Proof.
  intros Hs Ho Hne Hz Ht. cbv zeta.
  rewrite (adb_get_device_eq _ _ _ _ _ _ _ _ Hs Ho).
  apply discovery_times_out; unfold after_reply;
    cbn [script now emit elapse set_script]; try assumption; lia.
Qed.

Lemma discovery_type_error sv pt w r0 rs out0 err0 :
  script w = r0 :: rs -> outcome r0 = Exited 0 out0 err0 ->
  rs <> [] -> Forall lists_no_device rs ->
  fst (adb_get_device None sv pt w) = Some (Err TypeError).
Proof.
  intros Hs Ho Hne Hz. destruct rs as [|r rs]; [congruence|].
  apply Forall_cons in Hz. destruct Hz as [(text & err & Hr & Hn) _].
  rewrite (adb_get_device_eq _ _ _ _ _ _ _ _ Hs Ho).
  erewrite adb_get_device_loop_step; [|reflexivity | exact Hr].
  cbv zeta.
  destruct (Z.eqb_spec (Z.of_nat (length (splitlines text))) 3); [lia|].
  destruct (Z.ltb_spec 3 (Z.of_nat (length (splitlines text)))); [lia|].
  reflexivity.
Qed.

(** C10.  The host has started its server and then keeps listing no device.
    Without a timeout, which is what the constructor passes on when it was
    given neither a device nor a timeout, discovery raises [TypeError] at the
    first enumeration, also through the constructor.  With a numeric timeout
    [t], and a host that answers long enough, it ends with the no-device
    error, and by then more than [t] has passed since the loop started. *)
Theorem discovery_without_timeout (timeout : option Z) (sv : option string)
    (pt : option Z) (w : World) (r0 : Reply) (rs : list Reply) (out0 err0 : string) :
  script w = r0 :: rs -> outcome r0 = Exited 0 out0 err0 ->
  rs <> [] -> Forall lists_no_device rs ->
  match timeout with
  | None =>
      fst (adb_get_device None sv pt w) = Some (Err TypeError)
      /\ forall adb_as_root attempts,
           fst (AdbConnection.__init__ None None sv pt adb_as_root attempts w)
           = Some (Err TypeError)
  | Some t =>
      t < (Z.of_nat (length rs) - 1) * 1000 ->
      let res := adb_get_device (Some t) sv pt w in
      fst res = Some (Err no_device_error)
      /\ t < now (snd res) - (now w + Z.of_N (took r0))
  end.
Proof.
  intros Hs Ho Hne Hz. destruct timeout as [t|].
  - intros Ht. now apply (discovery_gives_up t sv pt w r0 rs out0 err0).
  - pose proof (discovery_type_error sv pt w r0 rs out0 err0 Hs Ho Hne Hz) as E.
    split; [exact E|]. intros ar at_. unfold AdbConnection.__init__.
    unfold bind at 1.
    destruct (adb_get_device None sv pt w) as [[[a|e]|] w1]; cbn [fst] in *;
      try discriminate. now injection E as ->.
Qed.

(** * The discovery loop of a background launch *)

Section Discovery.

Variables (conn : AdbConnection.t) (find_pid orig_command : string) (as_root : bool).




Lemma replicate_shift {A} (n : nat) (x : A) (l : list A) :
  replicate n x ++ x :: l = x :: replicate n x ++ l.
Proof. induction n as [|n IH]; [reflexivity|]. cbn. now rewrite IH. Qed.



End Discovery.

(** A listing that prints no process id is a miss. *)
Lemma empty_listing_misses conn find_pid as_root w r pids :
  adb_shell_result
    (adb_shell_wrap find_pid (effective_as_root w conn as_root) (AdbConnection.su_cmd conn))
    (shell_parts w (Some (AdbConnection.device conn)) find_pid
       (effective_as_root w conn as_root) (AdbConnection.adb_server conn)
       (AdbConnection.adb_port conn) (AdbConnection.su_cmd conn))
    true (outcome r) = Ok pids ->
  split pids = [] ->
  misses conn find_pid as_root w r.
Proof.
  intros H Hs. exists ValueError. split; [|reflexivity].
  unfold find_pid_result. now rewrite H, Hs.
Qed.



(** * Supporting facts *)

(** The rounds of the discovery loop are never used up: it falls silent only
    when the host does. *)
Lemma adb_get_device_loop_silent rounds timeout sv pt start w w' :
  (length (script w) < rounds)%nat ->
  adb_get_device_loop rounds timeout sv pt start w = (None, w') ->
  script w' = [].
Proof.
  revert w timeout. induction rounds as [|k IH]; intros w timeout Hk; [lia|].
  destruct (script w) as [|r rest] eqn:Hs.
  - cbn [adb_get_device_loop].
    rewrite (bind_stuck _ _ _ _ (adb_command_stuck _ _ _ _ _ _ Hs)).
    now intros [= <-].
  - cbn [adb_get_device_loop]. unfold bind at 1.
    rewrite (adb_command_step _ _ _ _ _ _ _ _ Hs). cbv zeta.
    destruct (outcome r) as [rc out err|]; cbn [adb_command_result]; [|discriminate].
    destruct (rc =? 0); [|discriminate].
    destruct (_ =? 3); [discriminate|]. destruct (3 <? _); [discriminate|].
    unfold bind at 1, time, get.
    destruct timeout as [t|]; [|discriminate].
    destruct (t <? _); [discriminate|].
    unfold bind at 1, sleep, modify. apply IH. cbn in *. lia.
Qed.

(** Reading the property [connected_as_root] leaves the status cached. *)
Lemma connected_as_root_caches self w v w' :
  AdbConnection.connected_as_root self w = (Some (Ok v), w') ->
  known (AdbConnection.device self) w'.
Proof.
  unfold AdbConnection.connected_as_root. intros H.
  apply bind_inv_ok in H. destruct H as (cached & w1 & Hget & H).
  apply bind_inv_ok in H. destruct H as ([] & w2 & Hset & H).
  destruct cached as [b|].
  - injection Hset as <-. unfold connected_as_root_getitem in Hget.
    destruct (_connected_as_root w !! AdbConnection.device self) as [v0|] eqn:E;
      [|discriminate].
    injection Hget as -> <-.
    unfold connected_as_root_getitem in H. rewrite E in H. injection H as _ <-.
    now exists b.
  - apply bind_inv_ok in Hset. destruct Hset as (res & w3 & _ & Hset).
    injection Hset as <-.
    unfold connected_as_root_getitem in H. cbn in H.
    rewrite lookup_insert_eq in H. injection H as _ <-.
    eexists. cbn. apply lookup_insert_eq.
Qed.

(** Once cached, the root status of a device stays cached. *)
Section Known.

Variable d : string.

Ltac known_side :=
  try solve [ intros; assumption
            | intros k w0 [b Hb]; exists b; unfold connected_as_root_getitem;
              destruct (_connected_as_root w0 !! k) eqn:E; [exact Hb|];
              cbn; rewrite lookup_insert_ne; [exact Hb | congruence]
            | intros k b0 w0 [b Hb]; unfold known; cbn;
              destruct (decide (k = d)) as [->|Hne];
              [ rewrite lookup_insert_eq; eauto
              | rewrite lookup_insert_ne by exact Hne; eauto ]
            | intros k w0 H; unfold known in *; now rewrite touch_cache ].

Lemma known_execute self c t chk r ws :
  preserves (known d) (AdbConnection.execute self c t chk r ws).
Proof. apply preserves_execute; known_side. Qed.

Lemma known__adb_root self enable :
  preserves (known d) (AdbConnection._adb_root self enable).
Proof. apply preserves__adb_root; known_side. Qed.

Lemma known_adb_root self enable :
  preserves (known d) (AdbConnection.adb_root self enable).
Proof. apply preserves_adb_root; known_side. Qed.

Lemma known_adb_disconnect dev s p : preserves (known d) (adb_disconnect dev s p).
Proof. apply preserves_adb_disconnect; known_side. Qed.

Lemma known__close self : preserves (known d) (AdbConnection._close self).
Proof.
  intros w H. rewrite _close_eq. cbv zeta.
  destruct (_ <=? 0);
    [|unfold known in *; cbn [snd _connected_as_root set_nr_active];
      now rewrite touch_cache].
  apply (preserves_bind (known d)).
  - destruct (AdbConnection.adb_as_root self);
      [apply known_adb_root | apply preserves_ret].
  - intros _. apply known_adb_disconnect.
  - unfold known in *. cbn [_connected_as_root set_nr_active].
    now rewrite touch_cache.
Qed.

Lemma known_find_pid_loop n conn find_pid orig as_root :
  preserves (known d) (find_pid_loop n conn find_pid orig as_root).
Proof.
  induction n as [|n IH]; [apply preserves_raise|]. cbn [find_pid_loop].
  apply preserves_bind.
  - apply preserves_attempt. unfold find_pid_once.
    apply preserves_bind; [apply known_execute|]. intros pids.
    destruct (traverse_int _); [|apply preserves_raise].
    destruct (Py.max _); [apply preserves_ret | apply preserves_raise].
  - intros [pid|e]; [apply preserves_ret|].
    destruct (is_TargetStableError e); [apply preserves_raise|].
    apply preserves_bind; [|intros _; exact IH].
    apply preserves_sleep; known_side.
Qed.

End Known.

(** A connection that has been constructed finds the root status of its
    device in the cache: [root_resolved] holds for it. *)
Lemma init_caches_root_status device timeout sv pt ar attempts w c w' :
  AdbConnection.__init__ device timeout sv pt ar attempts w = (Some (Ok c), w') ->
  known (AdbConnection.device c) w'.
Proof.
  unfold AdbConnection.__init__. intros H.
  apply bind_inv_ok in H. destruct H as (dev & w1 & _ & H).
  apply bind_inv_ok in H. destruct H as (n & w2 & _ & H).
  apply bind_inv_ok in H. destruct H as ([] & w3 & _ & H).
  apply bind_inv_ok in H. destruct H as (restore & w4 & _ & H).
  apply bind_inv_ok in H. destruct H as ([] & w5 & _ & H).
  apply bind_inv_ok in H. destruct H as (ls & w6 & _ & H).
  apply bind_inv_ok in H. destruct H as (su & w7 & Hsu & H).
  injection H as <- <-. cbn [AdbConnection.device].
  unfold AdbConnection._setup_su in Hsu.
  apply bind_inv_ok in Hsu. destruct Hsu as (v & w8 & Hprop & Hsu).
  apply connected_as_root_caches in Hprop. cbn [AdbConnection.device] in Hprop.
  destruct (AdbConnection.truthy v); [now injection Hsu as _ <-|].
  apply bind_inv_ok in Hsu. destruct Hsu as (r & w9 & Hex & Hsu).
  assert (known dev w9).
  { eapply preserves_ok; [apply preserves_attempt, known_execute | exact Hex | exact Hprop]. }
  destruct r as [out|e]; [now injection Hsu as _ <-|].
  destruct (_ || _); [now injection Hsu as _ <- | discriminate].
Qed.

(** * The statements at concrete inputs *)

Example devices_listing_lines :
  length (splitlines (devices_listing [])) = 2%nat
  /\ length (splitlines (devices_listing ["emulator-5554" +:+ String "009" "device"])) = 3%nat.
Proof. split; reflexivity. Qed.

Lemma pair_eta {A B} (x : A * B) (a : A) : fst x = a -> x = (a, snd x).
Proof. destruct x. cbn. now intros ->. Defined.

Lemma hint_only_downgrades_witness :
  exists e',
    AdbConnection.execute sample_conn "exit 3" None true false true
      (fresh_world [answers (nl +:+ "3" +:+ nl)])
    = (Some (Err e'),
       snd (adb_shell (Some "emulator-5554") "exit 3" None true false None None "su -c {}"
              (fresh_world [answers (nl +:+ "3" +:+ nl)])))
    /\ is_TargetTransientError e' = true.
Proof.
  destruct (hint_only_downgrades sample_conn "exit 3" None false
              (fresh_world [answers (nl +:+ "3" +:+ nl)])
              (or_introl eq_refl) true true
              (CalledProcessError 3 (Argv ["shell"; "(exit 3); echo " +:+ chr DQ
                                            +:+ chr BACKSLASH +:+ "n$?" +:+ chr DQ]) "" "")
              (snd (adb_shell (Some "emulator-5554") "exit 3" None true false None None
                      "su -c {}" (fresh_world [answers (nl +:+ "3" +:+ nl)]))))
    as (e' & He & _ & Ht & _).
  - apply pair_eta. vm_compute. reflexivity.
  - exists e'. split; [exact He|]. apply Ht; [reflexivity | right; reflexivity].
Defined.

Lemma checked_exit_code_raises_witness :
  exists e,
    fst (AdbConnection.execute sample_conn "exit 3" None true false false
           (fresh_world [answers (nl +:+ "3" +:+ nl)])) = Some (Err e)
    /\ e = TargetStableCalledProcessError 3 (Line "exit 3") "" ""
    /\ is_TargetStableError e = true /\ is_process_exit e = true.
Proof.
  refine (proj1 (checked_exit_code_raises sample_conn "exit 3" None false
                   (fresh_world [answers (nl +:+ "3" +:+ nl)]) (or_introl eq_refl)
                   (answers (nl +:+ "3" +:+ nl)) [] (nl +:+ "3" +:+ nl) "" "" "3" 3
                   eq_refl eq_refl eq_refl eq_refl eq_refl) _).
  discriminate.
Defined.

Lemma exit_code_not_recovered_witness :
  exists e,
    fst (AdbConnection.execute sample_conn "ls" None true false false
           (fresh_world [answers ("a" +:+ nl +:+ "killed" +:+ nl)])) = Some (Err e)
    /\ is_process_exit e = false
    /\ e = TargetTransientError
             (returned_early_message ("a" +:+ nl +:+ "killed" +:+ nl) "").
Proof.
  exact (proj2 (exit_code_not_recovered sample_conn "ls" None false
                  (fresh_world [answers ("a" +:+ nl +:+ "killed" +:+ nl)])
                  (or_introl eq_refl) false
                  (answers ("a" +:+ nl +:+ "killed" +:+ nl)) []
                  ("a" +:+ nl +:+ "killed" +:+ nl) "" "a" "killed"
                  eq_refl eq_refl eq_refl) eq_refl).
Defined.

(** C4 fails as stated: an empty capture, under [check_exit_code], raises the
    stable process-exit error with the code 969696, not a transient error;
    and a non-numeric exit code next to an output that matches the activity
    pattern raises a stable error. *)
Lemma undetermined_exit_code_is_not_transient :
  (exists e,
     fst (AdbConnection.execute sample_conn "true" None true false false
            (fresh_world [answers ""])) = Some (Err e)
     /\ e = TargetStableCalledProcessError 969696 (Line "true") "" ""
     /\ is_process_exit e = true /\ is_TargetTransientError e = false)
  /\ (exists e,
        fst (AdbConnection.execute sample_conn "am start x" None true false false
               (fresh_world [answers ("Error: Activity not started" +:+ nl
                                      +:+ "killed" +:+ nl)])) = Some (Err e)
        /\ is_TargetStableError e = true /\ is_TargetTransientError e = false).
Proof.
  split; eexists; (split; [vm_compute; reflexivity | repeat split]).
Qed.

Lemma root_toggle_busy_witness :
  AdbConnection._adb_root sample_conn true
    (busy_world [answers "restarting adbd as root"])
  = (Some (Err (AdbRootError AdbConnection.busy_message)),
     busy_world [answers "restarting adbd as root"]).
Proof.
  apply (proj1 (root_toggle_busy sample_conn true
                  (busy_world [answers "restarting adbd as root"]))).
  vm_compute. reflexivity.
Defined.

Lemma root_toggle_outcome_witness :
  fst (AdbConnection._adb_root sample_conn true
         (single_world [fails_with 1 "adbd is already running as root"]))
  = Some (Ok true).
Proof.
  refine (proj1 (proj1 (root_toggle_outcome sample_conn true
                   (single_world [fails_with 1 "adbd is already running as root"])
                   (fails_with 1 "adbd is already running as root") [] 1
                   "adbd is already running as root" "" _ eq_refl eq_refl) _) _).
  - vm_compute. discriminate.
  - discriminate.
  - vm_compute. reflexivity.
Defined.

(** C6 fails as stated: a failed [unroot] whose text says that adbd runs as
    root, which is not the state asked for, is tolerated all the same, and
    the cache then says "not root". *)
Lemma unroot_failure_tolerated :
  let res := AdbConnection._adb_root sample_conn false
               (single_world [fails_with 1 "adbd is already running as root"]) in
  fst res = Some (Ok true)
  /\ _connected_as_root (snd res) !! "emulator-5554" = Some (Some false).
Proof. split; vm_compute; reflexivity. Qed.



(** Two connections to one device, released in the order of construction:
    the count goes 1, 2, 1, 0 and [adb_disconnect] is called by the last
    close only. *)
Example two_connections_lifecycle :
  let init := AdbConnection.__init__ (Some "emulator-5554") None None None false 5 in
  let w0 := fresh_world (replicate 8 (answers shell_banner)) in
  let w1 := snd (init w0) in
  let w2 := snd (init w1) in
  let w3 := snd (AdbConnection._close sample_conn w2) in
  let w4 := snd (AdbConnection._close sample_conn w3) in
  map (fun w => count w "emulator-5554") [w0; w1; w2; w3; w4] = [0; 1; 2; 1; 0]
  /\ map (fun w => disconnects "emulator-5554" (trace w)) [w0; w1; w2; w3; w4]
     = [0; 0; 0; 0; 1]%nat.
Proof. split; vm_compute; reflexivity. Qed.



Lemma discovery_without_timeout_witness :
  fst (adb_get_device None None None
         (fresh_world [answers ""; answers (devices_listing [])]))
  = Some (Err TypeError).
Proof.
  refine (proj1 (discovery_without_timeout None None None
                   (fresh_world [answers ""; answers (devices_listing [])])
                   (answers "") [answers (devices_listing [])] "" ""
                   eq_refl eq_refl _ _)).
  - discriminate.
  - repeat constructor. exists (devices_listing []), "". split; [reflexivity|].
    vm_compute. reflexivity.
Defined.

(** With a timeout of 1.5 s and a host that never lists a device, discovery
    gives up with the no-device error. *)
Example discovery_gives_up_example :
  fst (adb_get_device (Some 1500) None None
         (fresh_world (answers "" :: replicate 3 (answers (devices_listing [])))))
  = Some (Err no_device_error).
Proof. vm_compute. reflexivity. Qed.

(** C9: the code at the failing input.  No timeout is given, which is what
    the constructor passes on by default; the host lists no device at first
    and one device at the next enumeration.  Discovery raises [TypeError],
    also through the constructor, where a numeric timeout returns the
    device. *)
Theorem discovery_default_timeout_fails :
  let w := fresh_world [answers ""; answers (devices_listing []);
                        answers (devices_listing ["emulator-5554" +:+ String "009" "device"])] in
  fst (adb_get_device None None None w) = Some (Err TypeError)
  /\ fst (AdbConnection.__init__ None None None None false 5 w) = Some (Err TypeError)
  /\ fst (adb_get_device (Some 10000) None None w) = Some (Ok "emulator-5554").
Proof. repeat split; vm_compute; reflexivity. Qed.

(** * Enumerating and releasing devices *)

Lemma splitlines_line l rest :
  all_chars (fun c => negb (is_linebreak c)) l = true ->
  splitlines (l +:+ String LF rest) = l :: splitlines rest.
Proof.
  induction l as [|c l IH]; intros H.
  - change ("" +:+ String LF rest) with (String LF rest).
    cbn [splitlines]. change (is_linebreak LF) with true. cbn match.
    destruct rest as [|c' t']; [reflexivity|].
    change (Ascii.eqb LF CR) with false. reflexivity.
  - cbn [all_chars] in H. apply andb_prop in H. destruct H as [Hc Hl].
    rewrite app_cons. cbn [splitlines].
    apply negb_true_iff in Hc. rewrite Hc, (IH Hl). reflexivity.
Qed.

Lemma split_go_word cur a rest :
  all_chars (fun c => negb (isspace c)) a = true ->
  split_go cur (a +:+ rest) = split_go (cur +:+ a) rest.
Proof.
  revert cur. induction a as [|c a IH]; intros cur H.
  - now rewrite app_nil_r'.
  - cbn [all_chars] in H. apply andb_prop in H. destruct H as [Hc Ha].
    rewrite app_cons. cbn [split_go]. apply negb_true_iff in Hc. rewrite Hc.
    rewrite (IH _ Ha). f_equal. unfold chr. rewrite app_assoc'. reflexivity.
Qed.

Lemma split_device_line d :
  is_word (name d) = true -> is_word (status d) = true ->
  split (device_line d) = [name d; status d].
Proof.
  unfold is_word. intros Hn Hs.
  apply andb_prop in Hn. destruct Hn as [Hn1 Hn2].
  apply andb_prop in Hs. destruct Hs as [Hs1 Hs2].
  unfold split, device_line. rewrite (split_go_word _ _ _ Hn2).
  change ("" +:+ name d) with (name d).
  unfold chr at 1. rewrite app_cons. cbn [split_go].
  change (isspace "009") with true. cbn match.
  apply negb_true_iff in Hn1. rewrite Hn1.
  change ("" +:+ status d) with (status d).
  rewrite <- (app_nil_r' (status d)) at 1. rewrite (split_go_word _ _ _ Hs2).
  cbn [split_go]. change ("" +:+ status d) with (status d).
  apply negb_true_iff in Hs1. now rewrite Hs1.
Qed.

Lemma linebreak_isspace c : is_linebreak c = true -> isspace c = true.
Proof.
  unfold is_linebreak, isspace. cbv zeta.
  generalize (N_of_ascii c). intros n H.
  repeat match goal with
         | H : _ || _ = true |- _ => apply orb_prop in H; destruct H as [H|H]
         | H : _ && _ = true |- _ => apply andb_prop in H; destruct H as [? ?]
         | H : (_ <=? _)%N = true |- _ => apply N.leb_le in H
         | H : (_ =? _)%N = true |- _ => apply N.eqb_eq in H
         end;
    repeat match goal with
           | |- context [(?a <=? ?b)%N] => destruct (N.leb_spec a b)
           | |- context [(?a =? ?b)%N] => destruct (N.eqb_spec a b)
           end; try reflexivity; lia.
Qed.

Lemma word_one_line s :
  all_chars (fun c => negb (isspace c)) s = true ->
  all_chars (fun c => negb (is_linebreak c)) s = true.
Proof.
  apply all_chars_impl. intros c Hc. apply negb_true_iff in Hc.
  apply negb_true_iff. destruct (is_linebreak c) eqn:E; [|reflexivity].
  apply linebreak_isspace in E. congruence.
Qed.

Lemma device_line_one_line d :
  is_word (name d) = true -> is_word (status d) = true ->
  all_chars (fun c => negb (is_linebreak c)) (device_line d) = true.
Proof.
  unfold is_word. intros Hn Hs.
  apply andb_prop in Hn. destruct Hn as [_ Hn].
  apply andb_prop in Hs. destruct Hs as [_ Hs].
  unfold device_line. rewrite !all_chars_app.
  rewrite (word_one_line _ Hn), (word_one_line _ Hs). reflexivity.
Qed.

Lemma omap_cons' {A B} (f : A -> option B) (x : A) (l : list A) :
  omap f (x :: l) = match f x with Some y => y :: omap f l | None => omap f l end.
Proof. reflexivity. Qed.

Lemma listing_devices devs :
  Forall (fun d => is_word (name d) = true /\ is_word (status d) = true) devs ->
  omap (fun line => match split line with
                      | [n; s] => Some (mkAdbDevice n s)
                      | _ => None
                      end)
    (splitlines (foldr (fun l acc => l +:+ nl +:+ acc) nl (map device_line devs)))
  = devs.
Proof.
  induction 1 as [|d devs [Hn Hs] _ IH]; [reflexivity|].
  cbn [map foldr]. unfold nl at 1, chr at 1. rewrite app_cons.
  change ("" +:+ ?x) with x.
  rewrite splitlines_line by now apply device_line_one_line.
  rewrite omap_cons', IH.
  rewrite split_device_line by assumption. now destruct d.
Qed.

(** X1.  [adb_list_devices] reads the enumeration back: when the host prints
    the heading line, one line for each device -- serial number, tab, state,
    both of them words -- and the final blank line, the result is these
    devices, in the order of their lines.  The heading and the blank line
    yield no device. *)
Theorem adb_list_devices_roundtrip (devs : list AdbDevice)
    (adb_server : option string) (adb_port : option Z) (w : World)
    (r : Reply) (rest : list Reply) (err : string) :
  script w = r :: rest ->
  outcome r = Exited 0 (devices_listing (map device_line devs)) err ->
  Forall (fun d => is_word (name d) = true /\ is_word (status d) = true) devs ->
  adb_list_devices adb_server adb_port w
  = (Some (Ok devs),
     after_reply (Ev_run (Line (adb_line w None "devices" adb_server adb_port)) None)
       r rest w).
Proof.
  intros Hs Ho Hd. unfold adb_list_devices.
  pose proof (adb_command_step None "devices" None adb_server adb_port w r rest Hs) as E.
  cbv zeta in E. rewrite Ho in E. cbn [adb_command_result Z.eqb] in E.
  rewrite (bind_ok _ _ _ _ _ E). unfold ret. do 3 f_equal.
  change (devices_listing (map device_line devs))
    with ("List of devices attached"
          +:+ String LF (foldr (fun l acc => l +:+ nl +:+ acc) nl (map device_line devs))).
  rewrite splitlines_line by reflexivity.
  rewrite omap_cons'.
  change (split "List of devices attached") with ["List"; "of"; "devices"; "attached"].
  cbv iota. now apply listing_devices.
Qed.

Lemma adb_list_devices_roundtrip_witness :
  fst (adb_list_devices None None
         (fresh_world [answers (devices_listing (map device_line two_devices))]))
  = Some (Ok two_devices).
Proof.
  rewrite (adb_list_devices_roundtrip two_devices None None
             (fresh_world [answers (devices_listing (map device_line two_devices))])
             (answers (devices_listing (map device_line two_devices))) [] "").
  - reflexivity.
  - reflexivity.
  - reflexivity.
  - repeat constructor.
Defined.

(** X2.  [adb_disconnect] never runs [adb disconnect]: the test
    [device in adb_list_devices()] compares a string with [AdbDevice]
    objects, whose class defines [__cmp__] only, so it never holds.  The one
    host command a call can issue is the enumeration [adb devices], and that
    only for a device whose name contains a colon; the call never raises the
    transient error that reports a failed disconnect. *)
Theorem adb_disconnect_issues_no_disconnect (device : string)
    (adb_server : option string) (adb_port : option Z) (w : World) :
  let res := adb_disconnect device adb_server adb_port w in
  let listing := Ev_run (Line (adb_line w None "devices" adb_server adb_port)) None in
  (forall m, fst res <> Some (Err (TargetTransientError m)))
  /\ (trace (snd res) = Ev_adb_disconnect device :: trace w
      \/ trace (snd res) = listing :: Ev_adb_disconnect device :: trace w)
  /\ (contains ":" device = false ->
      res = (Some (Ok tt), emit (Ev_adb_disconnect device) w)).
Proof.
  cbv zeta.
  assert (E : adb_disconnect device adb_server adb_port w
              = adb_disconnect_body device adb_server adb_port
                  (emit (Ev_adb_disconnect device) w)) by reflexivity.
  rewrite E, adb_disconnect_body_eq. clear E.
  destruct (is_empty device) eqn:Ee.
  { split; [intros m; cbn; discriminate | split; [now left | reflexivity]]. }
  destruct (contains ":" device) eqn:Ec.
  2:{ split; [intros m; cbn; discriminate | split; [now left | reflexivity]]. }
  unfold adb_list_devices, bind.
  destruct (script w) as [|r rest] eqn:Hs.
  - rewrite adb_command_stuck by exact Hs.
    split; [intros m; cbn; discriminate | split; [now left | discriminate]].
  - rewrite (adb_command_step _ _ _ _ _ _ r rest) by exact Hs. cbv zeta.
    unfold adb_command_result.
    destruct (outcome r) as [rc out err|].
    + destruct (rc =? 0);
        (split; [intros m; cbn; discriminate | split; [now right | discriminate]]).
    + split; [intros m; cbn; discriminate | split; [now right | discriminate]].
Qed.

Lemma splitlines_listing lines :
  Forall (fun l => all_chars (fun c => negb (is_linebreak c)) l = true) lines ->
  splitlines (devices_listing lines) = "List of devices attached" :: lines ++ [""].
Proof.
  intros H.
  change (devices_listing lines)
    with ("List of devices attached"
          +:+ String LF (foldr (fun l acc => l +:+ nl +:+ acc) nl lines)).
  rewrite splitlines_line by reflexivity. f_equal.
  induction H as [|l lines Hl _ IH]; [reflexivity|].
  cbn [foldr]. change (l +:+ nl +:+ ?x) with (l +:+ String LF x).
  rewrite splitlines_line by exact Hl. now rewrite IH.
Qed.

Lemma split_first_word x a b :
  no_char x a = true -> split_first x (a +:+ String x b) = a.
Proof.
  induction a as [|c a IH]; intros H.
  - change ("" +:+ String x b) with (String x b). cbn [split_first].
    now rewrite Ascii.eqb_refl.
  - unfold no_char in H. cbn [all_chars] in H. apply andb_prop in H.
    destruct H as [Hc Ha]. apply negb_true_iff in Hc.
    rewrite app_cons. cbn [split_first]. rewrite Hc. f_equal. now apply IH.
Qed.

Lemma word_no_tab s : is_word s = true -> no_char "009" s = true.
Proof.
  unfold is_word. intros H. apply andb_prop in H. destruct H as [_ H].
  revert H. apply all_chars_impl. intros c Hc. apply negb_true_iff in Hc.
  apply negb_true_iff. destruct (Ascii.eqb_spec c "009"); [subst; discriminate | reflexivity].
Qed.

(** X17.  What [adb_get_device] makes of the first enumeration.  A single
    attached device is returned by its serial number whatever its state is,
    an offline or unauthorized one included, and whatever the timeout, none
    included.  Two devices or more end the call with the host error that
    names their number. *)
Theorem adb_get_device_reads_the_listing (devs : list AdbDevice)
    (timeout : option Z) (adb_server : option string) (adb_port : option Z)
    (w : World) (r0 r : Reply) (rest : list Reply) (out0 err0 err : string) :
  script w = r0 :: r :: rest -> outcome r0 = Exited 0 out0 err0 ->
  outcome r = Exited 0 (devices_listing (map device_line devs)) err ->
  Forall (fun d => is_word (name d) = true /\ is_word (status d) = true) devs ->
  (forall d, devs = [d] ->
     fst (adb_get_device timeout adb_server adb_port w) = Some (Ok (name d)))
  /\ ((2 <= length devs)%nat ->
      fst (adb_get_device timeout adb_server adb_port w)
      = Some (Err (HostError (too_many_devices_message (Z.of_nat (length devs)))))).
Proof.
  intros Hs H0 Hr Hd.
  assert (Hl : splitlines (devices_listing (map device_line devs))
               = "List of devices attached" :: map device_line devs ++ [""]).
  { apply splitlines_listing. apply Forall_map.
    eapply Forall_impl; [exact Hd|]. intros d [Hn Hst]. now apply device_line_one_line. }
  split.
  - intros d ->.
    rewrite (adb_get_device_eq _ _ _ _ _ _ _ _ Hs H0).
    erewrite adb_get_device_loop_step; [|reflexivity | exact Hr].
    cbv zeta. rewrite Hl. cbn [map app length Z.of_nat Pos.of_succ_nat Pos.succ Z.eqb Pos.eqb fst nth].
    apply Forall_inv in Hd. destruct Hd as [Hn _].
    unfold device_line, chr. rewrite app_cons.
    change ("" +:+ status d) with (status d).
    now rewrite split_first_word by now apply word_no_tab.
  - intros Hlen. apply (discovery_ambiguous _ _ _ _ _ _ _ _ _ _ Hs H0); [|lia].
    exists (devices_listing (map device_line devs)), err. split; [exact Hr|].
    rewrite Hl. cbn [length]. rewrite length_app, length_map. cbn [length]. lia.
Qed.

Lemma adb_get_device_reads_the_listing_witness :
  fst (adb_get_device None None None
         (fresh_world [answers "";
                       answers (devices_listing
                                  [device_line (mkAdbDevice "0a38c1f2" "unauthorized")])]))
  = Some (Ok "0a38c1f2").
Proof.
  refine (proj1 (adb_get_device_reads_the_listing
                   [mkAdbDevice "0a38c1f2" "unauthorized"] None None None
                   (fresh_world [answers "";
                                 answers (devices_listing
                                            [device_line (mkAdbDevice "0a38c1f2"
                                                            "unauthorized")])])
                   (answers "") _ [] "" "" "" eq_refl eq_refl eq_refl _) _ eq_refl).
  repeat constructor.
Defined.

(** * Connecting *)

Lemma _ping_step device sv pt w r rest :
  script w = r :: rest ->
  _ping device sv pt w =
  (Some match outcome r with
        | Exited rc _ _ => Ok (rc =? 0)
        | Expired => Err (TimeoutExpired (Line (ping_line w device sv pt)))
        end,
   after_reply (Ev_run (Line (ping_line w device sv pt)) None) r rest w).
Proof.
  intros Hs. unfold _ping.
  rewrite (bind_ok _ _ _ _ _ (get_adb_command_eq _ _ _ _ _)).
  fold (ping_line w device sv pt).
  unfold bind, attempt, subprocess_check_output, bind, next_reply. rewrite Hs.
  destruct (outcome r) as [rc out err|]; [|reflexivity].
  now destruct (rc =? 0).
Qed.

Lemma _ping_stuck device sv pt w :
  script w = [] -> _ping device sv pt w = (None, w).
Proof.
  intros Hs. unfold _ping.
  rewrite (bind_ok _ _ _ _ _ (get_adb_command_eq _ _ _ _ _)).
  unfold bind, attempt, subprocess_check_output, bind, next_reply. now rewrite Hs.
Qed.

(** A round of the connection loop for a device that is not addressed over
    the network. *)
Lemma adb_connect_loop_round k device timeout sv pt output w r rest :
  contains "." device = false ->
  script w = r :: rest ->
  let w1 := after_reply (Ev_run (Line (ping_line w device sv pt)) None) r rest w in
  adb_connect_loop (S k) device timeout sv pt output w =
  match outcome r with
  | Exited rc _ _ =>
      if rc =? 0 then (Some (Ok tt), w1)
      else adb_connect_loop k device timeout sv pt output
             (emit (Ev_sleep 10000) (elapse 10000 w1))
  | Expired => (Some (Err (TimeoutExpired (Line (ping_line w device sv pt)))), w1)
  end.
Proof.
  intros Hd Hs w1. cbn [adb_connect_loop]. rewrite Hd, andb_false_r.
  unfold bind at 1, ret at 1. unfold bind at 1.
  rewrite (_ping_step _ _ _ _ _ _ Hs). fold w1.
  destruct (outcome r) as [rc out err|]; [|reflexivity].
  destruct (rc =? 0); reflexivity.
Qed.

Lemma adb_connect_loop_refused k device timeout sv pt output w refused rest :
  contains "." device = false ->
  script w = refused ++ rest ->
  Forall ping_refused refused ->
  exists w',
    adb_connect_loop (length refused + k) device timeout sv pt output w
    = adb_connect_loop k device timeout sv pt output w'
    /\ script w' = rest
    /\ env_adb w' = env_adb w
    /\ backoffs (trace w') = replicate (length refused) 10000 ++ backoffs (trace w).
Proof.
  intros Hd. revert w. induction refused as [|r refused IH]; intros w Hs Hr.
  - exists w. now repeat split.
  - apply Forall_cons in Hr. destruct Hr as [(rc & out & err & Ho & Hrc) Hr].
    cbn [length Nat.add].
    rewrite (adb_connect_loop_round _ _ _ _ _ _ _ r (refused ++ rest) Hd Hs).
    cbv zeta. rewrite Ho. destruct (Z.eqb_spec rc 0); [contradiction|].
    destruct (IH (emit (Ev_sleep 10000)
                    (elapse 10000
                       (after_reply (Ev_run (Line (ping_line w device sv pt)) None)
                          r (refused ++ rest) w)))) as (w' & E & Hs' & He & Hb);
      [reflexivity | exact Hr |].
    exists w'. split; [exact E|]. split; [exact Hs'|]. split; [exact He|].
    rewrite Hb.
    change (backoffs (trace (emit _ (elapse _ (after_reply _ r (refused ++ rest) w)))))
      with (10000 :: backoffs (trace w)).
    rewrite replicate_shift. reflexivity.
Qed.

(** X3.  [adb_connect] pings [attempts + 1] times, not [attempts]: for a
    device that is not addressed over the network, when the host refuses that
    many pings in a row the call ends with the host error that names the
    device, having paused 10 s after each refused ping and run no other
    command. *)
Theorem adb_connect_gives_up (device : string) (timeout : option Z) (attempts : Z)
    (adb_server : option string) (adb_port : option Z) (w : World)
    (refused rest : list Reply) :
  contains "." device = false ->
  script w = refused ++ rest ->
  Forall ping_refused refused ->
  Z.of_nat (length refused) = attempts + 1 ->
  let res := adb_connect device timeout attempts adb_server adb_port w in
  fst res = Some (Err (HostError (could_not_connect device adb_server adb_port)))
  /\ script (snd res) = rest
  /\ backoffs (trace (snd res)) = replicate (length refused) 10000 ++ backoffs (trace w).
Proof.
  intros Hd Hs Hr Hn. cbv zeta. unfold adb_connect.
  replace (Z.to_nat (attempts + 1)) with (length refused + 0)%nat by lia.
  destruct (adb_connect_loop_refused 0 device timeout adb_server adb_port None
              w refused rest Hd Hs Hr) as (w' & -> & Hs' & _ & Hb).
  cbn [adb_connect_loop]. unfold raise. cbn [fst snd].
  now repeat split.
Qed.

Lemma adb_connect_gives_up_witness :
  let res := adb_connect "emulator-5554" None 2 None None
               (fresh_world (replicate 3 (fails_with 1 "error: device offline")
                             ++ [answers ""])) in
  fst res = Some (Err (HostError "Could not connect to emulator-5554 at None:None"))
  /\ script (snd res) = [answers ""]
  /\ backoffs (trace (snd res)) = [10000; 10000; 10000].
Proof.
  apply (adb_connect_gives_up "emulator-5554" None 2 None None
           (fresh_world (replicate 3 (fails_with 1 "error: device offline")
                         ++ [answers ""]))
           (replicate 3 (fails_with 1 "error: device offline")) [answers ""]).
  - reflexivity.
  - reflexivity.
  - repeat constructor; exists 1, "error: device offline", ""; (split; [reflexivity | lia]).
  - reflexivity.
Defined.

(** X4.  For a device that is not addressed over the network,
    [adb_connect] returns at the first ping that the host answers, provided
    no more than [attempts] pings were refused before it: it has then paused
    10 s after each refused ping and not after the last one, and it has
    issued nothing but pings. *)
Theorem adb_connect_returns_at_first_answer (device : string) (timeout : option Z)
    (attempts : Z) (adb_server : option string) (adb_port : option Z) (w : World)
    (refused : list Reply) (r : Reply) (rest : list Reply) :
  contains "." device = false ->
  script w = refused ++ r :: rest ->
  Forall ping_refused refused -> ping_answered r ->
  Z.of_nat (length refused) <= attempts ->
  let res := adb_connect device timeout attempts adb_server adb_port w in
  fst res = Some (Ok tt)
  /\ script (snd res) = rest
  /\ backoffs (trace (snd res)) = replicate (length refused) 10000 ++ backoffs (trace w).
Proof.
  intros Hd Hs Hr (out & err & Ho) Hn. cbv zeta. unfold adb_connect.
  replace (Z.to_nat (attempts + 1))
    with (length refused + S (Z.to_nat (attempts - Z.of_nat (length refused))))%nat
    by lia.
  destruct (adb_connect_loop_refused
              (S (Z.to_nat (attempts - Z.of_nat (length refused))))
              device timeout adb_server adb_port None
              w refused (r :: rest) Hd Hs Hr) as (w' & -> & Hs' & _ & Hb).
  rewrite (adb_connect_loop_round _ _ _ _ _ _ _ r rest Hd Hs').
  cbv zeta. rewrite Ho. cbn [Z.eqb fst snd].
  split; [reflexivity|]. split; [reflexivity|]. exact Hb.
Qed.

Lemma adb_connect_returns_at_first_answer_witness :
  let res := adb_connect "emulator-5554" None 5 None None
               (fresh_world [fails_with 1 "error: device offline"; answers "";
                             answers "next"]) in
  fst res = Some (Ok tt)
  /\ script (snd res) = [answers "next"]
  /\ backoffs (trace (snd res)) = [10000].
Proof.
  apply (adb_connect_returns_at_first_answer "emulator-5554" None 5 None None
           (fresh_world [fails_with 1 "error: device offline"; answers "";
                         answers "next"])
           [fails_with 1 "error: device offline"] (answers "") [answers "next"]).
  - reflexivity.
  - reflexivity.
  - repeat constructor; exists 1, "error: device offline", ""; (split; [reflexivity | lia]).
  - exists "", "". reflexivity.
  - cbn [length]. lia.
Defined.

Lemma adb_disconnect_answered device sv pt w l rest out err :
  script w = enumeration_before_connect device l ++ rest ->
  outcome l = Exited 0 out err ->
  exists w', adb_disconnect device sv pt w = (Some (Ok tt), w')
             /\ script w' = rest /\ env_adb w' = env_adb w
             /\ backoffs (trace w') = backoffs (trace w).
Proof.
  intros Hs Ho.
  assert (E : adb_disconnect device sv pt w
              = adb_disconnect_body device sv pt (emit (Ev_adb_disconnect device) w))
    by reflexivity.
  rewrite E, adb_disconnect_body_eq. clear E.
  unfold enumeration_before_connect in Hs.
  destruct (is_empty device) eqn:Ee.
  { destruct device; [|discriminate]. eexists. split; [reflexivity|]. now repeat split. }
  destruct (contains ":" device) eqn:Ec.
  2:{ eexists. split; [reflexivity|]. now repeat split. }
  unfold adb_list_devices, bind.
  rewrite (adb_command_step _ _ _ _ _ _ l rest) by exact Hs. cbv zeta.
  rewrite Ho. cbn [adb_command_result Z.eqb]. unfold ret.
  eexists. split; [reflexivity|]. now repeat split.
Qed.

(** X5.  For a device addressed over the network every round of
    [adb_connect] runs [adb connect], under the caller's timeout, and a
    failure of that command is not retried: when it exits with a non-zero
    status the call ends at once with the process-exit error of that command,
    before any ping and without a pause. *)
Theorem adb_connect_stops_when_connect_fails (device : string) (timeout : option Z)
    (attempts : Z) (adb_server : option string) (adb_port : option Z) (w : World)
    (l r : Reply) (rest : list Reply) (out0 err0 : string)
    (rc : Z) (out err : string) :
  contains "." device = true -> 0 <= attempts ->
  script w = enumeration_before_connect device l ++ r :: rest ->
  outcome l = Exited 0 out0 err0 ->
  outcome r = Exited rc out err -> rc <> 0 ->
  let res := adb_connect device timeout attempts adb_server adb_port w in
  fst res = Some (Err (CalledProcessError rc
                         (Line (connect_line w device adb_server adb_port)) out err))
  /\ script (snd res) = rest
  /\ backoffs (trace (snd res)) = backoffs (trace w)
  /\ exists tr, trace (snd res)
                = Ev_run (Line (connect_line w device adb_server adb_port)) timeout :: tr.
Proof.
  intros Hd Ha Hs Hl Hr Hrc. cbv zeta.
  destruct (adb_disconnect_answered device adb_server adb_port w l (r :: rest)
              out0 err0 Hs Hl) as (w1 & E1 & Hs1 & He1 & Hb1).
  assert (E : adb_connect device timeout attempts adb_server adb_port w
              = (Some (Err (CalledProcessError rc
                              (Line (connect_line w device adb_server adb_port)) out err)),
                 after_reply
                   (Ev_run (Line (connect_line w device adb_server adb_port)) timeout)
                   r rest w1)).
  { unfold adb_connect.
    replace (Z.to_nat (attempts + 1)) with (S (Z.to_nat attempts)) by lia.
    cbn [adb_connect_loop]. rewrite Hd.
    assert (Hne : is_empty device = false) by (destruct device; [discriminate | reflexivity]).
    rewrite Hne. cbn [negb andb].
    unfold bind at 1. unfold bind at 1. rewrite E1.
    unfold bind at 1. rewrite get_adb_command_eq.
    unfold bind at 1. rewrite (check_output_step _ _ _ _ _ Hs1), Hr.
    destruct (Z.eqb_spec rc 0); [contradiction|].
    unfold connect_line, adb_line. rewrite He1. reflexivity. }
  rewrite E. cbn [fst snd].
  split; [reflexivity|]. split; [reflexivity|]. split; [exact Hb1|].
  eexists. reflexivity.
Qed.

Lemma adb_connect_stops_when_connect_fails_witness :
  let res := adb_connect "192.168.0.5:5555" (Some 3000) 5 None None
               (fresh_world [answers (devices_listing []);
                             fails_with 1 "unable to connect"; answers ""]) in
  fst res = Some (Err (CalledProcessError 1
                         (Line "LC_ALL=C adb connect 192.168.0.5:5555")
                         "unable to connect" ""))
  /\ script (snd res) = [answers ""]
  /\ backoffs (trace (snd res)) = []
  /\ exists tr, trace (snd res)
                = Ev_run (Line "LC_ALL=C adb connect 192.168.0.5:5555") (Some 3000) :: tr.
Proof.
  apply (adb_connect_stops_when_connect_fails "192.168.0.5:5555" (Some 3000) 5 None None
           (fresh_world [answers (devices_listing []);
                         fails_with 1 "unable to connect"; answers ""])
           (answers (devices_listing [])) (fails_with 1 "unable to connect")
           [answers ""] (devices_listing []) "" 1 "unable to connect" "").
  - reflexivity.
  - lia.
  - reflexivity.
  - reflexivity.
  - reflexivity.
  - lia.
Defined.

(** * Running commands *)

Lemma no_CR_ends_with s : no_char CR s = true -> ends_with CR s = false.
Proof.
  induction s as [|c s IH]; [reflexivity|]. unfold no_char. cbn [all_chars].
  intros H. apply andb_prop in H. destruct H as [H1 H2].
  apply negb_true_iff in H1. destruct s as [|c' s]; [exact H1 | now apply IH].
Qed.

Lemma capture_not_empty body code eol1 eol2 :
  is_eol eol1 -> is_empty (capture body code eol1 eol2) = false.
Proof.
  intros H1. unfold capture. rewrite !is_empty_app.
  destruct H1 as [->|[->| ->]]; unfold chr, CRLF; cbn [is_empty andb];
    apply andb_false_r.
Qed.

Lemma adb_shell_split_capture body code eol1 eol2 :
  0 <= code -> is_eol eol1 -> is_eol eol2 -> no_char CR body = true ->
  adb_shell_split (capture body code eol1 eol2) = Ok (body, str code).
Proof.
  intros Hc H1 H2 Hb. unfold adb_shell_split.
  rewrite capture_not_empty by exact H1. cbn [negb].
  rewrite normalize_capture; [|assumption..|left; now apply no_CR_ends_with].
  rewrite (normalize_no_CR _ Hb).
  pose proof (str_decimal code Hc) as Hd. unfold decimal in Hd.
  apply andb_prop in Hd. destruct Hd as [_ Hall].
  rewrite rsplit_two;
    [reflexivity | apply decimal_no_char; [reflexivity | exact Hall] | reflexivity].
Qed.

(** X6.  Without [check_exit_code], which is the default of [adb_shell], the
    exit code of the remote command is parsed and then dropped: whatever
    code the device reports, the call returns the command's output, followed
    by the error stream of the host command when both are non-empty. *)
Theorem adb_shell_unchecked_ignores_exit_code (device : option string)
    (command : string) (timeout : option Z) (as_root : bool)
    (adb_server : option string) (adb_port : option Z) (su_cmd : string)
    (w : World) (r : Reply) (rest : list Reply)
    (body : string) (code : Z) (eol1 eol2 error : string) :
  script w = r :: rest ->
  outcome r = Exited 0 (capture body code eol1 eol2) error ->
  0 <= code -> is_eol eol1 -> is_eol eol2 -> no_char CR body = true ->
  fst (adb_shell device command timeout false as_root adb_server adb_port su_cmd w)
  = Some (Ok (joined body error))
  /\ joined body error
     = (if is_empty error then body
        else if is_empty body then error else body +:+ chr LF +:+ error).
Proof.
  intros Hs Ho Hc H1 H2 Hb. split.
  - rewrite (adb_shell_step _ _ _ _ _ _ _ _ _ _ _ Hs). cbv zeta. cbn [fst].
    rewrite Ho. unfold adb_shell_result. cbn [Z.eqb].
    now rewrite adb_shell_split_capture.
  - unfold joined. destruct body, error; reflexivity.
Qed.

Lemma adb_shell_unchecked_ignores_exit_code_witness :
  fst (adb_shell (Some "emulator-5554") "ls /nowhere" None false false None None
         "su -c {}"
         (fresh_world [mkReply (Exited 0 (capture "ls: /nowhere: No such file" 1 CRLF CRLF)
                                  "warning") 0]))
  = Some (Ok ("ls: /nowhere: No such file" +:+ nl +:+ "warning")).
Proof.
  refine (proj1 (adb_shell_unchecked_ignores_exit_code (Some "emulator-5554")
                   "ls /nowhere" None false None None "su -c {}"
                   (fresh_world [mkReply (Exited 0 (capture "ls: /nowhere: No such file"
                                                     1 CRLF CRLF) "warning") 0])
                   _ [] "ls: /nowhere: No such file" 1 CRLF CRLF "warning"
                   eq_refl eq_refl _ _ _ eq_refl)).
  - lia.
  - right; left; reflexivity.
  - right; left; reflexivity.
Defined.

Lemma adb_shell_split_one_line raw :
  is_empty raw = false -> no_char LF raw = true -> no_char CR raw = true ->
  adb_shell_split raw = Err ValueError.
Proof.
  intros Hne Hlf Hcr. unfold adb_shell_split. rewrite Hne. cbn [negb].
  rewrite (normalize_no_CR _ Hcr). cbn [rsplit].
  now rewrite (rsplit_once_none _ _ Hlf).
Qed.

(** X7.  A capture that is not empty and holds no line break at all cannot
    be split into output and exit code: [adb_shell] raises [ValueError],
    with and without [check_exit_code], and [execute] passes it on as it
    is, whatever the hint. *)
Theorem adb_shell_needs_a_line_break (self : AdbConnection.t) (command : string)
    (timeout : option Z) (check_exit_code will_succeed : bool) (su_cmd : string)
    (w : World) (r : Reply) (rest : list Reply) (raw error : string) :
  script w = r :: rest -> outcome r = Exited 0 raw error ->
  is_empty raw = false -> no_char LF raw = true -> no_char CR raw = true ->
  fst (adb_shell (Some (AdbConnection.device self)) command timeout check_exit_code
         false (AdbConnection.adb_server self) (AdbConnection.adb_port self) su_cmd w)
  = Some (Err ValueError)
  /\ fst (AdbConnection.execute self command timeout check_exit_code false
            will_succeed w)
     = Some (Err ValueError).
Proof.
  intros Hs Ho Hne Hlf Hcr.
  assert (E : forall su,
             adb_shell (Some (AdbConnection.device self)) command timeout check_exit_code
               false (AdbConnection.adb_server self) (AdbConnection.adb_port self) su w
             = (Some (Err ValueError),
                after_reply
                  (Ev_run (Argv (shell_parts w (Some (AdbConnection.device self)) command
                                   false (AdbConnection.adb_server self)
                                   (AdbConnection.adb_port self) su)) timeout)
                  r rest w)).
  { intros su. rewrite (adb_shell_step _ _ _ _ _ _ _ _ _ _ _ Hs). cbv zeta.
    rewrite Ho. unfold adb_shell_result. cbn [Z.eqb].
    now rewrite adb_shell_split_one_line. }
  split; [now rewrite E|].
  unfold AdbConnection.execute. unfold bind at 1, ret at 1.
  now rewrite (execute_try_step _ _ _ _ _ _ _ _ _ (E _)).
Qed.

Lemma adb_shell_needs_a_line_break_witness :
  fst (AdbConnection.execute sample_conn "printf done" None true false false
         (fresh_world [answers "done"]))
  = Some (Err ValueError).
Proof.
  exact (proj2 (adb_shell_needs_a_line_break sample_conn "printf done" None true false
                  "su -c {}" (fresh_world [answers "done"]) (answers "done") []
                  "done" "" eq_refl eq_refl eq_refl eq_refl eq_refl)).
Defined.

(** X8.  When the cached root status of the device says that adbd runs as
    root, [execute] drops a request for root: the call with [as_root] set is
    the call without it, so the command reaches the device without the [su]
    wrapper. *)
Theorem execute_skips_su_when_rooted (self : AdbConnection.t) (command : string)
    (timeout : option Z) (check_exit_code will_succeed : bool) (w : World) :
  _connected_as_root w !! AdbConnection.device self = Some (Some true) ->
  AdbConnection.execute self command timeout check_exit_code true will_succeed w
  = AdbConnection.execute self command timeout check_exit_code false will_succeed w.
Proof.
  intros H.
  rewrite (execute_resolved self command timeout check_exit_code true will_succeed w)
    by (right; now exists true).
  rewrite (execute_resolved self command timeout check_exit_code false will_succeed w)
    by now left.
  unfold effective_as_root. now rewrite H.
Qed.

Lemma execute_skips_su_when_rooted_witness :
  AdbConnection.execute sample_conn "id" None true true false
    (mkWorld ∅ {["emulator-5554" := Some true]} "adb" 0 [answers shell_banner] [] [])
  = AdbConnection.execute sample_conn "id" None true false false
      (mkWorld ∅ {["emulator-5554" := Some true]} "adb" 0 [answers shell_banner] [] []).
Proof.
  apply (execute_skips_su_when_rooted sample_conn "id" None true false
           (mkWorld ∅ {["emulator-5554" := Some true]} "adb" 0 [answers shell_banner] [] [])).
  reflexivity.
Defined.

Lemma adb_shell_check_zero command raw output error :
  AM_START_ERROR_findall output = [] ->
  adb_shell_check command raw output (str 0) error = Ok tt.
Proof. intros H. unfold adb_shell_check. cbn. now rewrite H. Qed.

(** X9.  The first read of the property [connected_as_root] on a device
    whose status is not cached runs [id] on the device, once, and caches
    whether its result -- the output together with the error stream of the
    host command -- contains "uid=0(".  Every later read, through any
    connection to the same device, returns the cached value and asks the
    host nothing. *)
Theorem connected_as_root_probes_once (self : AdbConnection.t) (w : World)
    (r : Reply) (rest : list Reply) (body eol1 eol2 error : string) :
  default None (_connected_as_root w !! AdbConnection.device self) = None ->
  script w = r :: rest ->
  outcome r = Exited 0 (capture body 0 eol1 eol2) error ->
  is_eol eol1 -> is_eol eol2 -> no_char CR body = true ->
  AM_START_ERROR_findall body = [] ->
  let res := AdbConnection.connected_as_root self w in
  let rooted := contains "uid=0(" (joined body error) in
  fst res = Some (Ok (Some rooted))
  /\ script (snd res) = rest
  /\ forall sibling,
       AdbConnection.device sibling = AdbConnection.device self ->
       AdbConnection.connected_as_root sibling (snd res)
       = (Some (Ok (Some rooted)), snd res).
Proof.
  intros Hc Hs Ho H1 H2 Hb Hre. cbv zeta.
  set (d := AdbConnection.device self).
  set (w0 := match _connected_as_root w !! d with
             | Some _ => w
             | None => set_connected_as_root (insert d None) w
             end).
  assert (Hget : connected_as_root_getitem d w = (Some (Ok None), w0)).
  { unfold connected_as_root_getitem, w0. fold d in Hc.
    destruct (_connected_as_root w !! d) as [v|]; [|reflexivity].
    cbn in Hc. now subst v. }
  assert (Hs0 : script w0 = r :: rest).
  { unfold w0. now destruct (_connected_as_root w !! d). }
  set (parts := shell_parts w0 (Some d) "id" false (AdbConnection.adb_server self)
                  (AdbConnection.adb_port self) (AdbConnection.su_cmd self)).
  set (w1 := after_reply (Ev_run (Argv parts) None) r rest w0).
  assert (Hex : AdbConnection.execute_try self "id" None true false false w0
                = (Some (Ok (joined body error)), w1)).
  { erewrite execute_try_step by (apply adb_shell_step; exact Hs0).
    cbv zeta. fold d parts w1. rewrite Ho. unfold adb_shell_result. cbn [Z.eqb].
    rewrite adb_shell_split_capture by (assumption || lia).
    now rewrite adb_shell_check_zero. }
  set (rooted := contains "uid=0(" (joined body error)).
  set (w2 := set_connected_as_root (insert d (Some rooted)) w1).
  assert (E : AdbConnection.connected_as_root self w = (Some (Ok (Some rooted)), w2)).
  { unfold AdbConnection.connected_as_root. fold d.
    rewrite (bind_ok _ _ _ _ _ Hget). unfold bind at 1.
    rewrite (bind_ok _ _ _ _ _ Hex).
    unfold connected_as_root_setitem at 1, modify at 1. fold rooted w2.
    apply connected_as_root_getitem_known. unfold w2. cbn. apply lookup_insert_eq. }
  rewrite E. cbn [fst snd]. split; [reflexivity|]. split; [reflexivity|].
  intros sibling Hsib. apply connected_as_root_known. rewrite Hsib.
  unfold w2. cbn. apply lookup_insert_eq.
Qed.

Lemma connected_as_root_probes_once_witness :
  let res := AdbConnection.connected_as_root sample_conn
               (fresh_world [answers (capture "uid=0(root) gid=0(root)" 0 nl nl)]) in
  fst res = Some (Ok (Some true))
  /\ script (snd res) = []
  /\ forall sibling,
       AdbConnection.device sibling = "emulator-5554" ->
       AdbConnection.connected_as_root sibling (snd res)
       = (Some (Ok (Some true)), snd res).
Proof.
  apply (connected_as_root_probes_once sample_conn
           (fresh_world [answers (capture "uid=0(root) gid=0(root)" 0 nl nl)])
           (answers (capture "uid=0(root) gid=0(root)" 0 nl nl)) []
           "uid=0(root) gid=0(root)" nl nl "").
  - reflexivity.
  - reflexivity.
  - reflexivity.
  - left; reflexivity.
  - left; reflexivity.
  - reflexivity.
  - reflexivity.
Defined.

(** * Setting up a connection *)

Lemma splitlines_cons c t :
  splitlines (String c t) =
  if is_linebreak c then
    match t with
    | String c' t' =>
        if Ascii.eqb c CR && Ascii.eqb c' LF
        then EmptyString :: splitlines t'
        else EmptyString :: splitlines t
    | EmptyString => [EmptyString]
    end
  else
    match splitlines t with
    | [] => [chr c]
    | l :: ls => String c l :: ls
    end.
Proof. reflexivity. Qed.

Lemma splitlines_decimal_eol d e :
  decimal d = true -> is_eol e -> splitlines (d +:+ e) = [d].
Proof.
  unfold decimal. intros Hd He. apply andb_prop in Hd. destruct Hd as [Hne Hd].
  induction d as [|c d IH]; [discriminate|].
  cbn [all_chars] in Hd. apply andb_prop in Hd. destruct Hd as [Hc Hd].
  rewrite app_cons. cbn [splitlines].
  assert (is_linebreak c = false) as ->.
  { apply dec_char_range in Hc. unfold is_linebreak. cbv zeta.
    repeat match goal with
           | |- context [(?a <=? ?b)%N] => destruct (N.leb_spec a b)
           | |- context [(?a =? ?b)%N] => destruct (N.eqb_spec a b)
           end; try reflexivity; lia. }
  destruct d as [|c' d].
  - destruct He as [->|[->| ->]]; reflexivity.
  - now rewrite IH.
Qed.

Lemma decimal_head d : decimal d = true -> exists c t, d = String c t /\ Ascii.eqb c LF = false.
Proof.
  unfold decimal. destruct d as [|c t]; [discriminate|]. cbn [is_empty negb all_chars andb].
  intros H. apply andb_prop in H. destruct H as [Hc _].
  exists c, t. split; [reflexivity|]. now apply dec_char_neq.
Qed.

(** The lines of a capture: those of the body, of which there is at least
    one, and then the exit code on a line of its own. *)
Lemma splitlines_capture body d e1 e2 :
  decimal d = true -> is_eol e1 -> is_eol e2 ->
  exists l ls, splitlines (body +:+ e1 +:+ d +:+ e2) = l :: ls ++ [d].
Proof.
  intros Hd H1 H2.
  pose proof (splitlines_decimal_eol d e2 Hd H2) as Hlast.
  destruct (decimal_head d Hd) as (c0 & t0 & Ed & Hc0).
  assert (Hrest : splitlines (e1 +:+ d +:+ e2) = [""; d]).
  { destruct H1 as [->|[->| ->]].
    - change (chr LF +:+ d +:+ e2) with (String LF (d +:+ e2)). cbn [splitlines].
      change (is_linebreak LF) with true. cbv iota.
      rewrite Ed, app_cons, <- Ed. change (Ascii.eqb LF CR) with false.
      cbn [andb]. rewrite <- app_cons, <- Ed, Hlast. reflexivity.
    - change (CRLF +:+ d +:+ e2) with (String CR (String LF (d +:+ e2))).
      cbn [splitlines]. change (is_linebreak CR) with true. cbv iota.
      rewrite !Ascii.eqb_refl. cbn [andb]. now rewrite Hlast.
    - change (chr CR +:+ d +:+ e2) with (String CR (d +:+ e2)). cbn [splitlines].
      change (is_linebreak CR) with true. cbv iota.
      rewrite Ed, app_cons, <- Ed. rewrite Hc0, andb_false_r.
      rewrite <- app_cons, <- Ed, Hlast. reflexivity. }
  assert (Hne : exists c t, e1 +:+ d +:+ e2 = String c t
                            /\ (Ascii.eqb c LF = true -> t = d +:+ e2)).
  { destruct H1 as [->|[->| ->]]; eexists _, _; (split; [reflexivity|]);
      [reflexivity | discriminate | discriminate]. }
  induction body as [| c | c1 c2 s IHs IHc] using string_pair_ind.
  - exists "", []. exact Hrest.
  - destruct Hne as (c' & t' & Et & Hlf).
    change (String c "" +:+ e1 +:+ d +:+ e2) with (String c (e1 +:+ d +:+ e2)).
    cbn [splitlines]. rewrite Et. destruct (is_linebreak c).
    + destruct (Ascii.eqb c CR && Ascii.eqb c' LF) eqn:E.
      * apply andb_prop in E. destruct E as [_ E]. rewrite (Hlf E), Hlast.
        now exists "", [].
      * rewrite <- Et, Hrest. now exists "", [""].
    + rewrite <- Et, Hrest. now exists (String c ""), [].
  - rewrite !app_cons. rewrite !app_cons in IHc. rewrite splitlines_cons.
    destruct (is_linebreak c1).
    + destruct (Ascii.eqb c1 CR && Ascii.eqb c2 LF).
      * destruct IHs as (l & ls & ->). now exists "", (l :: ls).
      * destruct IHc as (l & ls & ->). now exists "", (l :: ls).
    + destruct IHc as (l & ls & ->). now exists (String c1 l), ls.
Qed.

Lemma _setup_ls_step self w r rest :
  script w = r :: rest ->
  fst (AdbConnection._setup_ls self w) =
  Some match outcome r with
       | Exited rc output err =>
           if rc =? 0 then
             match last (splitlines output) with
             | None => Err IndexError
             | Some l =>
                 match int (strip l) with
                 | None => Err ValueError
                 | Some retval => Ok (if retval =? 0 then "ls -1" else "ls")
                 end
             end
           else Err (HostError ("Failed to set up ls command on Android device. Output:"
                                +:+ chr LF +:+ output))
       | Expired =>
           Err (TimeoutError
                  (Line (adb_line w (Some (AdbConnection.device self))
                           ("shell '(ls -1); echo " +:+ chr DQ +:+ chr LF +:+ "$?"
                            +:+ chr DQ +:+ "'")
                           (AdbConnection.adb_server self) (AdbConnection.adb_port self))))
       end.
Proof.
  intros Hs. unfold AdbConnection._setup_ls. unfold bind, attempt.
  rewrite (adb_command_step _ _ _ _ _ _ _ _ Hs). cbv zeta.
  unfold adb_command_result. destruct (outcome r) as [rc out err|]; [|reflexivity].
  destruct (rc =? 0); [|reflexivity].
  destruct (last (splitlines out)) as [l|]; [|reflexivity].
  now destruct (int (strip l)).
Qed.

(** X10.  [_setup_ls] takes the status that closes the capture: whatever
    [ls -1] printed before it, the connection uses [ls -1] when the status is
    0 and plain [ls] otherwise. *)
Theorem setup_ls_reads_status (self : AdbConnection.t) (w : World)
    (r : Reply) (rest : list Reply) (body : string) (code : Z)
    (eol1 eol2 error : string) :
  script w = r :: rest ->
  outcome r = Exited 0 (capture body code eol1 eol2) error ->
  0 <= code -> is_eol eol1 -> is_eol eol2 ->
  fst (AdbConnection._setup_ls self w)
  = Some (Ok (if code =? 0 then "ls -1" else "ls")).
Proof.
  intros Hs Ho Hc H1 H2. rewrite (_setup_ls_step _ _ _ _ Hs), Ho. cbn [Z.eqb].
  pose proof (str_decimal code Hc) as Hd.
  destruct (splitlines_capture body (str code) eol1 eol2 Hd H1 H2) as (l & ls & E).
  unfold capture. rewrite E.
  change (l :: ls ++ [str code]) with ((l :: ls) ++ [str code]). rewrite last_snoc.
  unfold decimal in Hd. apply andb_prop in Hd. destruct Hd as [_ Hall].
  now rewrite (strip_decimal _ Hall), (int_str _ Hc).
Qed.

Lemma setup_ls_reads_status_witness :
  fst (AdbConnection._setup_ls sample_conn
         (fresh_world [answers (capture "ls: unknown option -- 1" 2 CRLF CRLF)]))
  = Some (Ok "ls").
Proof.
  apply (setup_ls_reads_status sample_conn
           (fresh_world [answers (capture "ls: unknown option -- 1" 2 CRLF CRLF)])
           (answers (capture "ls: unknown option -- 1" 2 CRLF CRLF)) []
           "ls: unknown option -- 1" 2 CRLF CRLF "").
  - reflexivity.
  - reflexivity.
  - lia.
  - right; left; reflexivity.
  - right; left; reflexivity.
Defined.

(** X11.  How [_setup_ls] fails: a non-zero status of the host command is
    reported as a host error that quotes its output; a host command that
    succeeds without printing anything raises [IndexError], as there is no
    last line to read; and a last line that is not a number raises
    [ValueError]. *)
Theorem setup_ls_failures (self : AdbConnection.t) (w : World)
    (r : Reply) (rest : list Reply) :
  script w = r :: rest ->
  (forall rc out err, outcome r = Exited rc out err -> rc <> 0 ->
     fst (AdbConnection._setup_ls self w)
     = Some (Err (HostError ("Failed to set up ls command on Android device. Output:"
                             +:+ chr LF +:+ out))))
  /\ (forall err, outcome r = Exited 0 "" err ->
        fst (AdbConnection._setup_ls self w) = Some (Err IndexError))
  /\ (forall out l err, outcome r = Exited 0 out err ->
        last (splitlines out) = Some l -> int (strip l) = None ->
        fst (AdbConnection._setup_ls self w) = Some (Err ValueError)).
Proof.
  intros Hs. rewrite (_setup_ls_step _ _ _ _ Hs). repeat split.
  - intros rc out err -> Hrc. now destruct (Z.eqb_spec rc 0).
  - now intros err ->.
  - intros out l err -> Hl Hi. cbn [Z.eqb]. now rewrite Hl, Hi.
Qed.

Lemma setup_ls_failures_witness :
  fst (AdbConnection._setup_ls sample_conn (fresh_world [answers ""]))
  = Some (Err IndexError).
Proof.
  exact (proj1 (proj2 (setup_ls_failures sample_conn (fresh_world [answers ""])
                         (answers "") [] eq_refl)) "" eq_refl).
Defined.

Lemma adb_shell_check_code command raw output code error :
  0 <= code ->
  adb_shell_check command raw output (str code) error =
  if code =? 0 then
    match AM_START_ERROR_findall output with
    | found :: _ => Err (TargetStableError (start_activity_message found))
    | [] => Ok tt
    end
  else Err (CalledProcessError code (Argv command) output error).
Proof.
  intros Hc. unfold adb_shell_check.
  pose proof (str_decimal code Hc) as Hd. assert (Hd' := Hd).
  unfold decimal in Hd'. apply andb_prop in Hd'. destruct Hd' as [_ Hall].
  rewrite (strip_decimal _ Hall), (isdigit_decimal _ Hd), (int_str _ Hc).
  now destruct (code =? 0).
Qed.

(** X12.  [_setup_su] on a device whose root status is cached.  When adbd
    runs as root it keeps the [su] style it has and asks the host nothing.
    Otherwise it probes once, running [ls] through the current [su] style
    under the connection's timeout: the style is kept when the probe exits
    with status 0, and replaced by [echo {} | su] when the probe exits with
    another status and when the host command fails.  A probe that times out
    is not caught: the [TimeoutError] of the host command leaves [_setup_su]
    and the style is not replaced. *)
Theorem setup_su_probe (self : AdbConnection.t) (w : World) (b : bool) :
  _connected_as_root w !! AdbConnection.device self = Some (Some b) ->
  (b = true -> AdbConnection._setup_su self w = (Some (Ok (AdbConnection.su_cmd self)), w))
  /\ (b = false -> forall r rest, script w = r :: rest ->
      let res := AdbConnection._setup_su self w in
      trace (snd res)
      = Ev_run (Argv (shell_parts w (Some (AdbConnection.device self)) "ls" true
                        (AdbConnection.adb_server self) (AdbConnection.adb_port self)
                        (AdbConnection.su_cmd self)))
               (Some (AdbConnection.timeout self)) :: trace w
      /\ (forall body code eol1 eol2 error,
            outcome r = Exited 0 (capture body code eol1 eol2) error ->
            0 <= code -> is_eol eol1 -> is_eol eol2 -> no_char CR body = true ->
            AM_START_ERROR_findall body = [] ->
            fst res = Some (Ok (if code =? 0 then AdbConnection.su_cmd self
                                else "echo {} | su")))
      /\ (forall rc out err, outcome r = Exited rc out err -> rc <> 0 ->
            fst res = Some (Ok "echo {} | su"))
      /\ (outcome r = Expired ->
          fst res
          = Some (Err (TimeoutError
                         (Argv (shell_parts w (Some (AdbConnection.device self)) "ls" true
                                  (AdbConnection.adb_server self)
                                  (AdbConnection.adb_port self)
                                  (AdbConnection.su_cmd self))))))).
Proof.
  intros Hb. split; intros ->.
  - unfold AdbConnection._setup_su.
    now rewrite (bind_ok _ _ _ _ _ (connected_as_root_known _ _ _ Hb)).
  - intros r rest Hs. cbv zeta.
    set (parts := shell_parts w (Some (AdbConnection.device self)) "ls" true
                    (AdbConnection.adb_server self) (AdbConnection.adb_port self)
                    (AdbConnection.su_cmd self)).
    set (w1 := after_reply (Ev_run (Argv parts) (Some (AdbConnection.timeout self)))
                 r rest w).
    assert (E : AdbConnection._setup_su self w =
                (Some match adb_shell_result
                              (adb_shell_wrap "ls" true (AdbConnection.su_cmd self))
                              parts true (outcome r) with
                      | Ok _ => Ok (AdbConnection.su_cmd self)
                      | Err e =>
                          if is_TargetStableError (reclassify false "ls" e)
                             || is_TargetTransientError (reclassify false "ls" e)
                          then Ok "echo {} | su"
                          else Err (reclassify false "ls" e)
                      end, w1)).
    { unfold AdbConnection._setup_su.
      rewrite (bind_ok _ _ _ _ _ (connected_as_root_known _ _ _ Hb)).
      cbn [AdbConnection.truthy]. unfold bind, attempt.
      rewrite (execute_resolved self "ls" _ true true false w)
        by (right; now exists false).
      replace (effective_as_root w self true) with true
        by (unfold effective_as_root; now rewrite Hb).
      erewrite execute_try_step by (apply adb_shell_step; exact Hs).
      cbv zeta. fold parts w1.
      destruct (adb_shell_result _ parts true (outcome r)) as [out|e]; [reflexivity|].
      now destruct (_ || _). }
    rewrite E. cbn [fst snd]. split; [reflexivity|]. repeat split.
    + intros body code eol1 eol2 error -> Hc H1 H2 Hcr Hre.
      unfold adb_shell_result. cbn [Z.eqb].
      rewrite adb_shell_split_capture by assumption.
      rewrite adb_shell_check_code by exact Hc. rewrite Hre.
      now destruct (code =? 0).
    + intros rc out err -> Hrc. unfold adb_shell_result.
      now destruct (Z.eqb_spec rc 0).
    + now intros ->.
Qed.

Lemma setup_su_probe_witness :
  fst (AdbConnection._setup_su sample_conn
         (single_world [answers (capture "su: invalid option -- c" 1 nl nl)]))
  = Some (Ok "echo {} | su").
Proof.
  refine (proj1 (proj2 (proj2 (setup_su_probe sample_conn
                   (single_world [answers (capture "su: invalid option -- c" 1 nl nl)])
                   false eq_refl) eq_refl
                   (answers (capture "su: invalid option -- c" 1 nl nl)) [] eq_refl))
            "su: invalid option -- c" 1 nl nl "" eq_refl _ _ _ eq_refl eq_refl).
  - lia.
  - left; reflexivity.
  - left; reflexivity.
Defined.

(** * Opening and closing connections *)

(** X13.  A constructor that raises has counted its connection all the
    same: the count of the device it was given is one higher than before,
    although no connection object exists that could be closed to take it
    back.  The counts of the other devices are as they were. *)
Theorem constructor_failure_keeps_count (d : string) (timeout : option Z)
    (adb_server : option string) (adb_port : option Z) (adb_as_root : bool)
    (attempts : Z) (w : World) (e : exn) (w' : World) :
  AdbConnection.__init__ (Some d) timeout adb_server adb_port adb_as_root attempts w
  = (Some (Err e), w') ->
  count w' d = count w d + 1
  /\ forall d', d' <> d -> count w' d' = count w d'.
Proof.
  intros H.
  pose proof (init_counts_any d timeout adb_server adb_port adb_as_root attempts w) as C.
  rewrite H in C. cbn [snd] in C. split.
  - rewrite C. destruct (decide (d = d)); [reflexivity | contradiction].
  - intros d' Hd. rewrite C. destruct (decide (d = d')); [congruence | lia].
Qed.

Lemma constructor_failure_keeps_count_witness :
  count (snd (AdbConnection.__init__ (Some "emulator-5554") None None None false 0
                (fresh_world [fails_with 1 "error: device offline"])))
    "emulator-5554" = 1.
Proof.
  exact (proj1 (constructor_failure_keeps_count "emulator-5554" None None None false 0
                  (fresh_world [fails_with 1 "error: device offline"])
                  (HostError "Could not connect to emulator-5554 at None:None")
                  (snd (AdbConnection.__init__ (Some "emulator-5554") None None None
                          false 0
                          (fresh_world [fails_with 1 "error: device offline"])))
                  eq_refl)).
Defined.

Lemma adb_root_refused_when_busy self enable w :
  1 < count w (AdbConnection.device self) ->
  AdbConnection._adb_root self enable w
  = (Some (Err (AdbRootError AdbConnection.busy_message)), w).
Proof.
  intros H. unfold AdbConnection._adb_root.
  rewrite (bind_ok _ _ _ _ _ (nr_active_getitem_eq _ _)).
  rewrite touch_id by lia.
  destruct (Z.leb_spec (count w (AdbConnection.device self)) 1); [lia | reflexivity].
Qed.

Lemma init_given d timeout sv pt ar attempts w :
  let T := match timeout with Some x => x | None => AdbConnection.default_timeout end in
  AdbConnection.__init__ (Some d) timeout sv pt ar attempts w =
  bind (if ar then
          bind (attempt (AdbConnection._adb_root
                           (AdbConnection.mk d T sv pt ar false "ls" "su -c {}") true))
               (fun r => match r with
                         | Ok was_rooted => ret was_rooted
                         | Err (AdbRootError _) => ret false
                         | Err e => raise e
                         end)
        else ret false)
       (fun restore =>
          bind (adb_connect d None attempts sv pt)
               (fun _ =>
                  bind (AdbConnection._setup_ls
                          (AdbConnection.mk d T sv pt ar restore "ls" "su -c {}"))
                       (fun ls =>
                          bind (AdbConnection._setup_su
                                  (AdbConnection.mk d T sv pt ar restore ls "su -c {}"))
                               (fun su => ret (AdbConnection.mk d T sv pt ar restore ls su)))))
       (set_nr_active (insert d (count w d + 1)) (touch d w)).
Proof.
  intros T. unfold AdbConnection.__init__. fold T.
  unfold bind at 1, ret at 1.
  rewrite (bind_ok _ _ _ _ _ (nr_active_getitem_eq _ _)).
  reflexivity.
Qed.

Lemma bind_asked_for_root {A} (m : M A) (k1 k2 : A -> M AdbConnection.t) w :
  (forall a w', k1 a w' = match k2 a w' with
                          | (Some (Ok c), w'') => (Some (Ok (asked_for_root c)), w'')
                          | other => other
                          end) ->
  bind m k1 w = match bind m k2 w with
                | (Some (Ok c), w'') => (Some (Ok (asked_for_root c)), w'')
                | other => other
                end.
Proof. intros H. unfold bind. destruct (m w) as [[[a|e]|] w']; auto. Qed.

(** X14.  Asking for root while another connection to the device is active
    changes nothing but the flag: the toggle is refused before any host
    command is issued, the refusal is swallowed, and the constructor goes on
    exactly as it does without [adb_as_root].  The connection it returns
    carries the flag and records that there is no root state to restore. *)
Theorem constructor_as_root_while_busy (d : string) (timeout : option Z)
    (adb_server : option string) (adb_port : option Z) (attempts : Z) (w : World) :
  1 <= count w d ->
  AdbConnection.__init__ (Some d) timeout adb_server adb_port true attempts w
  = match AdbConnection.__init__ (Some d) timeout adb_server adb_port false attempts w with
    | (Some (Ok c), w') => (Some (Ok (asked_for_root c)), w')
    | other => other
    end
  /\ forall c w',
       AdbConnection.__init__ (Some d) timeout adb_server adb_port true attempts w
       = (Some (Ok c), w') ->
       AdbConnection.adb_as_root c = true
       /\ AdbConnection._restore_to_adb_root c = false.
Proof.
  intros Hc.
  assert (E : AdbConnection.__init__ (Some d) timeout adb_server adb_port true attempts w
              = match AdbConnection.__init__ (Some d) timeout adb_server adb_port false
                        attempts w with
                | (Some (Ok c), w') => (Some (Ok (asked_for_root c)), w')
                | other => other
                end).
  { rewrite !init_given. cbv zeta.
    set (w3 := set_nr_active (insert d (count w d + 1)) (touch d w)).
    set (T := match timeout with Some x => x | None => AdbConnection.default_timeout end).
    assert (Hbusy : AdbConnection._adb_root
                      (AdbConnection.mk d T adb_server adb_port true false "ls" "su -c {}")
                      true w3
                    = (Some (Err (AdbRootError AdbConnection.busy_message)), w3)).
    { apply adb_root_refused_when_busy. cbn [AdbConnection.device]. unfold w3.
      rewrite count_setitem. destruct (decide (d = d)); [lia | contradiction]. }
    erewrite (bind_ok _ _ w3 false w3)
      by (unfold bind, attempt; rewrite Hbusy; reflexivity).
    rewrite (bind_ok (ret false) _ w3 false w3 eq_refl).
    apply bind_asked_for_root. intros _ w4.
    apply bind_asked_for_root. intros ls w5.
    apply bind_asked_for_root. intros su w6. reflexivity. }
  split; [exact E|].
  intros c w' H. rewrite E in H.
  destruct (AdbConnection.__init__ (Some d) timeout adb_server adb_port false attempts w)
    as [[[c0|e]|] w0] eqn:E0; try discriminate.
  injection H as <- <-. split; [reflexivity|].
  rewrite init_given in E0. cbv zeta in E0.
  rewrite (bind_ok (ret false) _ _ false _ eq_refl) in E0.
  repeat (apply bind_inv_ok in E0; destruct E0 as (? & ? & ? & E0)).
  now injection E0 as <- _.
Qed.

Lemma constructor_as_root_while_busy_witness :
  fst (AdbConnection.__init__ (Some "emulator-5554") None None None true 5
         (single_world [answers ""; answers (capture "" 0 nl nl);
                        answers (capture "" 0 nl nl)]))
  = Some (Ok (AdbConnection.mk "emulator-5554" 10000 None None true false
                "ls -1" "su -c {}")).
Proof.
  rewrite (proj1 (constructor_as_root_while_busy "emulator-5554" None None None 5
                    (single_world [answers ""; answers (capture "" 0 nl nl);
                                   answers (capture "" 0 nl nl)])
                    ltac:(vm_compute; discriminate))).
  reflexivity.
Defined.

(** X15.  [_close] never leaves a negative count behind, however it ends: it
    takes one from the count of its device and drops the entry when the
    result is not positive.  So a close too many -- of a connection whose
    device has already been released -- leaves the count at zero; and, when
    the connection did not ask for root, it calls [adb_disconnect] once
    more. *)
Theorem close_never_leaves_a_negative_count (c : AdbConnection.t) (w : World) :
  let d := AdbConnection.device c in
  let res := AdbConnection._close c w in
  count (snd res) d = Z.max 0 (count w d - 1)
  /\ (forall d', d' <> d -> count (snd res) d' = count w d')
  /\ (count w d <= 1 -> AdbConnection.adb_as_root c = false ->
      disconnects d (trace (snd res)) = S (disconnects d (trace w))).
Proof.
  intros d res.
  set (g := fun x => if decide (d = x) then Z.max 0 (count w d - 1) else count w x).
  assert (G : counts_are g (snd res)).
  { unfold res. rewrite _close_eq. cbv zeta. fold d.
    destruct (Z.leb_spec (count w d - 1) 0) as [Hle|Hgt].
    - apply (preserves_bind (counts_are g)).
      + destruct (AdbConnection.adb_as_root c);
          [apply counts_adb_root | apply preserves_ret].
      + intros _. apply counts_adb_disconnect.
      + intros x. rewrite count_delitem, count_setitem, count_touch.
        unfold g. destruct (decide (d = x)); [lia | reflexivity].
    - cbn [snd]. intros x. rewrite count_setitem, count_touch.
      unfold g. destruct (decide (d = x)); [lia | reflexivity]. }
  split; [|split].
  - rewrite G. unfold g. now rewrite decide_True.
  - intros d' Hd. rewrite G. unfold g. now rewrite decide_False by congruence.
  - intros Hc Hr. unfold res. rewrite _close_eq. cbv zeta. fold d.
    destruct (Z.leb_spec (count w d - 1) 0) as [Hle|Hgt]; [|lia].
    rewrite Hr. unfold bind at 1, ret at 1.
    rewrite adb_disconnect_traced. rewrite decide_True by reflexivity.
    cbn [trace set_nr_active]. now rewrite touch_trace.
Qed.

(** A connection is closed twice: the second close finds no count, leaves
    none, and calls [adb_disconnect] again. *)
Example closed_twice :
  let w1 := snd (AdbConnection._close sample_conn (single_world [])) in
  let w2 := snd (AdbConnection._close sample_conn w1) in
  nr_active w1 !! "emulator-5554" = None
  /\ nr_active w2 !! "emulator-5554" = None
  /\ trace w2 = [Ev_adb_disconnect "emulator-5554"; Ev_adb_disconnect "emulator-5554"].
Proof. repeat split; vm_compute; reflexivity. Qed.

(** X16.  The last close of a connection that asked for root undoes the
    count before it restores the root state, and the restore can fail: when
    the toggle command exits with a non-zero status and its text does not say
    that adbd is running as root, [_close] raises the root error, the count
    of the device is gone, and [adb_disconnect] has not been called. *)
Theorem close_restore_failure_skips_disconnect (c : AdbConnection.t) (w : World)
    (r : Reply) (rest : list Reply) (rc : Z) (out err : string) :
  AdbConnection.adb_as_root c = true ->
  count w (AdbConnection.device c) <= 1 ->
  script w = r :: rest -> outcome r = Exited rc out err ->
  rc <> 0 -> AdbConnection.is_rooted out = false ->
  let d := AdbConnection.device c in
  let toggle := adb_line w (Some d)
                  (if AdbConnection._restore_to_adb_root c then "root" else "unroot")
                  (AdbConnection.adb_server c) (AdbConnection.adb_port c) in
  let res := AdbConnection._close c w in
  fst res = Some (Err (AdbRootError (StrCalledProcessError rc (Line toggle))))
  /\ count (snd res) d = 0
  /\ trace (snd res) = Ev_run (Line toggle) (Some 30000) :: trace w.
Proof.
  intros Hr Hc Hs Ho Hrc Hout d toggle res. fold d in Hc.
  set (w2 := set_nr_active (delete d)
               (set_nr_active (insert d (count w d - 1)) (touch d w))).
  assert (C2 : count w2 d = 0).
  { unfold w2. rewrite count_delitem. now rewrite decide_True. }
  assert (E : res = (Some (Err (AdbRootError (StrCalledProcessError rc (Line toggle)))),
                     after_reply (Ev_run (Line toggle) (Some 30000)) r rest
                       (touch d w2))).
  { unfold res. rewrite _close_eq. cbv zeta. fold d.
    destruct (Z.leb_spec (count w d - 1) 0) as [Hle|Hgt]; [|lia].
    rewrite Hr. fold w2. unfold bind at 1, AdbConnection.adb_root, bind at 1.
    rewrite (_adb_root_step c _ w2 r rest);
      [|fold d; lia | unfold w2; cbn [script set_nr_active]; now rewrite touch_script].
    cbv zeta. fold d. rewrite Ho. unfold toggle_result.
    destruct (Z.eqb_spec rc 0); [contradiction|]. rewrite Hout.
    replace (adb_line w2) with (adb_line w);
      [reflexivity
      |unfold adb_line, w2; cbn [env_adb set_nr_active]; unfold touch;
       now destruct (nr_active w !! d)]. }
  rewrite E. cbn [fst snd]. split; [reflexivity|]. split.
  - unfold after_reply.
    change (count (emit _ (elapse _ (set_script rest (touch d w2)))) d)
      with (count (touch d w2) d).
    now rewrite count_touch.
  - unfold after_reply. cbn [trace emit elapse set_script].
    rewrite touch_trace. unfold w2. cbn [trace set_nr_active]. now rewrite touch_trace.
Qed.

Lemma close_restore_failure_skips_disconnect_witness :
  let res := AdbConnection._close sample_root_conn
               (single_world [fails_with 1 "error: device offline"]) in
  fst res = Some (Err (AdbRootError
                         (StrCalledProcessError 1
                            (Line "LC_ALL=C adb -s emulator-5554 unroot"))))
  /\ count (snd res) "emulator-5554" = 0
  /\ trace (snd res)
     = [Ev_run (Line "LC_ALL=C adb -s emulator-5554 unroot") (Some 30000)].
Proof.
  apply (close_restore_failure_skips_disconnect sample_root_conn
           (single_world [fails_with 1 "error: device offline"])
           (fails_with 1 "error: device offline") [] 1 "error: device offline" "").
  - reflexivity.
  - vm_compute. discriminate.
  - reflexivity.
  - reflexivity.
  - lia.
  - reflexivity.
Defined.

(** * Device properties *)

Lemma length_append (a b : string) :
  String.length (a +:+ b) = (String.length a + String.length b)%nat.
Proof. induction a as [|c a IH]; [reflexivity|]. rewrite app_cons. cbn. now rewrite IH. Qed.

Lemma group2_closes v rest :
  bracket_free v = true ->
  AndroidProperties.group2 (v +:+ String "]" rest) = Some (v, rest).
Proof.
  unfold bracket_free, no_char. intros H. apply andb_prop in H. destruct H as [H1 H2].
  induction v as [|c v IH].
  - reflexivity.
  - cbn [all_chars] in H1, H2.
    apply andb_prop in H1. destruct H1 as [Hc1 H1].
    apply andb_prop in H2. destruct H2 as [Hc2 H2].
    apply negb_true_iff in Hc1, Hc2.
    rewrite app_cons. cbn [AndroidProperties.group2]. rewrite Hc1, Hc2.
    now rewrite (IH H1 H2).
Qed.

Lemma after_group1_not_here c t :
  Ascii.eqb c "]" = false -> AndroidProperties.after_group1 (String c t) = None.
Proof.
  intros H. unfold AndroidProperties.after_group1.
  destruct t as [|c2 [|c3 t]]; try reflexivity. now rewrite H.
Qed.

Lemma group1_closes k v rest :
  bracket_free k = true -> bracket_free v = true ->
  AndroidProperties.group1 (k +:+ "]: [" +:+ v +:+ String "]" rest) = Some (k, v, rest).
Proof.
  intros Hk Hv. unfold bracket_free, no_char in Hk.
  apply andb_prop in Hk. destruct Hk as [H1 H2].
  induction k as [|c k IH].
  - change ("" +:+ "]: [" +:+ v +:+ String "]" rest)
      with (String "]" (String ":" (String " " (String "[" (v +:+ String "]" rest))))).
    cbn [AndroidProperties.group1 AndroidProperties.after_group1].
    change (Ascii.eqb "]" "]" && Ascii.eqb ":" ":" && isspace " ") with true.
    cbv iota. cbn [lstrip]. change (isspace "[") with false. cbv iota.
    change (Ascii.eqb "[" "[") with true. cbv iota.
    now rewrite (group2_closes _ _ Hv).
  - cbn [all_chars] in H1, H2.
    apply andb_prop in H1. destruct H1 as [Hc1 H1].
    apply andb_prop in H2. destruct H2 as [Hc2 H2].
    apply negb_true_iff in Hc1, Hc2.
    rewrite app_cons. cbn [AndroidProperties.group1].
    rewrite (after_group1_not_here _ _ Hc1), Hc2. now rewrite (IH H1 H2).
Qed.

Lemma findall_go_skip a b :
  AndroidProperties.findall_go (String.length a) (a +:+ b)
  = AndroidProperties.findall_go 0 b.
Proof.
  induction a as [|c a IH]; [reflexivity|].
  rewrite app_cons. cbn [String.length AndroidProperties.findall_go]. exact IH.
Qed.

Lemma findall_getprop kvs :
  Forall (fun kv => bracket_free (fst kv) = true /\ bracket_free (snd kv) = true) kvs ->
  AndroidProperties.findall (getprop_text kvs) = kvs.
Proof.
  induction 1 as [|[k v] kvs [Hk Hv] _ IH]; [reflexivity|].
  cbn [fst snd] in Hk, Hv. cbn [getprop_text foldr]. fold (getprop_text kvs).
  unfold getprop_line. cbn [fst snd].
  set (rest := nl +:+ getprop_text kvs).
  set (m := k +:+ "]: [" +:+ v +:+ "]").
  assert (E : ("[" +:+ k +:+ "]: [" +:+ v +:+ "]" +:+ nl) +:+ getprop_text kvs
              = String "[" (m +:+ rest)).
  { unfold m, rest. rewrite !app_assoc'. reflexivity. }
  rewrite E. unfold AndroidProperties.findall.
  cbn [AndroidProperties.findall_go]. change (Ascii.eqb "[" "[") with true. cbv iota.
  assert (Em : m +:+ rest = k +:+ "]: [" +:+ v +:+ String "]" rest).
  { unfold m. rewrite !app_assoc'. reflexivity. }
  rewrite Em, (group1_closes _ _ _ Hk Hv). rewrite <- Em.
  f_equal.
  replace (String.length (m +:+ rest) - String.length rest)%nat with (String.length m)
    by (rewrite length_append; lia).
  rewrite findall_go_skip. unfold rest, nl, chr. rewrite app_cons.
  cbn [AndroidProperties.findall_go]. change (Ascii.eqb LF "[") with false. cbv iota.
  exact IH.
Qed.

Lemma dict_get_setitem {V} k k' (v : V) d :
  PyStr.dict_get k (PyStr.dict_setitem k' v d)
  = if String.eqb k' k then Some v else PyStr.dict_get k d.
Proof.
  induction d as [|[k0 v0] d IH].
  - reflexivity.
  - cbn [PyStr.dict_setitem PyStr.dict_get].
    destruct (String.eqb_spec k0 k') as [->|Hne]; cbn [PyStr.dict_get].
    + now destruct (String.eqb k' k).
    + rewrite IH. destruct (String.eqb_spec k0 k) as [->|Hne']; [|reflexivity].
      destruct (String.eqb_spec k' k); [congruence | reflexivity].
Qed.

Lemma dict_get_fold {V} k (l : list (string * V)) d :
  PyStr.dict_get k (fold_left (fun d kv => PyStr.dict_setitem (fst kv) (snd kv) d) l d)
  = match (list_to_map (reverse l) : gmap string V) !! k with
    | Some v => Some v
    | None => PyStr.dict_get k d
    end.
Proof.
  revert d. induction l as [|[k1 v1] l IH]; intros d; [reflexivity|].
  cbn [fold_left fst snd]. rewrite IH, dict_get_setitem.
  rewrite reverse_cons, list_to_map_app, lookup_union.
  destruct (list_to_map (reverse l) !! k) as [v|]; [now rewrite union_Some_l|].
  cbn [list_to_map foldr].
  destruct (String.eqb_spec k1 k) as [->|Hne].
  - now rewrite lookup_insert_eq.
  - now rewrite lookup_insert_ne, lookup_empty.
Qed.

Lemma keys_setitem {V} k (v : V) d :
  map fst (PyStr.dict_setitem k v d)
  = if existsb (String.eqb k) (map fst d) then map fst d else map fst d ++ [k].
Proof.
  induction d as [|[k0 v0] d IH]; [reflexivity|].
  cbn [PyStr.dict_setitem map fst existsb]. rewrite (String.eqb_sym k k0).
  destruct (String.eqb k0 k); cbn [map fst orb]; [reflexivity|].
  rewrite IH. now destruct (existsb _ _).
Qed.

Lemma keys_fold {V} (l : list (string * V)) d :
  map fst (fold_left (fun d kv => PyStr.dict_setitem (fst kv) (snd kv) d) l d)
  = map fst d ++ first_occurrences (map fst d) (map fst l).
Proof.
  revert d. induction l as [|[k1 v1] l IH]; intros d.
  - cbn. now rewrite app_nil_r.
  - cbn [fold_left fst snd map first_occurrences]. rewrite IH, keys_setitem.
    destruct (existsb _ _); [reflexivity|]. now rewrite <- app_assoc.
Qed.

(** X18.  [AndroidProperties] reads back what [getprop] prints.  For a text
    of lines [[key]: [value]], keys and values free of closing brackets and
    line feeds, a key reads as the value of its last line and a key that has
    no line reads as [None] instead of raising; iterating yields every key
    once, in the order of the first lines. *)
Theorem properties_roundtrip (kvs : list (string * string)) :
  Forall (fun kv => bracket_free (fst kv) = true /\ bracket_free (snd kv) = true) kvs ->
  let p := AndroidProperties.__init__ (getprop_text kvs) in
  (forall k, AndroidProperties.__getitem__ p k
             = (list_to_map (reverse kvs) : gmap string string) !! k)
  /\ AndroidProperties.__iter__ p = first_occurrences [] (map fst kvs).
Proof.
  intros H p. unfold p, AndroidProperties.__init__, AndroidProperties.parse.
  rewrite (findall_getprop _ H). split.
  - intros k. unfold AndroidProperties.__getitem__, AndroidProperties.__getattr__.
    cbn [AndroidProperties._properties]. unfold PyStr.dict_of_pairs.
    rewrite dict_get_fold. now destruct (_ !! k).
  - unfold AndroidProperties.__iter__. cbn [AndroidProperties._properties].
    unfold PyStr.dict_of_pairs. now rewrite keys_fold.
Qed.

Lemma properties_roundtrip_witness :
  let p := AndroidProperties.__init__
             (getprop_text [("ro.build.version.sdk", "28"); ("ro.product.cpu.abi", "");
                            ("ro.build.version.sdk", "29")]) in
  (forall k, AndroidProperties.__getitem__ p k
             = ({["ro.product.cpu.abi" := ""; "ro.build.version.sdk" := "29"]}
                : gmap string string) !! k)
  /\ AndroidProperties.__iter__ p = ["ro.build.version.sdk"; "ro.product.cpu.abi"].
Proof.
  apply (properties_roundtrip [("ro.build.version.sdk", "28"); ("ro.product.cpu.abi", "");
                               ("ro.build.version.sdk", "29")]).
  repeat constructor.
Defined.

(** * Package information *)

Lemma parse_line_permissions ABI line :
  exists (r : option ApkInfo.error) (add : list string), forall self,
    fst (ApkInfo.parse_line ABI line self) = r
    /\ ApkInfo.permissions (snd (ApkInfo.parse_line ABI line self))
       = ApkInfo.permissions self ++ add.
Proof.
  unfold ApkInfo.parse_line.
  destruct (PyStr.startswith "application-label:" line).
  { destruct (PyStr.split_sep ":" line) as [|? [|? ?]];
      eexists _, []; intros self; (split; [cbn [fst]; reflexivity | cbn; now rewrite app_nil_r]). }
  destruct (PyStr.startswith "package:" line).
  { destruct (ApkInfo.search ApkInfo.version_regex_match line) as [[[? ?] ?]|];
      eexists _, []; intros self; (split; [cbn [fst]; reflexivity | cbn; now rewrite app_nil_r]). }
  destruct (PyStr.startswith "launchable-activity:" line).
  { destruct (ApkInfo.search ApkInfo.name_regex_match line);
      eexists _, []; intros self; (split; [cbn [fst]; reflexivity | cbn; now rewrite app_nil_r]). }
  destruct (PyStr.startswith "native-code" line).
  { destruct (PyStr.split_sep ":" line) as [|? [|? ?]];
      eexists _, []; intros self; (split; [cbn [fst]; reflexivity | cbn; now rewrite app_nil_r]). }
  destruct (PyStr.startswith "uses-permission:" line).
  { destruct (ApkInfo.search ApkInfo.name_regex_match line) as [p|].
    - exists None, [p]. intros self. split; reflexivity.
    - exists None, []. intros self. split; [reflexivity | cbn; now rewrite app_nil_r]. }
  exists None, []. intros self. split; [reflexivity | cbn; now rewrite app_nil_r].
Qed.

Lemma parse_lines_permissions ABI lines :
  exists (r : option ApkInfo.error) (found : list string), forall self,
    fst (ApkInfo.parse_lines ABI lines self) = r
    /\ ApkInfo.permissions (snd (ApkInfo.parse_lines ABI lines self))
       = ApkInfo.permissions self ++ found.
Proof.
  induction lines as [|line rest (r & found & IH)].
  - exists None, []. intros self. split; [reflexivity | cbn; now rewrite app_nil_r].
  - destruct (parse_line_permissions ABI line) as (r1 & add & H1).
    destruct r1 as [e|].
    + exists (Some e), add. intros self. destruct (H1 self) as [Hf Hp].
      cbn [ApkInfo.parse_lines].
      destruct (ApkInfo.parse_line ABI line self) as [o self']. cbn [fst snd] in *.
      subst o. now split.
    + exists r, (add ++ found). intros self. destruct (H1 self) as [Hf Hp].
      cbn [ApkInfo.parse_lines].
      destruct (ApkInfo.parse_line ABI line self) as [o self']. cbn [fst snd] in *.
      subst o. destruct (IH self') as [Hr Hq]. split; [exact Hr|].
      now rewrite Hq, Hp, app_assoc.
Qed.

(** X19.  [parse] never clears the permissions: it appends the permissions
    of the output to those the object already holds.  What it appends
    depends on the output alone, so an object that parses the same output a
    second time lists every permission twice. *)
Theorem parse_appends_permissions (ABI_MAP : list (string * list string))
    (apk_path output : string) :
  exists found, forall self,
    ApkInfo.permissions (snd (ApkInfo.parse ABI_MAP apk_path output self))
    = ApkInfo.permissions self ++ found.
Proof.
  destruct (parse_lines_permissions ABI_MAP (PyStr.split_sep LF output))
    as (r & found & H).
  exists found. intros self. destruct (H self) as [_ Hp]. unfold ApkInfo.parse.
  destruct (ApkInfo.parse_lines ABI_MAP (PyStr.split_sep LF output) self)
    as [[e|] self']; exact Hp.
Qed.

(** An object parses the same output twice. *)
Example permissions_parsed_twice :
  let output := "package: name='com.example' versionCode='1' versionName='1.0'" +:+ nl
                +:+ "uses-permission: name='android.permission.INTERNET'" +:+ nl in
  let once := snd (ApkInfo.parse [] "a.apk" output fresh_apk) in
  let twice := snd (ApkInfo.parse [] "a.apk" output once) in
  ApkInfo.permissions once = ["android.permission.INTERNET"]
  /\ ApkInfo.permissions twice
     = ["android.permission.INTERNET"; "android.permission.INTERNET"]
  /\ ApkInfo.package twice = Some "com.example".
Proof. repeat split; vm_compute; reflexivity. Qed.

Lemma split_sep_none sep s : no_char sep s = true -> PyStr.split_sep sep s = [s].
Proof.
  induction s as [|c s IH]; [reflexivity|]. unfold no_char. cbn [all_chars].
  intros H. apply andb_prop in H. destruct H as [Hc Hs]. apply negb_true_iff in Hc.
  cbn [PyStr.split_sep]. now rewrite Hc, (IH Hs).
Qed.

Lemma split_sep_app sep a b :
  no_char sep a = true ->
  PyStr.split_sep sep (a +:+ String sep b) = a :: PyStr.split_sep sep b.
Proof.
  induction a as [|c a IH]; intros H.
  - change ("" +:+ String sep b) with (String sep b). cbn [PyStr.split_sep].
    now rewrite Ascii.eqb_refl.
  - unfold no_char in H. cbn [all_chars] in H. apply andb_prop in H.
    destruct H as [Hc Ha]. apply negb_true_iff in Hc.
    rewrite app_cons. cbn [PyStr.split_sep]. now rewrite Hc, (IH Ha).
Qed.

Lemma rstrip_app_last s x :
  isspace x = false -> rstrip (s +:+ String x "") = s +:+ String x "".
Proof.
  intros Hx. induction s as [|c s IH].
  - change ("" +:+ String x "") with (String x ""). cbn [rstrip]. now rewrite Hx.
  - rewrite app_cons. cbn [rstrip]. rewrite IH.
    assert (is_empty (s +:+ String x "") = false) as -> by now destruct s.
    now rewrite andb_false_r.
Qed.

Lemma all_chars_rstrip p s : all_chars p s = true -> all_chars p (rstrip s) = true.
Proof.
  induction s as [|c s IH]; [reflexivity|]. cbn [all_chars rstrip].
  intros H. apply andb_prop in H. destruct H as [Hc Hs].
  destruct (isspace c && is_empty (rstrip s)); [reflexivity|].
  cbn [all_chars]. now rewrite Hc, (IH Hs).
Qed.

Lemma replace_quote_none s :
  no_char SQ s = true -> replace (chr SQ) "" s = s.
Proof.
  unfold replace. induction s as [|c s IH]; [reflexivity|].
  unfold no_char. cbn [all_chars]. intros H. apply andb_prop in H.
  destruct H as [Hc Hs]. apply negb_true_iff in Hc.
  rewrite replace_go_here, prefix_chr, Hc. f_equal. now apply IH.
Qed.

Lemma replace_quote_app a b :
  replace (chr SQ) "" (a +:+ b) = replace (chr SQ) "" a +:+ replace (chr SQ) "" b.
Proof.
  unfold replace. induction a as [|c a IH]; [reflexivity|].
  rewrite app_cons, !replace_go_here, !prefix_chr.
  change (String.length (chr SQ) - 1)%nat with 0%nat.
  destruct (Ascii.eqb c SQ); rewrite IH; reflexivity.
Qed.

(** X20.  The label of the application is cut at its first colon.  From the
    line [application-label:'L'], with no quote inside [L], [parse] takes
    [L] itself when it holds no colon; when it does, the label is what
    stands before the first colon, without the white space at its end. *)
Theorem label_is_cut_at_a_colon (ABI_MAP : list (string * list string))
    (L : string) (self : ApkInfo.t) :
  no_char SQ L = true ->
  let self' := snd (ApkInfo.parse_line ABI_MAP (label_line L) self) in
  (no_char ":" L = true -> ApkInfo.label self' = Some L)
  /\ (forall A B, L = A +:+ ":" +:+ B -> no_char ":" A = true ->
        ApkInfo.label self' = Some (rstrip A)).
Proof.
  intros HL self'.
  assert (E : forall field more,
             PyStr.split_sep ":" (String SQ (L +:+ String SQ "")) = field :: more ->
             ApkInfo.label self' = Some (replace (chr SQ) "" (strip field))).
  { intros field more Hf. unfold self', ApkInfo.parse_line.
    change (PyStr.startswith "application-label:" (label_line L)) with true. cbv iota.
    change (label_line L)
      with ("application-label" +:+ String ":" (String SQ (L +:+ String SQ ""))).
    rewrite split_sep_app by reflexivity. rewrite Hf. reflexivity. }
  split.
  - intros Hc. erewrite E.
    2:{ apply split_sep_none. unfold no_char in *. cbn [all_chars].
        rewrite all_chars_app, Hc. reflexivity. }
    f_equal. unfold strip. cbn [lstrip]. change (isspace SQ) with false. cbv iota.
    cbn [rstrip]. change (isspace SQ) with false. cbn [andb].
    rewrite rstrip_app_last by reflexivity.
    change (String SQ (L +:+ String SQ "")) with (chr SQ +:+ L +:+ chr SQ).
    rewrite !replace_quote_app, (replace_quote_none _ HL).
    change (replace (chr SQ) "" (chr SQ)) with "". now rewrite app_nil_r'.
  - intros A B -> HA. erewrite E.
    2:{ change (String SQ ((A +:+ ":" +:+ B) +:+ String SQ ""))
          with (String SQ (A +:+ String ":" B) +:+ String SQ "").
        rewrite <- app_cons, app_assoc'.
        change (String ":" B +:+ String SQ "") with (String ":" (B +:+ String SQ "")).
        apply split_sep_app. unfold no_char in *. cbn [all_chars]. now rewrite HA. }
    f_equal. unfold strip. cbn [lstrip]. change (isspace SQ) with false. cbv iota.
    cbn [rstrip]. change (isspace SQ) with false. cbn [andb].
    change (String SQ (rstrip A)) with (chr SQ +:+ rstrip A).
    rewrite replace_quote_app. change (replace (chr SQ) "" (chr SQ)) with "".
    apply replace_quote_none. apply all_chars_rstrip.
    unfold no_char in HL. rewrite all_chars_app in HL.
    apply andb_prop in HL. now destruct HL.
Qed.

Lemma label_is_cut_at_a_colon_witness :
  ApkInfo.label (snd (ApkInfo.parse_line [] (label_line "Maps : Go") fresh_apk))
  = Some "Maps".
Proof.
  exact (proj2 (label_is_cut_at_a_colon [] "Maps : Go" fresh_apk eq_refl)
           "Maps " " Go" eq_refl eq_refl).
Defined.

Lemma run_to_quote_app n r :
  no_char SQ n = true -> ApkInfo.run_to_quote (n +:+ String SQ r) = Some (n, r).
Proof.
  induction n as [|c n IH]; intros H.
  - reflexivity.
  - unfold no_char in H. cbn [all_chars] in H. apply andb_prop in H.
    destruct H as [Hc Hn]. apply negb_true_iff in Hc.
    rewrite app_cons. cbn [ApkInfo.run_to_quote]. now rewrite Hc, (IH Hn).
Qed.

Lemma quoted_app n r :
  no_char SQ n = true ->
  ApkInfo.quoted (n +:+ String SQ r) = if is_empty n then None else Some (n, r).
Proof.
  intros H. unfold ApkInfo.quoted. rewrite (run_to_quote_app _ _ H). now destruct n.
Qed.

(** The pattern at the place where the line gives the name of the
    package. *)
Lemma version_regex_match_here n vcode vname tail :
  no_char SQ n = true -> no_char SQ vcode = true -> no_char SQ vname = true ->
  ApkInfo.version_regex_match
    ("name='" +:+ (n +:+ String SQ
       (" versionCode='" +:+ (vcode +:+ String SQ
          (" versionName='" +:+ (vname +:+ String SQ tail))))))
  = if is_empty n || is_empty vcode || is_empty vname then None
    else Some (n, vcode, vname).
Proof.
  intros Hn Hc Hv. unfold ApkInfo.version_regex_match.
  change (ApkInfo.literal "name='" ("name='" +:+ ?x)) with (Some x). cbv beta iota.
  rewrite (quoted_app _ _ Hn). destruct (is_empty n); [reflexivity|].
  change (ApkInfo.literal " versionCode='" (" versionCode='" +:+ ?x)) with (Some x).
  cbv beta iota.
  rewrite (quoted_app _ _ Hc). destruct (is_empty vcode); [reflexivity|].
  change (ApkInfo.literal " versionName='" (" versionName='" +:+ ?x)) with (Some x).
  cbv beta iota.
  rewrite (quoted_app _ _ Hv). now destruct (is_empty vname).
Qed.

Lemma search_cons {A} (m : string -> option A) c t :
  ApkInfo.search m (String c t)
  = match m (String c t) with
    | Some x => Some x
    | None => ApkInfo.search m t
    end.
Proof. reflexivity. Qed.

Ltac skip_char :=
  rewrite search_cons;
  match goal with
  | |- context [match ?m (String ?c ?t) with Some _ => _ | None => _ end] =>
      change (m (String c t)) with (@None (string * string * string))
  end; cbv iota.

Lemma package_line_eq n vcode vname tail :
  package_line n vcode vname tail
  = "package: " +:+ ("name='" +:+ (n +:+ String SQ
       (" versionCode='" +:+ (vcode +:+ String SQ
          (" versionName='" +:+ (vname +:+ String SQ tail)))))).
Proof. reflexivity. Qed.

Lemma literal_name_plain s b :
  plain s = true -> ApkInfo.literal "name='" (s +:+ String SQ b) = None.
Proof.
  unfold plain, no_char. intros H. apply andb_prop in H. destruct H as [Hq He].
  destruct s as [|c1 [|c2 [|c3 [|c4 [|c5 [|c6 s]]]]]];
    cbn [all_chars] in Hq, He;
    repeat match goal with
           | H : _ && _ = true |- _ => apply andb_prop in H; destruct H
           | H : negb _ = true |- _ => apply negb_true_iff in H
           end;
    rewrite ?app_cons; change ("" +:+ String SQ b) with (String SQ b);
    cbn [ApkInfo.literal];
    repeat match goal with
           | |- (if Ascii.eqb ?a ?c then _ else None) = None =>
               first [ change (Ascii.eqb a c) with false; cbv iota; reflexivity
                     | rewrite (Ascii.eqb_sym a c);
                       match goal with H : Ascii.eqb c a = false |- _ => rewrite H end;
                       reflexivity
                     | destruct (Ascii.eqb a c); [|reflexivity] ]
           end.
Qed.

Lemma search_version_plain s b :
  plain s = true ->
  ApkInfo.search ApkInfo.version_regex_match (s +:+ String SQ b)
  = ApkInfo.search ApkInfo.version_regex_match (String SQ b).
Proof.
  induction s as [|c s IH]; intros H; [reflexivity|].
  rewrite app_cons, search_cons. rewrite <- app_cons.
  unfold ApkInfo.version_regex_match at 1. rewrite (literal_name_plain _ _ H).
  apply IH. unfold plain, no_char in *. cbn [all_chars] in H.
  apply andb_prop in H. destruct H as [H1 H2].
  apply andb_prop in H1. destruct H1 as [_ H1].
  apply andb_prop in H2. destruct H2 as [_ H2]. now rewrite H1, H2.
Qed.

(** X21.  What [parse] makes of the line that describes the package.  When
    name, version code and version name are all non-empty, they are
    recorded.  When the version name is empty the pattern finds nothing, and
    the line is passed over in silence: the package and both versions are
    left as they were, [None] on a fresh object. *)
Theorem package_line_needs_a_version_name (ABI_MAP : list (string * list string))
    (n vcode vname tail : string) (self : ApkInfo.t) :
  no_char SQ n = true -> no_char SQ vcode = true -> no_char SQ vname = true ->
  is_empty n = false -> is_empty vcode = false ->
  let res := ApkInfo.parse_line ABI_MAP (package_line n vcode vname tail) self in
  (is_empty vname = false ->
   fst res = None
   /\ ApkInfo.package (snd res) = Some n
   /\ ApkInfo.version_code (snd res) = Some vcode
   /\ ApkInfo.version_name (snd res) = Some vname)
  /\ (is_empty vname = true -> plain n = true -> plain vcode = true ->
      ApkInfo.search ApkInfo.version_regex_match tail = None ->
      res = (None, self)).
Proof.
  intros Hn Hc Hv Nn Nc res.
  assert (E : res = match ApkInfo.search ApkInfo.version_regex_match
                            (package_line n vcode vname tail) with
                    | Some (n, vcode, vname) =>
                        (None,
                         ApkInfo.mk (ApkInfo.path self) (Some n) (ApkInfo.activity self)
                           (ApkInfo.label self) (Some vname) (Some vcode)
                           (ApkInfo.native_code self) (ApkInfo.permissions self)
                           (ApkInfo._apk_path self) (ApkInfo._activities self)
                           (ApkInfo._methods self) (ApkInfo._aapt self)
                           (ApkInfo._aapt_version self))
                    | None => (None, self)
                    end) by reflexivity.
  rewrite E, package_line_eq. clear E.
  change ("package: " +:+ ?x)
    with (String "p" (String "a" (String "c" (String "k" (String "a" (String "g"
            (String "e" (String ":" (String " " x))))))))).
  do 9 skip_char.
  change ("name='" +:+ ?x) with (String "n" ("ame='" +:+ x)). rewrite search_cons.
  change (ApkInfo.version_regex_match (String "n" ("ame='" +:+ ?x)))
    with (ApkInfo.version_regex_match ("name='" +:+ x)).
  split.
  - intros Nv.
    rewrite (version_regex_match_here _ _ _ _ Hn Hc Hv), Nn, Nc, Nv.
    cbn. now repeat split.
  - intros Ev Pn Pc Htail. destruct vname; [|discriminate].
    rewrite (version_regex_match_here _ _ "" _ Hn Hc Hv), Nn, Nc.
    cbn [is_empty orb].
    change ("ame='" +:+ ?x)
      with (String "a" (String "m" (String "e" (String "=" (String SQ x))))).
    do 5 skip_char.
    rewrite (search_version_plain _ _ Pn).
    change (" versionCode='" +:+ ?x)
      with (String " " (String "v" (String "e" (String "r" (String "s" (String "i"
              (String "o" (String "n" (String "C" (String "o" (String "d"
              (String "e" (String "=" (String SQ x)))))))))))))).
    do 15 skip_char.
    rewrite (search_version_plain _ _ Pc).
    change (" versionName='" +:+ ?x)
      with (String " " (String "v" (String "e" (String "r" (String "s" (String "i"
              (String "o" (String "n" (String "N" (String "a" (String "m"
              (String "e" (String "=" (String SQ x)))))))))))))).
    change ("" +:+ String SQ tail) with (String SQ tail).
    do 16 skip_char. now rewrite Htail.
Qed.

Lemma package_line_needs_a_version_name_witness :
  ApkInfo.parse_line [] (package_line "com.example" "12" "" " platformBuildVersionName=''")
    fresh_apk
  = (None, fresh_apk).
Proof.
  refine (proj2 (package_line_needs_a_version_name [] "com.example" "12" ""
                   " platformBuildVersionName=''" fresh_apk
                   eq_refl eq_refl eq_refl eq_refl eq_refl)
            eq_refl eq_refl eq_refl eq_refl).
Defined.

(** * The environment *)

Lemma leb_trans a b c :
  String.leb a b = true -> String.leb b c = true -> String.leb a c = true.
Proof.
  unfold String.leb. revert b c.
  induction a as [|c1 a IH]; intros [|c2 b] [|c3 c]; cbn [String.compare];
    try reflexivity; try discriminate.
  unfold Ascii.compare.
  destruct (N.compare_spec (N_of_ascii c1) (N_of_ascii c2)) as [E12|L12|G12];
    destruct (N.compare_spec (N_of_ascii c2) (N_of_ascii c3)) as [E23|L23|G23];
    try discriminate; intros H1 H2.
  - rewrite E12, E23, N.compare_refl. now apply (IH b c).
  - rewrite E12. now rewrite (proj2 (N.compare_lt_iff _ _) L23).
  - rewrite <- E23. now rewrite (proj2 (N.compare_lt_iff _ _) L12).
  - rewrite (proj2 (N.compare_lt_iff _ _) (N.lt_trans _ _ _ L12 L23)). reflexivity.
Qed.

Lemma insort_In x y l : In y (PyStr.insort x l) <-> y = x \/ In y l.
Proof.
  induction l as [|z l IH]; cbn [PyStr.insort In]; [intuition congruence|].
  destruct (String.leb x z); cbn [In]; [intuition congruence|].
  rewrite IH. intuition congruence.
Qed.

Lemma sorted_In y l : In y (PyStr.sorted l) <-> In y l.
Proof.
  induction l as [|x l IH]; [reflexivity|].
  cbn [PyStr.sorted fold_right In]. fold (PyStr.sorted l).
  rewrite insort_In, IH. intuition congruence.
Qed.

Lemma insort_ascending x l : ascending l -> ascending (PyStr.insort x l).
Proof.
  induction l as [|z l IH]; intros H; [now split|].
  destruct H as [Hz Hl]. cbn [PyStr.insort].
  destruct (String.leb x z) eqn:E.
  - split; [|now split]. constructor; [exact E|].
    eapply Forall_impl; [exact Hz|]. intros y Hy. cbn in Hy.
    now apply (leb_trans x z y).
  - split; [|now apply IH].
    apply List.Forall_forall. intros y Hy. apply insort_In in Hy.
    destruct Hy as [->|Hy].
    + destruct (String.leb_total x z) as [H|H]; [congruence | exact H].
    + rewrite List.Forall_forall in Hz. now apply Hz.
Qed.

Lemma sorted_ascending l : ascending (PyStr.sorted l).
Proof.
  induction l as [|x l IH]; [exact I|]. cbn [PyStr.sorted fold_right].
  now apply insort_ascending.
Qed.

Section Tools.

Variables (h : _AndroidEnvironment.Host) (bt : string).

Let finders (version : string) :=
  [(version, _AndroidEnvironment.find_aapt2 h bt version);
   (version, _AndroidEnvironment.find_aapt h bt version)].

Lemma join_tool_not_empty v tool :
  is_empty tool = false -> String.prefix "/" tool = false ->
  is_empty (os_path.join bt [v; tool]) = false.
Proof.
  intros Hne Hs. unfold os_path.join. cbn [fold_left].
  unfold os_path.join2 at 1. unfold PyStr.startswith. rewrite Hs.
  destruct (is_empty _ || ends_with _ _); rewrite ?is_empty_app, Hne;
    cbn [is_empty andb]; now rewrite ?andb_false_r.
Qed.

Lemma first_found_finders v rest :
  _AndroidEnvironment.first_found (finders v ++ rest)
  = match tool_in h bt v with
    | Some r => Some r
    | None => _AndroidEnvironment.first_found rest
    end.
Proof.
  unfold finders, tool_in, _AndroidEnvironment.find_aapt2, _AndroidEnvironment.find_aapt.
  cbv zeta. cbn [app _AndroidEnvironment.first_found].
  destruct (_ && _).
  - now rewrite join_tool_not_empty.
  - destruct (_AndroidEnvironment.isfile h _); [|reflexivity].
    now rewrite join_tool_not_empty.
Qed.

Lemma first_found_app_versions l1 l2 :
  _AndroidEnvironment.first_found (flat_map finders (l1 ++ l2))
  = match _AndroidEnvironment.first_found (flat_map finders l1) with
    | Some r => Some r
    | None => _AndroidEnvironment.first_found (flat_map finders l2)
    end.
Proof.
  induction l1 as [|v l1 IH]; [reflexivity|].
  cbn [app flat_map]. rewrite !first_found_finders, IH.
  now destruct (tool_in h bt v).
Qed.

Lemma first_found_none l :
  (forall v, In v l -> tool_in h bt v = None) ->
  _AndroidEnvironment.first_found (flat_map finders l) = None.
Proof.
  induction l as [|v l IH]; intros H; [reflexivity|].
  cbn [flat_map]. rewrite first_found_finders, (H v (or_introl eq_refl)).
  apply IH. intros v' Hv'. apply H. now right.
Qed.

(** Going down an ascending list, the first version that offers a tool is
    the greatest that does. *)
Lemma first_found_greatest l v r :
  ascending l -> In v l -> tool_in h bt v = Some r ->
  (forall v', In v' l -> tool_in h bt v' <> None -> String.leb v' v = true) ->
  _AndroidEnvironment.first_found (flat_map finders (rev l)) = Some r.
Proof.
  induction l as [|x l IH]; intros Ha Hv Hr Hmax; [destruct Hv|].
  destruct Ha as [Hx Ha]. cbn [rev]. rewrite first_found_app_versions.
  destruct (in_dec string_dec v l) as [Hin|Hnin].
  - rewrite (IH Ha Hin Hr); [reflexivity|].
    intros v' Hv'. apply Hmax. now right.
  - destruct Hv as [->|Hv]; [|contradiction].
    rewrite first_found_none.
    + cbn [flat_map]. rewrite app_nil_r.
      rewrite <- (app_nil_r (finders v)), first_found_finders. now rewrite Hr.
    + intros y Hy. rewrite <- in_rev in Hy.
      destruct (tool_in h bt y) eqn:Ey; [|reflexivity].
      exfalso. apply Hnin.
      assert (y = v); [|now subst].
      apply String.leb_antisym.
      * apply Hmax; [now right | congruence].
      * rewrite List.Forall_forall in Hx. now apply Hx.
Qed.

End Tools.

(** X22.  Among the versions of the build tools [_discover_aapt] takes the
    last one, in the order of [str], that offers a tool, and from that
    version its [aapt2] when it passes the check and its [aapt] otherwise.
    The order is that of the characters, not of the version numbers: 9.0.0
    comes after 30.0.3. *)
Theorem discover_aapt_takes_the_last_version (h : _AndroidEnvironment.Host)
    (build_tools version : string) (r : string * Z) :
  is_empty build_tools = false ->
  In version (_AndroidEnvironment.listdir h build_tools) ->
  tool_in h build_tools version = Some r ->
  (forall v', In v' (_AndroidEnvironment.listdir h build_tools) ->
     tool_in h build_tools v' <> None -> String.leb v' version = true) ->
  _AndroidEnvironment._discover_aapt h (Some build_tools) = Ok r.
Proof.
  intros Hne Hin Hr Hmax. unfold _AndroidEnvironment._discover_aapt.
  cbn [_AndroidEnvironment.nonempty]. rewrite Hne. cbv zeta.
  rewrite (first_found_greatest h build_tools
             (PyStr.sorted (_AndroidEnvironment.listdir h build_tools)) version r).
  - reflexivity.
  - apply sorted_ascending.
  - now apply sorted_In.
  - exact Hr.
  - intros v' Hv'. apply Hmax. now apply sorted_In.
Qed.

Lemma discover_aapt_takes_the_last_version_witness :
  _AndroidEnvironment._discover_aapt sdk_host (Some "/sdk/build-tools")
  = Ok ("/sdk/build-tools/9.0.0/aapt", 1).
Proof.
  apply (discover_aapt_takes_the_last_version sdk_host "/sdk/build-tools" "9.0.0").
  - reflexivity.
  - right; left; reflexivity.
  - reflexivity.
  - intros v' [<-|[<-|[]]] _; reflexivity.
Defined.

Lemma tool_in_checked h bt v p ver :
  tool_in h bt v = Some (p, ver) ->
  is_empty p = false
  /\ (ver = 1 \/ ver = 2)
  /\ (ver = 2 -> _AndroidEnvironment._check_supported_aapt2 h p = true).
Proof.
  unfold tool_in. cbv zeta.
  destruct (_AndroidEnvironment.isfile h (os_path.join bt [v; "aapt2"])
            && _AndroidEnvironment._check_supported_aapt2 h (os_path.join bt [v; "aapt2"]))
    eqn:E2.
  - intros [= <- <-]. apply andb_prop in E2. destruct E2 as [_ E2].
    split; [now apply join_tool_not_empty|]. split; [now right | now intros _].
  - destruct (_AndroidEnvironment.isfile h (os_path.join bt [v; "aapt"])); [|discriminate].
    intros [= <- <-].
    split; [now apply join_tool_not_empty|]. split; [now left | discriminate].
Qed.

Lemma first_found_checked h bt l p ver :
  _AndroidEnvironment.first_found
    (flat_map (fun version => [(version, _AndroidEnvironment.find_aapt2 h bt version);
                               (version, _AndroidEnvironment.find_aapt h bt version)]) l)
  = Some (p, ver) ->
  exists v, tool_in h bt v = Some (p, ver).
Proof.
  induction l as [|v l IH]; [discriminate|].
  cbn [flat_map]. rewrite first_found_finders.
  destruct (tool_in h bt v) as [r|] eqn:E; [|exact IH].
  intros [= ->]. now exists v.
Qed.

Lemma discover_aapt_checked h build_tools p ver :
  _AndroidEnvironment._discover_aapt h build_tools = Ok (p, ver) ->
  is_empty p = false
  /\ (ver = 1 \/ ver = 2)
  /\ (ver = 2 -> _AndroidEnvironment._check_supported_aapt2 h p = true).
Proof.
  unfold _AndroidEnvironment._discover_aapt. cbv zeta.
  destruct (match _AndroidEnvironment.nonempty build_tools with
            | Some bt => _ | None => None end) as [[p0 v0]|] eqn:E.
  - intros [= -> ->].
    destruct (_AndroidEnvironment.nonempty build_tools) as [bt|]; [|discriminate].
    apply first_found_checked in E. destruct E as (v & E).
    exact (tool_in_checked _ _ _ _ _ E).
  - assert (Hn : forall o q, _AndroidEnvironment.nonempty o = Some q -> is_empty q = false).
    { intros [x|] q; cbn; [|discriminate].
      destruct (is_empty x) eqn:Ex; [discriminate|]. now intros [= <-]. }
    destruct (_AndroidEnvironment.nonempty (_AndroidEnvironment.which h "aapt2"))
      as [p2|] eqn:E2;
      [destruct (_AndroidEnvironment._check_supported_aapt2 h p2) eqn:Es|];
      try (intros [= <- <-]; split; [exact (Hn _ _ E2)|];
           split; [now right | now intros _]);
      (destruct (_AndroidEnvironment.nonempty (_AndroidEnvironment.which h "aapt"))
         as [p1|] eqn:E1; [|discriminate];
       intros [= <- <-]; split; [exact (Hn _ _ E1)|];
       split; [now left | discriminate]).
Qed.

(** X23.  Whatever the host looks like, an environment that is found names
    a tool: [aapt] is not empty, [aapt_version] is 1 or 2, and it is 2 only
    for a binary that has passed the check of [_check_supported_aapt2]. *)
Theorem env_names_a_checked_tool (h : _AndroidEnvironment.Host)
    (e : _AndroidEnvironment.Env) :
  _AndroidEnvironment.env h = Ok e ->
  is_empty (_AndroidEnvironment.aapt e) = false
  /\ (_AndroidEnvironment.aapt_version e = 1 \/ _AndroidEnvironment.aapt_version e = 2)
  /\ (_AndroidEnvironment.aapt_version e = 2 ->
      _AndroidEnvironment._check_supported_aapt2 h (_AndroidEnvironment.aapt e) = true).
Proof.
  assert (Hc : forall home bt p ver,
             _AndroidEnvironment._init_common h home = Ok (bt, (p, ver)) ->
             is_empty p = false
             /\ (ver = 1 \/ ver = 2)
             /\ (ver = 2 -> _AndroidEnvironment._check_supported_aapt2 h p = true)).
  { intros home bt p ver. unfold _AndroidEnvironment._init_common. cbv zeta.
    destruct (_AndroidEnvironment._discover_aapt h _) as [[p0 v0]|err] eqn:E;
      [|discriminate].
    intros [= _ -> ->]. exact (discover_aapt_checked _ _ _ _ E). }
  unfold _AndroidEnvironment.env, _AndroidEnvironment._from_android_home,
    _AndroidEnvironment._from_adb.
  destruct (_AndroidEnvironment.nonempty (_AndroidEnvironment.getenv h "ANDROID_HOME"))
    as [home|].
  - cbv zeta.
    destruct (_AndroidEnvironment._init_common h home) as [[bt [p ver]]|err] eqn:E;
      [|discriminate].
    intros [= <-]. exact (Hc _ _ _ _ E).
  - destruct (_AndroidEnvironment.nonempty (_AndroidEnvironment.which h "adb"))
      as [adb_path|]; [|discriminate].
    cbv zeta.
    destruct (_AndroidEnvironment._init_common h _) as [[bt [p ver]]|err] eqn:E;
      [|discriminate].
    intros [= <-]. exact (Hc _ _ _ _ E).
Qed.

Lemma env_names_a_checked_tool_witness :
  _AndroidEnvironment.env sdk_host = Ok sdk_env
  /\ is_empty (_AndroidEnvironment.aapt sdk_env) = false
  /\ (_AndroidEnvironment.aapt_version sdk_env = 1
      \/ _AndroidEnvironment.aapt_version sdk_env = 2)
  /\ (_AndroidEnvironment.aapt_version sdk_env = 2 ->
      _AndroidEnvironment._check_supported_aapt2 sdk_host
        (_AndroidEnvironment.aapt sdk_env) = true).
Proof.
  split; [reflexivity|]. exact (env_names_a_checked_tool sdk_host sdk_env eq_refl).
Defined.

(** * fastboot *)

(** X24.  [fastboot_flash_partition] never runs the fastboot binary of the
    environment: whatever that binary is, the shell line it hands to the
    host starts with the text of Python's built-in function [bin], followed
    by the two quoted arguments of [flash].  The line carries no device and
    runs without a timeout; a non-zero status surfaces as the process-exit
    error of that line. *)
Theorem fastboot_flash_ignores_the_fastboot_binary (bin_ : option string)
    (partition path_to_image : string) (w : World) (r : Reply) (rest : list Reply) :
  script w = r :: rest ->
  fastboot_flash_partition bin_ partition path_to_image w
  = (Some match outcome r with
          | Exited rc out err =>
              if rc =? 0 then Ok tt
              else Err (CalledProcessError rc
                          (Line (flash_line partition path_to_image)) out err)
          | Expired => Err (TimeoutError (Line (flash_line partition path_to_image)))
          end,
     after_reply (Ev_run (Line (flash_line partition path_to_image)) None) r rest w).
Proof.
  intros Hs. unfold fastboot_flash_partition, fastboot_command. cbv zeta.
  change ("<built-in function bin>" +:+ " " +:+ "" +:+ " "
          +:+ "flash " +:+ quote partition +:+ " " +:+ quote path_to_image)
    with (flash_line partition path_to_image).
  unfold bind. rewrite (check_output_step _ _ _ _ _ Hs).
  destruct (outcome r) as [rc out err|]; [|reflexivity].
  now destruct (rc =? 0).
Qed.

Lemma fastboot_flash_ignores_the_fastboot_binary_witness :
  snd (fastboot_flash_partition (Some "/sdk/platform-tools/fastboot") "boot" "my boot.img"
         (fresh_world [fails_with 127 "sh: 1: Syntax error"]))
  = mkWorld ∅ ∅ "adb" 0 [] ["c0ffee"]
      [Ev_run (Line "<built-in function bin>  flash boot 'my boot.img'") None].
Proof.
  rewrite (fastboot_flash_ignores_the_fastboot_binary
             (Some "/sdk/platform-tools/fastboot") "boot" "my boot.img"
             (fresh_world [fails_with 127 "sh: 1: Syntax error"])
             (fails_with 127 "sh: 1: Syntax error") [] eq_refl).
  reflexivity.
Defined.

(** * Granting permissions *)

Lemma grant_each_not_stable execute package permissions w e :
  fst (grant.grant_each execute package permissions w) = Some (Err e) ->
  is_TargetStableError e = false.
Proof.
  revert w. induction permissions as [|p rest IH]; intros w; [discriminate|].
  cbn [grant.grant_each]. unfold bind, attempt.
  destruct (execute _ w) as [[[out|e0]|] w1]; [apply IH | | discriminate].
  destruct (is_TargetStableError e0) eqn:E; [apply IH|].
  cbn. now intros [= <-].
Qed.

(** X25.  Once the package has been dumped, [grant_app_permissions] never
    reports a refused grant: a grant that fails with a stable error is
    skipped and the remaining permissions are still tried, so an error that
    leaves the function is never a stable one. *)
Theorem grant_never_reports_a_refusal (execute : string -> M string)
    (package dumpsys : string) (w w1 : World) (e : exn) :
  execute ("dumpsys package " +:+ package) w = (Some (Ok dumpsys), w1) ->
  fst (grant.grant_app_permissions execute package w) = Some (Err e) ->
  is_TargetStableError e = false.
Proof.
  intros Hd. unfold grant.grant_app_permissions, bind. rewrite Hd.
  destruct (ApkInfo.search grant.permissions_match dumpsys); [|discriminate].
  apply grant_each_not_stable.
Qed.

Lemma grant_never_reports_a_refusal_witness :
  let res := grant.grant_app_permissions sample_execute "com.example"
               (fresh_world grant_replies) in
  let e := TargetTransientError
             (returned_early_message ("x" +:+ nl +:+ "killed" +:+ nl) "") in
  fst res = Some (Err e)
  /\ is_TargetStableError e = false
  /\ script (snd res) = [].
Proof.
  split; [vm_compute; reflexivity|]. split; [|vm_compute; reflexivity].
  apply (grant_never_reports_a_refusal sample_execute "com.example" sample_dumpsys
           (fresh_world grant_replies)
           (snd (sample_execute "dumpsys package com.example" (fresh_world grant_replies)))).
  - vm_compute. reflexivity.
  - vm_compute. reflexivity.
Defined.

Lemma literal_app lit r : ApkInfo.literal lit (lit +:+ r) = Some r.
Proof.
  induction lit as [|a lit IH]; [reflexivity|].
  rewrite app_cons. cbn [ApkInfo.literal]. now rewrite Ascii.eqb_refl.
Qed.

Lemma literal_inv lit s r : ApkInfo.literal lit s = Some r -> s = lit +:+ r.
Proof.
  revert s. induction lit as [|a lit IH]; intros s.
  - cbn. now intros [= ->].
  - cbn [ApkInfo.literal]. destruct s as [|c s]; [discriminate|].
    destruct (Ascii.eqb_spec a c) as [->|]; [|discriminate].
    intros H. rewrite app_cons. f_equal. now apply IH.
Qed.

Lemma span_until_stop stop a x b :
  all_chars (fun c => negb (stop c)) a = true -> stop x = true ->
  grant.span_until stop (a +:+ String x b) = (a, String x b).
Proof.
  intros Ha Hx. induction a as [|c a IH].
  - change ("" +:+ String x b) with (String x b). cbn [grant.span_until]. now rewrite Hx.
  - cbn [all_chars] in Ha. apply andb_prop in Ha. destruct Ha as [Hc Ha].
    apply negb_true_iff in Hc.
    rewrite app_cons. cbn [grant.span_until]. now rewrite Hc, (IH Ha).
Qed.

Lemma span_until_black ws rest :
  all_chars isspace ws = true -> starts_black rest = true ->
  grant.span_until (fun x => negb (isspace x)) (ws +:+ rest) = (ws, rest).
Proof.
  intros Hw Hr. induction ws as [|c ws IH].
  - change ("" +:+ rest) with rest. destruct rest as [|c r]; [reflexivity|].
    cbn [grant.span_until]. cbn [starts_black] in Hr. now rewrite Hr.
  - cbn [all_chars] in Hw. apply andb_prop in Hw. destruct Hw as [Hc Hw].
    rewrite app_cons. cbn [grant.span_until]. rewrite Hc. cbn [negb].
    now rewrite (IH Hw).
Qed.

Lemma word_no_LF name :
  is_word name = true -> all_chars (fun c => negb (Ascii.eqb c LF)) name = true.
Proof.
  unfold is_word. intros H. apply andb_prop in H. destruct H as [_ H].
  revert H. apply all_chars_impl. intros c Hc. apply negb_true_iff in Hc.
  apply negb_true_iff. destruct (Ascii.eqb_spec c LF); [subst; discriminate | reflexivity].
Qed.

(** A round on the line of a permission: it takes the line, its line feed
    and the white space that follows. *)
Lemma round_permission p ws rest :
  is_permission p -> all_chars isspace ws = true -> starts_black rest = true ->
  grant.round (p +:+ String LF (ws +:+ rest)) = Some (p +:+ String LF ws, rest).
Proof.
  intros (name & -> & Hn) Hw Hr. unfold grant.round.
  change (ApkInfo.literal "android"
            (("android.permission." +:+ name) +:+ String LF (ws +:+ rest)))
    with (Some (String "." ("permission" +:+ String "." (name +:+ String LF (ws +:+ rest))))).
  cbv iota. change (Ascii.eqb "." LF) with false. cbv iota.
  rewrite literal_app.
  rewrite <- app_cons.
  rewrite span_until_stop;
    [|cbn [all_chars]; now rewrite (word_no_LF _ Hn) | reflexivity].
  cbn [is_empty].
  change (String LF (ws +:+ rest)) with (String LF ws +:+ rest).
  rewrite (span_until_black (String LF ws) rest) by (exact Hw || exact Hr).
  now rewrite app_assoc'.
Qed.

Lemma prefix_app a b : String.prefix a (a +:+ b) = true.
Proof.
  induction a as [|c a IH]; [now destruct b|].
  rewrite app_cons. cbn [String.prefix]. now destruct (ascii_dec c c).
Qed.

(** The heading cannot begin inside the text before [s] and end inside the
    heading that [s] begins with, unless that text holds a heading itself. *)
Lemma heading_straddle b s r :
  b <> "" ->
  ApkInfo.literal "requested permissions:" (b +:+ "requested permissions:" +:+ s) = Some r ->
  exists e, b = "requested permissions:" +:+ e.
Proof.
  intros Hne H. apply literal_inv in H.
  destruct b as [|c1 b]; [contradiction|]. clear Hne.
  rewrite app_cons in H. injection H as -> H.
  do 21 (destruct b as [|? b];
         [exfalso; cbv in H; congruence
         |rewrite app_cons in H; injection H as -> H]).
  now exists b.
Qed.

Lemma search_before_heading before s :
  contains "requested permissions:" before = false ->
  ApkInfo.search grant.permissions_match (before +:+ "requested permissions:" +:+ s)
  = ApkInfo.search grant.permissions_match ("requested permissions:" +:+ s).
Proof.
  induction before as [|c b IH]; intros H; [reflexivity|].
  cbn [contains] in H. apply orb_false_elim in H. destruct H as [Hp Hc].
  rewrite app_cons, search_cons. rewrite <- app_cons.
  unfold grant.permissions_match at 1.
  destruct (ApkInfo.literal _ (String c b +:+ _)) as [r|] eqn:E; [|now apply IH].
  exfalso. apply heading_straddle in E; [|discriminate].
  destruct E as (e & E). rewrite E, prefix_app in Hp. discriminate.
Qed.

Lemma lstrip_spaces ws rest :
  all_chars isspace ws = true -> starts_black rest = true ->
  lstrip (ws +:+ rest) = rest.
Proof.
  intros Hw Hr. induction ws as [|c ws IH].
  - change ("" +:+ rest) with rest. destruct rest as [|c r]; [reflexivity|].
    cbn [lstrip]. cbn [starts_black] in Hr. apply negb_true_iff in Hr. now rewrite Hr.
  - cbn [all_chars] in Hw. apply andb_prop in Hw. destruct Hw as [Hc Hw].
    rewrite app_cons. cbn [lstrip]. rewrite Hc. now apply IH.
Qed.

Lemma spaces_isspace s : spaces s = true -> all_chars isspace s = true.
Proof.
  apply all_chars_impl. intros c Hc. apply Ascii.eqb_eq in Hc. now subst c.
Qed.

Lemma permission_black p s : is_permission p -> starts_black (p +:+ s) = true.
Proof. intros (name & -> & _). reflexivity. Qed.

Lemma replace_space_app a b :
  replace (chr " ") "" (a +:+ b) = replace (chr " ") "" a +:+ replace (chr " ") "" b.
Proof.
  unfold replace. induction a as [|c a IH]; [reflexivity|].
  rewrite app_cons, !replace_go_here, !prefix_chr.
  change (String.length (chr " ") - 1)%nat with 0%nat.
  destruct (Ascii.eqb c " "); rewrite IH; reflexivity.
Qed.

Lemma replace_space_spaces s : spaces s = true -> replace (chr " ") "" s = "".
Proof.
  unfold replace, spaces. induction s as [|c s IH]; [reflexivity|].
  cbn [all_chars]. intros H. apply andb_prop in H. destruct H as [Hc Hs].
  apply Ascii.eqb_eq in Hc. subst c.
  rewrite replace_go_here, prefix_chr. change (Ascii.eqb " " " ") with true. cbv iota.
  change (String.length (chr " ") - 1)%nat with 0%nat. now rewrite (IH Hs).
Qed.

Lemma replace_space_black s :
  all_chars (fun c => negb (isspace c)) s = true -> replace (chr " ") "" s = s.
Proof.
  unfold replace. induction s as [|c s IH]; [reflexivity|].
  cbn [all_chars]. intros H. apply andb_prop in H. destruct H as [Hc Hs].
  rewrite replace_go_here, prefix_chr.
  destruct (Ascii.eqb_spec c " ") as [->|_]; [discriminate|].
  f_equal. now apply IH.
Qed.

Lemma permission_black_all p :
  is_permission p -> all_chars (fun c => negb (isspace c)) p = true.
Proof.
  intros (name & -> & Hn). unfold is_word in Hn. apply andb_prop in Hn.
  rewrite all_chars_app, (proj2 Hn). reflexivity.
Qed.

Section Block.

Variables indent next_indent next : string.
Hypothesis indent_spaces : spaces indent = true.
Hypothesis next_indent_spaces : spaces next_indent = true.
Hypothesis next_black : starts_black next = true.
Hypothesis next_other : grant.round next = None.

(** The lines of the permissions, each one after the indent, and then
    [seed]. *)
Let block (seed : string) (ps : list string) : string :=
  foldr (fun p acc => indent +:+ p +:+ nl +:+ acc) seed ps.

Lemma block_length seed ps : (length ps <= String.length (block seed ps))%nat.
Proof.
  induction ps as [|p ps IH]; [cbn; lia|].
  cbn [block foldr length]. fold (block seed ps).
  rewrite !length_append. cbn [nl chr String.length]. lia.
Qed.

(** The rounds take the lines of the permissions up to the next heading. *)
Lemma rounds_block ps : forall p fuel,
  is_permission p -> Forall is_permission ps -> (length ps < fuel)%nat ->
  grant.rounds fuel (p +:+ String LF (block (next_indent +:+ next) ps))
  = p +:+ String LF (block next_indent ps).
Proof.
  induction ps as [|q ps IH]; intros p fuel Hp Hps Hf;
    (destruct fuel as [|k]; [lia|]); cbn [grant.rounds].
  - cbn [block foldr].
    rewrite (round_permission p next_indent next Hp
               (spaces_isspace _ next_indent_spaces) next_black).
    destruct k as [|k]; cbn [grant.rounds]; [|rewrite next_other];
      now rewrite app_nil_r'.
  - cbn [block foldr]. fold (block (next_indent +:+ next) ps). fold (block next_indent ps).
    apply Forall_cons_1 in Hps. destruct Hps as [Hq Hps].
    change (q +:+ nl +:+ block (next_indent +:+ next) ps)
      with (q +:+ String LF (block (next_indent +:+ next) ps)).
    rewrite (round_permission p indent _ Hp (spaces_isspace _ indent_spaces)
               (permission_black q _ Hq)).
    rewrite (IH q k Hq Hps) by (cbn [length] in Hf; lia).
    rewrite app_assoc'. reflexivity.
Qed.

Lemma round_block p ps :
  is_permission p -> Forall is_permission ps ->
  exists text rest,
    grant.round (p +:+ String LF (block (next_indent +:+ next) ps)) = Some (text, rest)
    /\ (length ps <= String.length rest)%nat.
Proof.
  intros Hp Hps. destruct ps as [|q ps].
  - exists (p +:+ String LF next_indent), next. split; [|cbn; lia].
    apply round_permission; auto using spaces_isspace.
  - apply Forall_cons_1 in Hps. destruct Hps as [Hq Hps].
    exists (p +:+ String LF indent), (q +:+ String LF (block (next_indent +:+ next) ps)).
    split.
    + apply (round_permission p indent _ Hp (spaces_isspace _ indent_spaces)
               (permission_black q _ Hq)).
    + rewrite length_append. cbn [String.length length].
      pose proof (block_length (next_indent +:+ next) ps). lia.
Qed.

(** The group of the pattern on the part of the dump that lists the
    permissions. *)
Lemma permissions_match_block p ps s :
  is_permission p -> Forall is_permission ps ->
  s = next_indent +:+ next ->
  grant.permissions_match (requested_block indent (p :: ps) s)
  = Some (p +:+ String LF (block next_indent ps)).
Proof.
  intros Hp Hps ->. unfold grant.permissions_match, requested_block.
  rewrite literal_app. cbn [foldr]. fold (block (next_indent +:+ next) ps).
  change (nl +:+ indent +:+ p +:+ nl +:+ block (next_indent +:+ next) ps)
    with (String LF indent +:+ (p +:+ String LF (block (next_indent +:+ next) ps))).
  rewrite lstrip_spaces;
    [|cbn [all_chars]; now rewrite (spaces_isspace _ indent_spaces)
     |now apply permission_black].
  destruct (round_block p ps Hp Hps) as (text & rest & E & L).
  rewrite E. f_equal.
  pose proof (rounds_block ps p (S (String.length rest)) Hp Hps) as R.
  cbn [grant.rounds] in R. rewrite E in R. apply R. lia.
Qed.

(** Without its spaces, the group is the permissions, one on a line. *)
Lemma replace_block ps :
  Forall is_permission ps ->
  replace (chr " ") "" (block next_indent ps)
  = foldr (fun p acc => p +:+ String LF acc) "" ps.
Proof.
  induction 1 as [|p ps Hp Hps IH]; cbn [block foldr].
  - now apply replace_space_spaces.
  - fold (block next_indent ps).
    rewrite replace_space_app, (replace_space_spaces _ indent_spaces).
    rewrite replace_space_app, (replace_space_black p (permission_black_all p Hp)).
    change (nl +:+ block next_indent ps) with (String LF (block next_indent ps)).
    change (String LF (block next_indent ps)) with (nl +:+ block next_indent ps).
    rewrite replace_space_app, IH. reflexivity.
Qed.

End Block.

Lemma splitlines_permissions ps :
  Forall is_permission ps ->
  splitlines (foldr (fun p acc => p +:+ String LF acc) "" ps) = ps.
Proof.
  induction 1 as [|p ps Hp Hps IH]; [reflexivity|]. cbn [foldr].
  rewrite splitlines_line, IH; [reflexivity|].
  apply word_one_line. now apply permission_black_all.
Qed.

(** X26.  [grant_app_permissions] reads the permissions off the first part
    of the dump headed [requested permissions:]: when the permissions are
    listed one on a line, each after an indent of spaces, and what follows
    the list is not a permission, a grant is tried for every one of them, in
    the order of the dump, and for nothing else. *)
Theorem grant_tries_every_listed_permission (execute : string -> M string)
    (package : string) (w w1 : World)
    (before indent next_indent next : string) (permissions : list string) :
  execute ("dumpsys package " +:+ package) w
  = (Some (Ok (before +:+ requested_block indent permissions (next_indent +:+ next))), w1) ->
  contains "requested permissions:" before = false ->
  permissions <> [] ->
  Forall is_permission permissions ->
  spaces indent = true -> spaces next_indent = true ->
  starts_black next = true -> grant.round next = None ->
  grant.grant_app_permissions execute package w
  = grant.grant_each execute package permissions w1.
Proof.
  intros Hd Hb Hne Hps Hi Hni Hn Hr.
  unfold grant.grant_app_permissions, bind. rewrite Hd.
  destruct permissions as [|p ps]; [contradiction|].
  apply Forall_cons_1 in Hps. destruct Hps as [Hp Hps].
  unfold requested_block at 1. rewrite search_before_heading by exact Hb.
  fold (requested_block indent (p :: ps) (next_indent +:+ next)).
  pose proof (permissions_match_block indent next_indent next Hi Hni Hn Hr p ps _ Hp Hps eq_refl) as M.
  destruct (requested_block indent (p :: ps) (next_indent +:+ next)) as [|c t] eqn:E;
    [discriminate|].
  rewrite search_cons, M.
  change (replace " " "") with (replace (chr " ") "").
  rewrite replace_space_app, (replace_space_black p (permission_black_all p Hp)).
  match goal with
  | |- context [replace (chr " ") "" (String LF ?b)] =>
      change (String LF b) with (nl +:+ b)
  end.
  rewrite replace_space_app, (replace_block indent next_indent Hi Hni ps Hps).
  change (replace (chr " ") "" nl) with nl.
  change (p +:+ nl +:+ foldr (fun p acc => p +:+ String LF acc) "" ps)
    with (foldr (fun p acc => p +:+ String LF acc) "" (p :: ps)).
  rewrite splitlines_permissions by (constructor; assumption).
  reflexivity.
Qed.

Lemma grant_tries_every_listed_permission_witness :
  grant.grant_app_permissions sample_execute "com.example" (fresh_world grant_replies)
  = grant.grant_each sample_execute "com.example"
      ["android.permission.INTERNET"; "android.permission.CAMERA"]
      (snd (sample_execute "dumpsys package com.example" (fresh_world grant_replies))).
Proof.
  apply (grant_tries_every_listed_permission sample_execute "com.example"
           (fresh_world grant_replies)
           (snd (sample_execute "dumpsys package com.example" (fresh_world grant_replies)))
           ("Packages:" +:+ nl) "      " "    " ("install permissions:" +:+ nl)
           ["android.permission.INTERNET"; "android.permission.CAMERA"]).
  - vm_compute. reflexivity.
  - vm_compute. reflexivity.
  - discriminate.
  - repeat constructor.
    + exists "INTERNET". split; reflexivity.
    + exists "CAMERA". split; reflexivity.
  - reflexivity.
  - reflexivity.
  - reflexivity.
  - vm_compute. reflexivity.
Defined.

(** * The main activity of a package *)

Lemma split_sep_cut sep a b :
  PyStr.split_sep sep (a +:+ String sep b)
  = PyStr.split_sep sep a ++ PyStr.split_sep sep b.
Proof.
  induction a as [|c a IH].
  - change ("" +:+ String sep b) with (String sep b). cbn [PyStr.split_sep].
    now rewrite Ascii.eqb_refl.
  - rewrite app_cons. cbn [PyStr.split_sep]. rewrite IH.
    destruct (Ascii.eqb c sep); [reflexivity|].
    destruct (PyStr.split_sep sep a) as [|x xs] eqn:E; [|reflexivity].
    destruct a as [|c' a']; [discriminate|]. cbn [PyStr.split_sep] in E.
    destruct (Ascii.eqb c' sep); [discriminate|].
    destruct (PyStr.split_sep sep a'); discriminate.
Qed.

Lemma parse_lines_app ABI l1 l2 self :
  ApkInfo.parse_lines ABI (l1 ++ l2) self
  = match ApkInfo.parse_lines ABI l1 self with
    | (None, self') => ApkInfo.parse_lines ABI l2 self'
    | (Some e, self') => (Some e, self')
    end.
Proof.
  revert self. induction l1 as [|l l1 IH]; intros self; [reflexivity|].
  cbn [app ApkInfo.parse_lines].
  destruct (ApkInfo.parse_line ABI l self) as [[e|] self']; [reflexivity | apply IH].
Qed.

(** Where the text holds no [name='], the pattern of a name matches
    nowhere. *)
Lemma search_name_absent s :
  contains "name='" s = false -> ApkInfo.search ApkInfo.name_regex_match s = None.
Proof.
  assert (N : forall t, String.prefix "name='" t = false ->
                        ApkInfo.name_regex_match t = None).
  { intros t Ht. unfold ApkInfo.name_regex_match.
    destruct (ApkInfo.literal "name='" t) as [r|] eqn:E; [|reflexivity].
    apply literal_inv in E. subst t. now rewrite prefix_app in Ht. }
  induction s as [|c s IH]; intros H.
  - cbn [ApkInfo.search]. now rewrite N.
  - cbn [contains] in H. apply orb_false_elim in H. destruct H as [Hp Hc].
    rewrite search_cons, (N _ Hp). now apply IH.
Qed.

(** X27.  A [launchable-activity:] line that names no activity ends [parse]
    with an [AttributeError]: unlike the lines of the package and of the
    permissions, it is not passed over.  The lines after it are not read,
    the path of the package is not recorded, and the object keeps what the
    lines before have set. *)
Theorem launchable_activity_needs_a_name (ABI_MAP : list (string * list string))
    (apk_path before line after : string) (self self1 : ApkInfo.t) :
  PyStr.startswith "launchable-activity:" line = true ->
  contains "name='" line = false -> no_char LF line = true ->
  ApkInfo.parse_lines ABI_MAP (PyStr.split_sep LF before) self = (None, self1) ->
  ApkInfo.parse ABI_MAP apk_path (before +:+ nl +:+ line +:+ nl +:+ after) self
  = (Some ApkInfo.AttributeError, self1).
Proof.
  intros Hs Hq Hl Hb. unfold ApkInfo.parse.
  change (before +:+ nl +:+ line +:+ nl +:+ after)
    with (before +:+ String LF (line +:+ String LF after)).
  rewrite split_sep_cut, parse_lines_app, Hb, (split_sep_app LF line after Hl).
  cbn [ApkInfo.parse_lines].
  assert (E : ApkInfo.parse_line ABI_MAP line self1 = (Some ApkInfo.AttributeError, self1)).
  { unfold ApkInfo.parse_line. rewrite Hs, (search_name_absent line Hq).
    unfold PyStr.startswith in *. destruct line as [|c line]; [discriminate|].
    cbn [String.prefix] in Hs. destruct (ascii_dec "l" c) as [<-|]; [|discriminate].
    reflexivity. }
  now rewrite E.
Qed.

Lemma launchable_activity_needs_a_name_witness :
  let output :=
    "package: name='com.example' versionCode='7' versionName='1.2'" +:+ nl
    +:+ "launchable-activity: label='Maps'" +:+ nl
    +:+ "uses-permission: name='android.permission.CAMERA'" +:+ nl in
  let res := ApkInfo.parse [] "maps.apk" output fresh_apk in
  fst res = Some ApkInfo.AttributeError
  /\ ApkInfo.package (snd res) = Some "com.example"
  /\ ApkInfo.permissions (snd res) = []
  /\ ApkInfo._apk_path (snd res) = None.
Proof.
  cbv zeta.
  rewrite (launchable_activity_needs_a_name [] "maps.apk"
             "package: name='com.example' versionCode='7' versionName='1.2'"
             "launchable-activity: label='Maps'"
             ("uses-permission: name='android.permission.CAMERA'" +:+ nl)
             fresh_apk
             (ApkInfo.mk None (Some "com.example") None None (Some "1.2") (Some "7")
                None [] None None None "aapt" 1)
             eq_refl eq_refl eq_refl eq_refl).
  repeat split.
Defined.
